(** * A2A agentic workflow: the pipeline orchestration layer

    A shallow embedding of the orchestration code of the three-stage
    log-analysis / diagnosis / remediation pipeline:

    - [PyStr]       the string operations of Python the code relies on
                    ([upper], [lower], [in], [strip]);
    - [Classifier]  the severity parsing of [row_generator]
                    (machine1_log_analysis/agent_gemini.py);
    - [PyNum]       int true division and [round] on binary64 floats;
    - [Cost]        cost_tracker.py: pricing, ledger and session summary;
    - [Stage1]      [stream_csv_endpoint] and its [row_generator]: source
                    multiplexing, per-record execution, forwarding gate,
                    severity counts and the streamed document;
    - [Stage2]      the request middleware of the diagnosis stage with the
                    tool-call counter of machine2_diagnosis/tools.py;
    - [Stage3]      the tool-execution summary of the remediation stage;
    - [Registry]    the registry of trackers of cost_tracker.py;
    - [Remediation] the tools of machine3_remediation/tools.py and the
                    request middleware of the remediation stage;
    - [LogTools]    the IoT analysis tools of machine1_log_analysis/tools.py;
    - [Diagnosis]   the report parsing of machine2_diagnosis/tools.py
                    ([str.split], [re.search], [float], [int]) and the tools
                    built on it.

    The reasoning engine, the clock, the id generator, the random draws and
    the file system are the environment: their answers are arguments of the
    functions that use them ([World], [Turn], [FileSystem], [ToolEnv]); so
    is the rendering of a float in an f-string ([Rendering], [Runtime]), on
    which no statement depends. Response texts are modelled as
    8-bit strings over the ASCII alphabet, where [str.upper] and [str.lower]
    act on the letters a-z and A-Z only. The properties proved of these
    definitions follow them, module by module. *)

From Stdlib Require Import ZArith Ascii.
From Stdlib Require Import PrimFloat FloatOps SpecFloat FloatAxioms.
From stdpp Require Import gmap strings list pretty.
From Equations Require Import Equations.

Set Warnings "-inexact-float".
Set Default Proof Using "Type".

(* ===================================================================== *)
(** ** Python strings *)
(* ===================================================================== *)

Module PyStr.

Definition upper_ascii (c : ascii) : ascii :=
  let n := nat_of_ascii c in
  if (97 <=? n)%nat && (n <=? 122)%nat then ascii_of_nat (n - 32) else c.

Definition lower_ascii (c : ascii) : ascii :=
  let n := nat_of_ascii c in
  if (65 <=? n)%nat && (n <=? 90)%nat then ascii_of_nat (n + 32) else c.

(** [s.upper()] *)
Fixpoint upper (s : string) : string :=
  match s with
  | EmptyString => EmptyString
  | String c s' => String (upper_ascii c) (upper s')
  end.

(** [s.lower()] *)
Fixpoint lower (s : string) : string :=
  match s with
  | EmptyString => EmptyString
  | String c s' => String (lower_ascii c) (lower s')
  end.

(** [s.startswith(p)] *)
Fixpoint startswith (p s : string) : bool :=
  match p, s with
  | EmptyString, _ => true
  | String _ _, EmptyString => false
  | String a p', String b s' => if decide (a = b) then startswith p' s' else false
  end.

(** [needle in hay] *)
Fixpoint contains (needle hay : string) : bool :=
  startswith needle hay ||
  match hay with
  | EmptyString => false
  | String _ hay' => contains needle hay'
  end.

(** [c.isspace()] on the ASCII range: TAB, LF, VT, FF, CR, FS, GS, RS, US
    and the blank. *)
Definition is_space (c : ascii) : bool :=
  let n := nat_of_ascii c in
  ((9 <=? n)%nat && (n <=? 13)%nat) || ((28 <=? n)%nat && (n <=? 32)%nat).

Fixpoint lstrip (s : string) : string :=
  match s with
  | EmptyString => EmptyString
  | String c s' => if is_space c then lstrip s' else s
  end.

Fixpoint rstrip (s : string) : string :=
  match s with
  | EmptyString => EmptyString
  | String c s' =>
      match rstrip s' with
      | EmptyString => if is_space c then EmptyString else String c EmptyString
      | r => String c r
      end
  end.

(** [s.strip()] *)
Definition strip (s : string) : string := rstrip (lstrip s).

(** Truth value of a string in a condition: non-empty. *)
Definition truthy (s : string) : bool :=
  match s with EmptyString => false | String _ _ => true end.

(** [len(s)] *)
Definition len (s : string) : Z := Z.of_nat (String.length s).

(** Every character of [s] is white space. *)
Fixpoint all_space (s : string) : bool :=
  match s with
  | EmptyString => true
  | String c s' => is_space c && all_space s'
  end.

(** [sep.join(items)] *)
Fixpoint join (sep : string) (items : list string) : string :=
  match items with
  | [] => EmptyString
  | [item] => item
  | item :: items' => item +:+ sep +:+ join sep items'
  end.

(** Case-insensitive occurrence, stated on the text itself: some
    substring of [text] reads [kw] once upper-cased. *)
Definition mentions (kw text : string) : Prop :=
  ∃ pre mid post, text = pre +:+ mid +:+ post ∧ upper mid = kw.

End PyStr.

(* ===================================================================== *)
(** ** Severity classification *)
(* ===================================================================== *)

Module Classifier.
Import PyStr.

Inductive Severity := LOW | MEDIUM | HIGH | CRITICAL.

#[global] Instance Severity_eq_dec : EqDecision Severity.
Proof. solve_decision. Defined.

(** The string the code uses for a level. *)
Definition sev_name (s : Severity) : string :=
  match s with
  | LOW => "LOW" | MEDIUM => "MEDIUM" | HIGH => "HIGH" | CRITICAL => "CRITICAL"
  end.

(** LOW < MEDIUM < HIGH < CRITICAL *)
Definition sev_rank (s : Severity) : nat :=
  match s with LOW => 0 | MEDIUM => 1 | HIGH => 2 | CRITICAL => 3 end.

Definition marker : string := "RISK ASSESSMENT:".

(** The labelled form ['RISK ASSESSMENT: <LEVEL>'] the code looks for. *)
Definition labelled (s : Severity) : string := marker +:+ " " +:+ sev_name s.

(** "Determine severity with enhanced parsing" in [row_generator]:
    [None] stands for Python's [None]. *)
Definition determine_severity (response_text : string) : option Severity :=
  if truthy response_text && truthy (strip response_text) then
    let text_upper := upper response_text in
    if contains "RISK ASSESSMENT:" text_upper then
      if contains "RISK ASSESSMENT: CRITICAL" text_upper then Some CRITICAL
      else if contains "RISK ASSESSMENT: HIGH" text_upper then Some HIGH
      else if contains "RISK ASSESSMENT: MEDIUM" text_upper then Some MEDIUM
      else if contains "RISK ASSESSMENT: LOW" text_upper then Some LOW
      else None
    else if contains "CRITICAL" text_upper then Some CRITICAL
    else if contains "HIGH" text_upper then Some HIGH
    else if contains "MEDIUM" text_upper then Some MEDIUM
    else if contains "LOW" text_upper then Some LOW
    else None
  else None.

(** The value of a chain [if c then CRITICAL elif h then HIGH elif m then
    MEDIUM elif l then LOW else None] over the four tests [found]. *)
Definition first_found (found : Severity → bool) : option Severity :=
  if found CRITICAL then Some CRITICAL
  else if found HIGH then Some HIGH
  else if found MEDIUM then Some MEDIUM
  else if found LOW then Some LOW
  else None.

End Classifier.

(* ===================================================================== *)
(** ** Python numbers: ints as [Z], floats as binary64 *)
(* ===================================================================== *)

Module PyNum.

Definition Z2SF (z : Z) : spec_float :=
  match z with
  | Z0 => S754_zero false
  | Zpos p => S754_finite false p 0
  | Zneg p => S754_finite true p 0
  end.

(** [a / b] on two ints: the correctly rounded quotient; [None] stands for
    ZeroDivisionError and for OverflowError (quotient too large for a
    float). *)
Definition int_truediv (a b : Z) : option float :=
  match b with
  | Z0 => None
  | _ =>
      match SFdiv prec emax (Z2SF a) (Z2SF b) with
      | S754_infinity _ => None
      | r => Some (SF2Prim r)
      end
  end.

(** [float(n)] for an int (correctly rounded). *)
Definition float_of_int (n : Z) : float :=
  SF2Prim (binary_normalize prec emax n 0 false).

(** The integer nearest to [num / den], ties to even ([0 <= num], [0 < den]). *)
Definition round_half_even (num den : Z) : Z :=
  let q := (num / den)%Z in
  let r := (num mod den)%Z in
  match (2 * r ?= den)%Z with
  | Lt => q
  | Gt => (q + 1)%Z
  | Eq => if Z.even q then q else (q + 1)%Z
  end.

(** [round(x, ndigits)] on a float, for [0 <= ndigits]: the exact value of
    [x] is rounded half-even to [ndigits] decimals and the decimal result is
    converted back to the nearest float; zeros, infinities and NaN round to
    themselves. *)
Definition py_round (x : float) (ndigits : Z) : float :=
  match Prim2SF x with
  | S754_finite s m e =>
      let p := (10 ^ ndigits)%Z in
      let n := if (0 <=? e)%Z then (Zpos m * 2 ^ e * p)%Z
               else round_half_even (Zpos m * p) (2 ^ (- e)) in
      match n with
      | Zpos np => SF2Prim (SFdiv prec emax (S754_finite s np 0) (Z2SF p))
      | _ => if s then neg_zero else zero
      end
  | _ => x
  end.

End PyNum.

(* ===================================================================== *)
(** ** cost_tracker.py *)
(* ===================================================================== *)

Module Cost.
Import PyStr PyNum.

(** Values stored in the dictionaries the tracker builds. *)
Inductive PyVal :=
| PyInt (z : Z)
| PyFloat (f : float)
| PyStr (s : string)
| PyNone.

(** A dict literal, in insertion order. *)
Definition Dict := list (string * PyVal).

(** [d.get(k)]; [None] is a missing key ([d[k]] raises KeyError there). *)
Fixpoint dict_get (k : string) (d : Dict) : option PyVal :=
  match d with
  | [] => None
  | (k', v) :: d' => if decide (k' = k) then Some v else dict_get k d'
  end.

Record Pricing := {
  input_tokens_per_1k : float;
  output_tokens_per_1k : float
}.

Definition flash_pricing : Pricing :=
  {| input_tokens_per_1k := 0.000075; output_tokens_per_1k := 0.0003 |}.

Definition pro_pricing : Pricing :=
  {| input_tokens_per_1k := 0.00125; output_tokens_per_1k := 0.005 |}.

Definition GEMINI_PRICING : gmap string Pricing :=
  <["gemini-1.5-flash" := flash_pricing]> (<["gemini-1.5-pro" := pro_pricing]> ∅).

Record CostInfo := {
  model_used : string;
  input_tokens : Z;
  output_tokens : Z;
  total_tokens : Z;
  input_cost_usd : float;
  output_cost_usd : float;
  total_cost_usd : float;
  pricing_rate : Pricing
}.

(** The key [calculate_cost] looks the rates up under. *)
Definition pricing_key_of (model_name : string) : string :=
  if contains "pro" (lower model_name) then "gemini-1.5-pro"
  else if contains "flash" (lower model_name) then "gemini-1.5-flash"
  else "gemini-1.5-flash".

(** [CostTracker.calculate_cost]; [None] is a raised exception. *)
Definition calculate_cost (model_name : string) (input_tokens output_tokens : Z)
  : option CostInfo :=
  let pricing_key := pricing_key_of model_name in
  flash ← GEMINI_PRICING !! "gemini-1.5-flash";
  let pricing := default flash (GEMINI_PRICING !! pricing_key) in
  in_k ← int_truediv input_tokens 1000;
  out_k ← int_truediv output_tokens 1000;
  let input_cost := (in_k * input_tokens_per_1k pricing)%float in
  let output_cost := (out_k * output_tokens_per_1k pricing)%float in
  let total_cost := (input_cost + output_cost)%float in
  Some {| model_used := pricing_key;
          input_tokens := input_tokens;
          output_tokens := output_tokens;
          total_tokens := input_tokens + output_tokens;
          input_cost_usd := py_round input_cost 6;
          output_cost_usd := py_round output_cost 6;
          total_cost_usd := py_round total_cost 6;
          pricing_rate := pricing |}.

(** One entry of [session_costs]. *)
Record CostEntry := {
  timestamp : string;
  transaction_id : string;
  entry_agent_name : string;
  request_type : string;
  cost_info : CostInfo;
  context : option Dict
}.

(** The state of a [CostTracker] (its logger left out). *)
Record CostTracker := {
  agent_name : string;
  session_costs : list CostEntry;
  total_session_cost : float
}.

(** [CostTracker(agent_name, logger)] *)
Definition new_tracker (name : string) : CostTracker :=
  {| agent_name := name; session_costs := []; total_session_cost := 0 |}.

(** [log_request_cost]: [now] is what [datetime.now().isoformat()] returns
    at the call. The result is the updated tracker and the entry. *)
Definition log_request_cost (tr : CostTracker) (now transaction_id model_name : string)
    (input_tokens output_tokens : Z) (request_type : string)
    (additional_context : Dict) : option (CostTracker * CostEntry) :=
  info ← calculate_cost model_name input_tokens output_tokens;
  let cost_entry :=
    {| timestamp := now;
       transaction_id := transaction_id;
       entry_agent_name := agent_name tr;
       request_type := request_type;
       cost_info := info;
       context := match additional_context with [] => None | _ => Some additional_context end |} in
  Some ({| agent_name := agent_name tr;
           session_costs := session_costs tr ++ [cost_entry];
           total_session_cost := (total_session_cost tr + total_cost_usd info)%float |},
        cost_entry).

Definition sum_Z (l : list Z) : Z := foldr Z.add 0%Z l.

(** [get_session_summary] *)
Definition get_session_summary (tr : CostTracker) : Dict :=
  match session_costs tr with
  | [] =>
      [("total_requests", PyInt 0); ("total_cost_usd", PyFloat 0);
       ("average_cost_per_request", PyFloat 0)]
  | first_entry :: _ =>
      let total_input_tokens := sum_Z (map (input_tokens ∘ cost_info) (session_costs tr)) in
      let total_output_tokens := sum_Z (map (output_tokens ∘ cost_info) (session_costs tr)) in
      let n := Z.of_nat (length (session_costs tr)) in
      [("agent_name", PyStr (agent_name tr));
       ("total_requests", PyInt n);
       ("total_input_tokens", PyInt total_input_tokens);
       ("total_output_tokens", PyInt total_output_tokens);
       ("total_tokens", PyInt (total_input_tokens + total_output_tokens));
       ("total_cost_usd", PyFloat (py_round (total_session_cost tr) 6));
       ("average_cost_per_request",
          PyFloat (py_round (total_session_cost tr / float_of_int n) 6));
       ("session_start", PyStr (timestamp first_entry));
       ("session_end", PyStr (timestamp (List.last (session_costs tr) first_entry)))]
  end.

(** [log_session_summary]: the four values its log line formats, read with
    [summary[...]]; [None] is the KeyError of a missing key. *)
Definition log_session_summary (tr : CostTracker) : option (list PyVal) :=
  let summary := get_session_summary tr in
  total_requests ← dict_get "total_requests" summary;
  total_cost ← dict_get "total_cost_usd" summary;
  average ← dict_get "average_cost_per_request" summary;
  total_tokens ← dict_get "total_tokens" summary;
  Some [total_requests; total_cost; average; total_tokens].

(** [estimate_tokens] *)
Definition estimate_tokens (text : string) : Z := Z.max 1 (len text / 4).

(** The tier the model name resolves to: the pro tier for a name with
    "pro" in it (in any case), the flash tier otherwise, which is also the
    default for a name that matches neither tier. *)
Definition tier_of (model_name : string) : Pricing :=
  if contains "pro" (lower model_name) then pro_pricing else flash_pricing.

End Cost.

(* ===================================================================== *)
(** ** machine1_log_analysis/agent_gemini.py: the streaming endpoint *)
(* ===================================================================== *)

Module Stage1.
Import PyStr PyNum Classifier Cost.

(** *** Records and their encoding for the agent *)

(** A row of [csv.DictReader]: the cells under their field names (which
    are distinct, the row being a dict), in header order, with [None] (the
    [restval]) for a field the line has no cell for; and, for a line with more cells than the header has fields,
    the surplus cells, which the dict holds as a list under the key [None]
    (the [restkey]). *)
Record Row := {
  cells : list (string * option string);
  surplus : option (list string)
}.

(** The row of a line with exactly one cell for each field. *)
Definition plain (fields : list (string * string)) : Row :=
  {| cells := map (λ field, (field.1, Some field.2)) fields; surplus := None |}.

Fixpoint cell_get (key : string) (default : option string)
    (fields : list (string * option string)) : option string :=
  match fields with
  | [] => default
  | (k, v) :: fields' => if decide (k = key) then v else cell_get key default fields'
  end.

(** [row.get(key, default)] for a key that is a string: a string or
    [None]. *)
Definition row_get (key : string) (default : option string) (row : Row) : option string :=
  cell_get key default (cells row).

(** [row.get('Device_ID', row.get('Model', 'unknown'))] *)
Definition device_id_of (row : Row) : option string :=
  row_get "Device_ID" (row_get "Model" (Some "unknown") row) row.

(** [str(x)] for a string or [None], as an f-string renders it. *)
Definition str_of (x : option string) : string := default "None" x.

(** The double quote, as a one-character string. *)
Definition dquote : string := String (ascii_of_nat 34) EmptyString.

Definition hex_digit (n : nat) : ascii :=
  if (n <? 10)%nat then ascii_of_nat (48 + n) else ascii_of_nat (87 + n).

(** The escape [json.dumps] writes for one character (with [ensure_ascii],
    its default): the characters from the blank to the tilde are written as
    they are, but for the quote and the backslash; every other one is
    escaped. *)
Definition json_escape_char (c : ascii) : string :=
  let n := nat_of_ascii c in
  if decide (n = 34) then "\" +:+ dquote
  else if decide (n = 92) then "\\"
  else if decide (n = 10) then "\n"
  else if decide (n = 13) then "\r"
  else if decide (n = 9) then "\t"
  else if decide (n = 8) then "\b"
  else if decide (n = 12) then "\f"
  else if (n <? 32)%nat || (126 <? n)%nat then
    "\u00" +:+ String (hex_digit (n / 16)) (String (hex_digit (n mod 16)) EmptyString)
  else String c EmptyString.

Fixpoint json_escape (s : string) : string :=
  match s with
  | EmptyString => EmptyString
  | String c s' => json_escape_char c +:+ json_escape s'
  end.

Definition json_string (s : string) : string := dquote +:+ json_escape s +:+ dquote.

(** A cell: a string, or [null] for [None]. *)
Definition json_cell (v : option string) : string :=
  match v with
  | Some text => json_string text
  | None => "null"
  end.

Definition json_list (items : list string) : string :=
  "[" +:+ join ", " (map json_string items) +:+ "]".

(** The members of the object of a row: the cells, and the surplus under
    the key [None], which [json.dumps] writes as "null". *)
Definition json_members (row : Row) : string :=
  join ", "
    (map (λ field, json_string field.1 +:+ ": " +:+ json_cell field.2) (cells row)
     ++ match surplus row with
        | Some items => [json_string "null" +:+ ": " +:+ json_list items]
        | None => []
        end).

(** [json.dumps({"record": row})] *)
Definition llm_input_of (row : Row) : string :=
  "{" +:+ json_string "record" +:+ ": {" +:+ json_members row +:+ "}}".

(** *** The agent run of one record *)

(** A part of an event's content, as far as the code inspects it: its
    [text] attribute when it has one, and whether it has a [function_call]
    attribute. *)
Record Part := {
  part_text : option string;
  part_has_function_call : bool
}.

(** An event of [run_async]: the parts of its content, [None] when the event
    carries no content with parts. *)
Definition Event := option (list Part).

(** What creating the session and iterating [agent_runner.run_async] does
    for one record: it raises, or it delivers its events. *)
Inductive AgentRun :=
| AgentRaises (msg : string)
| AgentEvents (events : list Event).

(** The environment's part in processing one record. [turn_a2a_calls] is
    the number of calls the ADK runtime made to the [diagnosis_agent]
    sub-agent while the turn ran: the model decides on them under its
    instruction, and [row_generator] neither makes nor sees them. *)
Record Turn := {
  turn_transaction_id : string;   (* cost_tracker.generate_transaction_id() *)
  turn_now : string;              (* datetime.now().isoformat() *)
  turn_run : AgentRun;
  turn_a2a_calls : nat
}.

(** The environment of a request: the turn of the record numbered
    [row_count]. *)
Definition World := nat → Turn.

Record Collected := {
  response_text : string;
  non_text_parts_count : nat;
  function_calls_completed : nat
}.

Definition collect_part (acc : Collected) (part : Part) : Collected :=
  match part_text part with
  | Some t =>
      if truthy t then
        {| response_text := response_text acc +:+ t;
           non_text_parts_count := non_text_parts_count acc;
           function_calls_completed := function_calls_completed acc |}
      else if part_has_function_call part then
        {| response_text := response_text acc;
           non_text_parts_count := S (non_text_parts_count acc);
           function_calls_completed := S (function_calls_completed acc) |}
      else
        {| response_text := response_text acc;
           non_text_parts_count := S (non_text_parts_count acc);
           function_calls_completed := function_calls_completed acc |}
  | None =>
      if part_has_function_call part then
        {| response_text := response_text acc;
           non_text_parts_count := S (non_text_parts_count acc);
           function_calls_completed := S (function_calls_completed acc) |}
      else
        {| response_text := response_text acc;
           non_text_parts_count := S (non_text_parts_count acc);
           function_calls_completed := function_calls_completed acc |}
  end.

Definition collect_event (acc : Collected) (event : Event) : Collected :=
  match event with
  | Some parts => foldl collect_part acc parts
  | None => acc
  end.

(** "Collect streamed agent response" *)
Definition collect (events : list Event) : Collected :=
  foldl collect_event
    {| response_text := EmptyString; non_text_parts_count := 0;
       function_calls_completed := 0 |} events.

(** *** The forwarding gate *)

Inductive Level := DEBUG | INFO | WARNING | ERROR.

Definition LogLine := (Level * string)%type.

(** [severity in ['MEDIUM', 'HIGH', 'CRITICAL']] *)
Definition a2a_required (severity : option Severity) : bool :=
  match severity with
  | Some MEDIUM | Some HIGH | Some CRITICAL => true
  | Some LOW | None => false
  end.

Definition a2a_indicators : list string :=
  ["diagnosis_agent:"; "Remediation Status:"; "Device Type:"; "Actions Taken:";
   "Results Summary:"].

(** [any(indicator in response_text for indicator in a2a_indicators)] *)
Definition a2a_detected (response_text : string) : bool :=
  existsb (λ indicator, contains indicator response_text) a2a_indicators.

(** "Check for A2A sub-agent invocation requirement": all the gate does is
    write log lines (those at debug level are left out). *)
Definition forwarding_gate (device_id : option string) (response_text : string)
    (severity : option Severity) : list LogLine :=
  match severity with
  | Some s =>
      if a2a_required severity then
        [(INFO, "A2A sub-agent consultation required: " +:+ str_of device_id +:+ " ("
                +:+ sev_name s +:+ " severity, schema-independent)");
         (INFO, "A2A FORWARDING (Agent 1): Instructing LLM to consult diagnosis_agent for "
                +:+ str_of device_id)] ++
        (if a2a_detected response_text then
           [(INFO, "A2A sub-agent consultation detected: diagnosis_agent response embedded for device "
                   +:+ str_of device_id)]
         else
           [(WARNING, "A2A sub-agent consultation not detected in final response for device "
                      +:+ str_of device_id
                      +:+ ". Check agent prompts and sub-agent availability.");
            (WARNING, "Response preview for debugging: "
                      +:+ String.substring 0 300 response_text +:+ "...")])
      else []
  | None => []
  end.

(** The inter-agent calls to the next stage issued while one record is
    processed: the code of [row_generator] issues none, so they are the
    calls of the agent turn. *)
Definition forwarding_calls (turn : Turn) : nat := turn_a2a_calls turn.

(** *** The state of [row_generator] and the streamed document *)

Inductive StreamEvent :=
| RowResult (row : nat) (source : string) (device_id : option string) (response : string)
    (severity : option Severity)
| RowError (row : nat) (source : string) (device_id : option string) (error : string).

(** What the generator yields; the JSON text of an event or of the closing
    section is kept as the value [json.dumps] is applied to. *)
Inductive Chunk :=
| ChunkOpen                                  (* the status and results-array opening *)
| ChunkComma
| ChunkEvent (event : StreamEvent)
| ChunkSummary (counts : gmap string nat) (cost_summary : Dict).

Record GenState := {
  row_count : nat;
  first : bool;
  severity_counts : gmap string nat;
  cost_tracker : CostTracker;                 (* the process-wide tracker *)
  yielded : list Chunk;                       (* in emission order *)
  records_read : list (nat * string * Row);   (* "Processing record n ... from source" *)
  gate_log : list LogLine
}.

(** [severity_counts = {"LOW": 0, "MEDIUM": 0, "HIGH": 0, "CRITICAL": 0}] *)
Definition initial_counts : gmap string nat :=
  <["LOW" := 0]> (<["MEDIUM" := 0]> (<["HIGH" := 0]> (<["CRITICAL" := 0]> ∅))).

(** [if severity in severity_counts: severity_counts[severity] += 1] *)
Definition count_severity (severity : option Severity) (counts : gmap string nat)
  : gmap string nat :=
  match severity with
  | Some s =>
      match counts !! sev_name s with
      | Some n => <[sev_name s := S n]> counts
      | None => counts
      end
  | None => counts
  end.

(** [if not first: yield ","], [first = False], [yield json.dumps(event)] *)
Definition yield_event (event : StreamEvent) (st : GenState) : GenState :=
  {| row_count := row_count st;
     first := false;
     severity_counts := severity_counts st;
     cost_tracker := cost_tracker st;
     yielded := yielded st ++ (if first st then [] else [ChunkComma]) ++ [ChunkEvent event];
     records_read := records_read st;
     gate_log := gate_log st |}.

(** The [except Exception as e] branch of a row. *)
Definition row_failed (st : GenState) (row : Row) (source_path error : string) : GenState :=
  yield_event (RowError (row_count st) source_path (device_id_of row) error) st.

(** [row = next(reader)], [row_count += 1] and the logging of the input. *)
Definition read_row (st : GenState) (row : Row) (source_path : string) : GenState :=
  {| row_count := S (row_count st);
     first := first st;
     severity_counts := severity_counts st;
     cost_tracker := cost_tracker st;
     yielded := yielded st;
     records_read := records_read st ++ [(S (row_count st), source_path, row)];
     gate_log := gate_log st |}.

(** The second [try] block of the loop body: the agent turn of one record,
    its cost entry, the severity, the gate and the yielded event. *)
Definition process_row (st : GenState) (row : Row) (source_path : string) (turn : Turn)
  : GenState :=
  match turn_run turn with
  | AgentRaises msg => row_failed st row source_path msg
  | AgentEvents events =>
      let llm_input := llm_input_of row in
      let estimated_input_tokens := estimate_tokens llm_input in
      let got := collect events in
      let device_id := device_id_of row in
      let estimated_output_tokens := estimate_tokens (response_text got) in
      match log_request_cost (cost_tracker st) (turn_now turn) (turn_transaction_id turn)
              "gemini-1.5-flash" estimated_input_tokens estimated_output_tokens
              "csv_streaming"
              [("device_id", match device_id with Some d => PyStr d | None => PyNone end);
               ("function_calls", PyInt (Z.of_nat (function_calls_completed got)));
               ("response_length", PyInt (len (response_text got)));
               ("source_file", PyStr source_path)] with
      | None => row_failed st row source_path "integer division result too large for a float"
      | Some (tracker', _) =>
          let severity := determine_severity (response_text got) in
          yield_event
            (RowResult (row_count st) source_path device_id (response_text got) severity)
            {| row_count := row_count st;
               first := first st;
               severity_counts := count_severity severity (severity_counts st);
               cost_tracker := tracker';
               yielded := yielded st;
               records_read := records_read st;
               gate_log := gate_log st
                           ++ forwarding_gate device_id (response_text got) severity |}
      end
  end.

(** *** The source multiplexer *)

(** What [next(reader)] does once the reader has delivered its rows: it
    raises StopIteration at the end of the file, or another exception
    (csv.Error, UnicodeDecodeError, an error of the operating system) at a
    line that cannot be read. *)
Inductive ReadEnd :=
| EndOfFile
| ReadFails (error : string).

(** An open [csv.DictReader] with its path: the rows it has not delivered
    yet and what the read after them does. *)
Abbreviation Reader := (list Row * ReadEnd * string)%type (only parsing).

(** The body of the [while]: one pass of
    [for i, (reader, source_path) in enumerate(readers)], from index [i] on.
    Only StopIteration is caught around [next(reader)]: any other exception
    leaves the loops at once. The pass returns the state and either the
    message of that exception, or the readers after the pass with
    [readers_to_remove]. *)
Fixpoint for_readers (world : World) (readers : list Reader) (i : nat) (st : GenState)
  : GenState * (string + list Reader * list nat) :=
  match readers with
  | [] => (st, inr ([], []))
  | (rows, read_end, source_path) :: rest =>
      match rows with
      | [] =>
          match read_end with
          | EndOfFile =>
              let '(st', pass) := for_readers world rest (S i) st in
              (st',
               match pass with
               | inl error => inl error
               | inr (readers', to_remove) =>
                   inr ((rows, read_end, source_path) :: readers', i :: to_remove)
               end)
          | ReadFails error => (st, inl error)
          end
      | row :: rows' =>
          let st1 := read_row st row source_path in
          let st2 := process_row st1 row source_path (world (row_count st1)) in
          let '(st', pass) := for_readers world rest (S i) st2 in
          (st',
           match pass with
           | inl error => inl error
           | inr (readers', to_remove) =>
               inr ((rows', read_end, source_path) :: readers', to_remove)
           end)
      end
  end.

(** [for i in reversed(readers_to_remove): readers.pop(i)] *)
Definition pop_all (readers : list Reader) (to_remove : list nat) : list Reader :=
  foldl (λ rs i, delete i rs) readers (reverse to_remove).

(** The readers a pass leaves: the exhausted ones gone, the others advanced
    by one row. *)
Fixpoint next_readers (readers : list Reader) : list Reader :=
  match readers with
  | [] => []
  | ([], _, _) :: rest => next_readers rest
  | (_ :: rows', read_end, source_path) :: rest =>
      (rows', read_end, source_path) :: next_readers rest
  end.

(** The size of the work left: one for each open reader and one for each
    row it still holds. *)
Definition work_left (readers : list Reader) : nat :=
  sum_list_with (λ r : Reader, S (length r.1.1)) readers.

Lemma app_cons_middle {A} (prefix : list A) x l :
  prefix ++ x :: l = (prefix ++ [x]) ++ l.
Proof. rewrite <- (assoc_L (++)). reflexivity. Qed.

Lemma delete_middle {A} (prefix : list A) x l :
  delete (length prefix) (prefix ++ x :: l) = prefix ++ l.
Proof. induction prefix as [|y prefix IH]; simpl; [reflexivity | f_equal; exact IH]. Qed.

(** A pass that is not left by an exception removes the exhausted readers
    and advances the others. *)
Lemma pop_all_for_readers world readers : ∀ prefix i st st' readers' to_remove,
  length prefix = i →
  for_readers world readers i st = (st', inr (readers', to_remove)) →
  pop_all (prefix ++ readers') to_remove = prefix ++ next_readers readers.
Proof.
  induction readers as [|[[rows read_end] source_path] rest IH];
    intros prefix i st st' readers' to_remove Hlen Hpass.
  - injection Hpass as _ <- <-. reflexivity.
  - destruct rows as [|row rows']; cbn [for_readers next_readers] in *.
    + destruct read_end as [|error]; [|discriminate].
      destruct (for_readers world rest (S i) st) as [st1 [error|[readers1 to_remove1]]] eqn:E;
        [discriminate|].
      injection Hpass as _ <- <-.
      specialize (IH (prefix ++ [([], EndOfFile, source_path)]) (S i) st st1 readers1
                    to_remove1).
      unfold pop_all in *. rewrite reverse_cons, foldl_app. simpl.
      rewrite app_cons_middle, IH by (rewrite ?length_app; simpl; first [lia | exact E]).
      rewrite <- app_cons_middle. subst i. apply delete_middle.
    + set (st2 := process_row _ _ _ _) in *.
      destruct (for_readers world rest (S i) st2) as [st1 [error|[readers1 to_remove1]]] eqn:E;
        [discriminate|].
      injection Hpass as _ <- <-.
      specialize (IH (prefix ++ [(rows', read_end, source_path)]) (S i) st2 st1 readers1
                    to_remove1).
      rewrite app_cons_middle, IH by (rewrite ?length_app; simpl; first [lia | exact E]).
      rewrite <- app_cons_middle. reflexivity.
Qed.

Lemma work_left_next readers :
  work_left (next_readers readers) + length readers = work_left readers.
Proof.
  induction readers as [|[[[|row rows'] read_end] source_path] rest IH]; simpl in *;
    unfold work_left in *; simpl in *; lia.
Qed.

(** A value with the equation that it is the value of the term. *)
Definition inspect {A} (a : A) : {b : A | a = b} := exist _ a eq_refl.

(** [while readers:] with the pass and the removal of exhausted readers:
    the state at the end of the loop and the message of the exception that
    left it, if one did. *)
Equations? while_readers (world : World) (readers : list Reader) (st : GenState)
  : GenState * option string by wf (work_left readers) lt :=
  while_readers world [] st := (st, None);
  while_readers world ((rows, read_end, source_path) :: rest) st
    with inspect (for_readers world ((rows, read_end, source_path) :: rest) 0 st) := {
    | exist _ (st', inl error) _ => (st', Some error);
    | exist _ (st', inr (readers', to_remove)) Hpass =>
        while_readers world (pop_all readers' to_remove) st' }.
Proof.
  pose proof (pop_all_for_readers world ((rows, read_end, source_path) :: rest) [] 0
                st st' readers' to_remove eq_refl Hpass) as H.
  pose proof (work_left_next ((rows, read_end, source_path) :: rest)) as Hw.
  cbn [app] in H. rewrite H. clear H Hpass.
  unfold work_left in *. cbn [length sum_list_with fst] in Hw. lia.
Qed.

(** *** The generator and the endpoint *)

(** [open(source_path, newline='')] with [csv.DictReader]: the message of
    the exception [open] raises, or the rows the reader delivers and what
    its next read does after them. *)
Definition FileSystem := string → string + list Row * ReadEnd.

(** "Open all files and create readers" *)
Fixpoint open_all (fs : FileSystem) (sources : list string) : string + list Reader :=
  match sources with
  | [] => inr []
  | source_path :: rest =>
      match fs source_path with
      | inl msg => inl msg
      | inr (rows, read_end) =>
          match open_all fs rest with
          | inl msg => inl msg
          | inr readers => inr ((rows, read_end, source_path) :: readers)
          end
      end
  end.

(** How the generator stops: it returns, or an exception leaves it. *)
Inductive StreamEnd :=
| Completed
| Aborted (error : string).

(** The state [row_generator] starts from, its first chunk yielded. *)
Definition initial_state (tracker : CostTracker) : GenState :=
  {| row_count := 0;
     first := true;
     severity_counts := initial_counts;
     cost_tracker := tracker;
     yielded := [ChunkOpen];
     records_read := [];
     gate_log := [] |}.

(** The closing section:
    [yield f'], "severity_counts": ..., "cost_summary": ..., "status": "completed"}'] *)
Definition yield_summary (st : GenState) : GenState :=
  {| row_count := row_count st;
     first := first st;
     severity_counts := severity_counts st;
     cost_tracker := cost_tracker st;
     yielded := yielded st
                ++ [ChunkSummary (severity_counts st) (get_session_summary (cost_tracker st))];
     records_read := records_read st;
     gate_log := gate_log st |}.

(** [row_generator()], run to its end: the final state (with all it
    yielded) and how it stopped. An exception of a read closes the files
    ([finally]) and leaves the generator; after the loops, the KeyError of
    [log_session_summary] on an empty ledger leaves it as well. *)
Definition row_generator (fs : FileSystem) (world : World) (tracker : CostTracker)
    (sources : list string) : GenState * StreamEnd :=
  let st0 := initial_state tracker in
  match open_all fs sources with
  | inl msg => (st0, Aborted msg)
  | inr readers =>
      match while_readers world readers st0 with
      | (st, Some error) => (st, Aborted error)
      | (st, None) =>
          match log_session_summary (cost_tracker st) with
          | None => (st, Aborted "'total_tokens'")
          | Some _ => (yield_summary st, Completed)
          end
      end
  end.

(** The JSON body of the request, as far as the endpoint reads it:
    [csv_paths] when it is a list, [csv_path] when it is a string. *)
Record RequestData := {
  csv_paths : option (list string);
  csv_path : option string
}.

Inductive Response :=
| JSONResponse (content : Dict) (status_code : nat)
| StreamingResponse (body : GenState * StreamEnd).   (* status 200, sent as it is generated *)

(** "Normalize sources list" *)
Definition normalize_sources (data : RequestData) : option (list string) :=
  match csv_paths data with
  | Some (p :: ps) => Some (p :: ps)
  | _ =>
      match csv_path data with
      | Some path => if truthy path then Some [path] else None
      | None => None
      end
  end.

(** [stream_csv_endpoint]: [request_json] is what [await request.json()]
    gives, the message of its exception or the data. *)
Definition stream_csv_endpoint (request_json : string + RequestData) (fs : FileSystem)
    (world : World) (tracker : CostTracker) : Response :=
  match request_json with
  | inl msg => JSONResponse [("error", PyStr msg)] 500
  | inr data =>
      match normalize_sources data with
      | None => JSONResponse [("error", PyStr "csv_path or csv_paths is required")] 400
      | Some sources => StreamingResponse (row_generator fs world tracker sources)
      end
  end.

(** The events among the chunks of a stream, in order. *)
Definition events_of (chunks : list Chunk) : list StreamEvent :=
  omap (λ c, match c with ChunkEvent e => Some e | _ => None end) chunks.

Definition is_success (e : StreamEvent) : bool :=
  match e with RowResult _ _ _ _ _ => true | RowError _ _ _ _ => false end.

(** Event [e] is a success event classified with severity [sev]. *)
Definition classified_as (sev : option Severity) (e : StreamEvent) : bool :=
  match e with
  | RowResult _ _ _ _ s => bool_decide (s = sev)
  | RowError _ _ _ _ => false
  end.

(** The number of success events classified with severity [sev]. *)
Definition successes_with (sev : option Severity) (events : list StreamEvent) : nat :=
  length (List.filter (classified_as sev) events).

End Stage1.

(* ===================================================================== *)
(** ** Notions the statements about the stream are written with *)
(* ===================================================================== *)

Module Stage1Spec.
Import PyStr PyNum Classifier Cost Stage1.

(** The body of the pass for one record: reading and processing. *)
Definition step (world : World) (st : GenState) (rec : Row * string) : GenState :=
  let st1 := read_row st rec.1 rec.2 in
  process_row st1 rec.1 rec.2 (world (row_count st1)).

(** The records one pass reads: the next row of each reader that has one,
    in reader order. *)
Fixpoint heads (readers : list Reader) : list (Row * string) :=
  match readers with
  | [] => []
  | ([], _, _) :: rest => heads rest
  | (row :: _, _, source_path) :: rest => (row, source_path) :: heads rest
  end.

(** Round-robin order: pass after pass, for [fuel] passes. *)
Fixpoint passes (fuel : nat) (readers : list Reader) : list (Row * string) :=
  match fuel with
  | 0 => []
  | S fuel' =>
      match readers with
      | [] => []
      | _ => heads readers ++ passes fuel' (next_readers readers)
      end
  end.

Definition round_robin (readers : list Reader) : list (Row * string) :=
  passes (work_left readers) readers.

(** The records one pass reads before a read that raises another exception
    than StopIteration, with the message of that exception if there is
    one. *)
Fixpoint pass_reads (readers : list Reader) : list (Row * string) * option string :=
  match readers with
  | [] => ([], None)
  | ([], EndOfFile, _) :: rest => pass_reads rest
  | ([], ReadFails error, _) :: _ => ([], Some error)
  | (row :: _, _, source_path) :: rest =>
      ((row, source_path) :: (pass_reads rest).1, (pass_reads rest).2)
  end.

(** The records read pass after pass, for [fuel] passes, until a read
    raises. *)
Fixpoint reads (fuel : nat) (readers : list Reader) : list (Row * string) * option string :=
  match fuel with
  | 0 => ([], None)
  | S fuel' =>
      match readers with
      | [] => ([], None)
      | _ =>
          match (pass_reads readers).2 with
          | Some error => ((pass_reads readers).1, Some error)
          | None =>
              ((pass_reads readers).1 ++ (reads fuel' (next_readers readers)).1,
               (reads fuel' (next_readers readers)).2)
          end
      end
  end.

(** The records the generator reads, in the order it reads them, and the
    message of the exception that ends the reading, if one does. *)
Definition reading (readers : list Reader) : list (Row * string) * option string :=
  reads (work_left readers) readers.

(** All the records the sources deliver, source after source. *)
Definition all_records (readers : list Reader) : list (Row * string) :=
  concat (map (λ r : Reader, map (λ row, (row, r.2)) r.1.1) readers).

(** Every source can be read to its end. *)
Definition readable (readers : list Reader) : Prop :=
  Forall (λ r : Reader, r.1.2 = EndOfFile) readers.

(** The read after the rows of some source raises [error]. *)
Definition read_fails (error : string) (readers : list Reader) : Prop :=
  Exists (λ r : Reader, r.1.2 = ReadFails error) readers.

(** The event [row_generator] yields for record [n], a function of the
    record and of its turn alone. *)
Definition event_for (turn : Turn) (n : nat) (source_path : string) (row : Row)
  : StreamEvent :=
  match turn_run turn with
  | AgentRaises msg => RowError n source_path (device_id_of row) msg
  | AgentEvents events =>
      let text := response_text (collect events) in
      match calculate_cost "gemini-1.5-flash" (estimate_tokens (llm_input_of row))
              (estimate_tokens text) with
      | None => RowError n source_path (device_id_of row)
                  "integer division result too large for a float"
      | Some _ => RowResult n source_path (device_id_of row) text (determine_severity text)
      end
  end.

(** The records read so far are numbered 1, 2, ... *)
Definition numbered (st : GenState) : Prop :=
  map (λ r : nat * string * Row, r.1.1) (records_read st) = seq 1 (row_count st).

(** The events yielded so far are those of the records read so far, one
    each, in order. *)
Definition one_event_each (world : World) (st : GenState) : Prop :=
  events_of (yielded st)
  = map (λ r : nat * string * Row, event_for (world r.1.1) r.1.1 r.1.2 r.2)
        (records_read st).

(** Each count is the number of success events with that severity. *)
Definition counts_classified (st : GenState) : Prop :=
  ∀ s, severity_counts st !! sev_name s
       = Some (successes_with (Some s) (events_of (yielded st))).

(** The ledger has gained one entry for each success event. *)
Definition ledger_grown (tracker : CostTracker) (st : GenState) : Prop :=
  length (session_costs (cost_tracker st))
  = length (session_costs tracker)
    + length (List.filter is_success (events_of (yielded st))).

(** The row number and the source an event carries. *)
Definition event_row (e : StreamEvent) : nat :=
  match e with RowResult n _ _ _ _ | RowError n _ _ _ => n end.

Definition event_source (e : StreamEvent) : string :=
  match e with RowResult _ src _ _ _ | RowError _ src _ _ => src end.

(** The sum of the four counts. *)
Definition counted (counts : gmap string nat) : nat :=
  sum_list (map (λ s, default 0 (counts !! sev_name s)) [LOW; MEDIUM; HIGH; CRITICAL]).

(** The number of success events. *)
Definition successes (events : list StreamEvent) : nat :=
  length (List.filter is_success events).

End Stage1Spec.

(* ===================================================================== *)
(** ** Sample inputs *)
(* ===================================================================== *)

Module Samples.
Import Stage1.

(** Sample data: a turn that answers with one text part, and one that
    raises. *)
Definition answer (text : string) (a2a_calls : nat) : Turn :=
  {| turn_transaction_id := "log_analysis_agent_1700000000_1a2b3c4d";
     turn_now := "2024-11-14T22:13:20.000000";
     turn_run := AgentEvents [Some [{| part_text := Some text;
                                       part_has_function_call := false |}]];
     turn_a2a_calls := a2a_calls |}.

Definition failure (msg : string) : Turn :=
  {| turn_transaction_id := "log_analysis_agent_1700000000_5e6f7a8b";
     turn_now := "2024-11-14T22:13:21.000000";
     turn_run := AgentRaises msg;
     turn_a2a_calls := 0 |}.

(** One file with two records. *)
Definition two_rows : FileSystem :=
  λ path, if decide (path = "devices.csv")
          then inr ([plain [("Device_ID", "D1"); ("CPU_Usage (%)", "97")];
                     plain [("Device_ID", "D2"); ("CPU_Usage (%)", "12")]], EndOfFile)
          else inl ("[Errno 2] No such file or directory: '" +:+ path +:+ "'").

(** One file with one record. *)
Definition one_row : FileSystem :=
  λ path, if decide (path = "devices.csv")
          then inr ([plain [("Device_ID", "D1"); ("CPU_Usage (%)", "97")]], EndOfFile)
          else inl ("[Errno 2] No such file or directory: '" +:+ path +:+ "'").

(** Two files, of three IoT devices and of five cameras. *)
Definition devices_and_cameras : FileSystem :=
  λ path, if decide (path = "iot.csv")
          then inr ([plain [("Device_ID", "D1")]; plain [("Device_ID", "D2")];
                     plain [("Device_ID", "D3")]], EndOfFile)
          else if decide (path = "cameras.csv")
          then inr ([plain [("Model", "C1")]; plain [("Model", "C2")]; plain [("Model", "C3")];
                     plain [("Model", "C4")]; plain [("Model", "C5")]], EndOfFile)
          else inl ("[Errno 2] No such file or directory: '" +:+ path +:+ "'").

End Samples.

(* ===================================================================== *)
(** ** machine2_diagnosis: tool-call telemetry and the request middleware *)
(* ===================================================================== *)

Module Stage2.
Import PyStr PyNum Cost.
Export Stage1 (Level(..), LogLine).

(** *** tools.py: the module-level counter [_TOOL_CALL_COUNTER] *)

Definition _mark_tool_called (tool_name : string) (counter : nat) : nat := S counter.

Definition get_tool_call_counter (counter : nat) : nat := counter.

Definition reset_tool_call_counter (counter : nat) : nat := 0.

(** The five diagnosis tools: each starts with [_mark_tool_called(<its name>)]. *)
Definition diagnosis_tools : list string :=
  ["diagnose_iot_device"; "diagnose_camera_equipment"; "analyze_root_cause";
   "generate_remediation_plan"; "assess_severity_level"].

(** The counter after the tools named in [calls] have run, in that order. *)
Definition run_tools (calls : list string) (counter : nat) : nat :=
  foldl (λ c name, _mark_tool_called name c) counter calls.

(** *** agent_gemini.py: [log_requests] *)

Record Request := {
  method : string;
  url_path : string;
  request_body : string + string   (* the message of the exception reading or
                                      decoding the body raised, or the body *)
}.

(** The response of [call_next], as far as the middleware inspects it: its
    [body] attribute and its [content] attribute (as [str] renders it),
    when it has them. *)
Record HttpResponse := {
  status : nat;
  response_body : option string;
  response_content : option string
}.

(** What [call_next(request)] does: the application invokes tools and
    answers. *)
Record Handling := {
  tools_called : list string;
  response : HttpResponse
}.

(** The process-wide state the middleware works on. *)
Record Process := {
  tool_call_counter : nat;
  cost_tracker : CostTracker
}.

Definition response_size_of (r : HttpResponse) : Z :=
  match response_body r with
  | Some b => if truthy b then len b else 0%Z
  | None =>
      match response_content r with
      | Some c => len c
      | None => 0%Z
      end
  end.

(** "Tool execution summary (only for POST requests)" of the diagnosis
    stage. *)
Definition tool_execution_summary (method : string) (tool_count : nat) : list LogLine :=
  if decide (method = "POST") then
    if (4 <=? tool_count)%nat then
      [(INFO, "All diagnostic tools called: " +:+ pretty tool_count);
       (INFO, "REMEDIATION REPORT: Should be forwarded to Machine 3");
       (INFO, "DATA FLOW CHECK: Review logs above for any data loss warnings")]
    else if (3 <=? tool_count)%nat then
      [(WARNING, "Partial execution: " +:+ pretty tool_count
                 +:+ " tools called - missing remediation_agent call")]
    else if (0 <? tool_count)%nat then
      [(WARNING, "Partial execution: Only " +:+ pretty tool_count
                 +:+ " tools called - check LLM instructions")]
    else []
  else [].

(** The middleware around one HTTP request: [now] and [transaction_id] are
    the clock and the generated id, [handle] is what [call_next] does (an
    exception of [call_next] itself leaves the middleware and is not
    modelled). It returns the process state, the lines logged by the
    middleware and the response. *)
Definition log_requests (proc : Process) (now transaction_id : string) (request : Request)
    (handle : Handling) : Process * list LogLine * HttpResponse :=
  let log0 := [(INFO, "HTTP " +:+ method request +:+ " " +:+ url_path request)] in
  let counter0 := reset_tool_call_counter (tool_call_counter proc) in
  let '(estimated_input_tokens, log1) :=
    if decide (method request = "POST") then
      match request_body request with
      | inr body =>
          if truthy body then
            (estimate_tokens body,
             [(INFO, "COST_START | Transaction: " +:+ transaction_id
                     +:+ " | Input tokens (estimated): " +:+ pretty (estimate_tokens body))])
          else (0%Z, [])
      | inl e => (0%Z, [(WARNING, "Could not read request body for cost tracking: " +:+ e)])
      end
    else (0%Z, []) in
  let counter1 := run_tools (tools_called handle) counter0 in
  let tool_count := get_tool_call_counter counter1 in
  let response_size := response_size_of (response handle) in
  let estimated_output_tokens := Z.max 1 (response_size / 4) in
  let '(tracker', log2) :=
    match log_request_cost (cost_tracker proc) now transaction_id "gemini-1.5-pro"
            estimated_input_tokens estimated_output_tokens "a2a_diagnosis"
            [("tool_calls", PyInt (Z.of_nat tool_count));
             ("request_path", PyStr (url_path request));
             ("response_size", PyInt response_size)] with
    | Some (tracker', _) => (tracker', [])
    | None =>
        (cost_tracker proc,
         [(WARNING, "Cost tracking error: integer division result too large for a float")])
    end in
  ({| tool_call_counter := counter1; cost_tracker := tracker' |},
   log0 ++ log1 ++ log2 ++ tool_execution_summary (method request) tool_count,
   response handle).

(** The telemetry outcomes the stage can log for a request. *)
Inductive Outcome := Complete | Partial | Missed.

(** The outcome a log line reports, if any: the complete line is written
    at info level, the partial and missed lines are warnings. *)
Definition outcome_of (line : LogLine) : option Outcome :=
  match line with
  | (INFO, msg) =>
      if startswith "All diagnostic tools called: " msg then Some Complete
      else if startswith "Remediation tools executed: " msg then Some Complete
      else None
  | (WARNING, msg) =>
      if startswith "Partial execution: " msg then Some Partial
      else if startswith "No remediation tools called" msg then Some Missed
      else None
  | _ => None
  end.

(** The outcomes reported in a log. *)
Definition outcomes (log : list LogLine) : list Outcome := omap outcome_of log.

End Stage2.

(* ===================================================================== *)
(** ** machine3_remediation: the same summary in the remediation stage *)
(* ===================================================================== *)

Module Stage3.
Import PyStr.
Export Stage1 (Level(..), LogLine).

(** "Remediation execution flow monitoring (only for POST requests)" *)
Definition remediation_flow_monitoring (method : string) (tool_count : nat) : list LogLine :=
  if decide (method = "POST") then
    if (1 <=? tool_count)%nat then
      [(INFO, "Remediation tools executed: " +:+ pretty tool_count);
       (INFO, "REMEDIATION CONFIRMATION: Should be sent back to Machine 1");
       (INFO, "DEVICE_SPECIFIC_FLOW: Review logs above for IoT/Camera specific actions");
       (INFO, "A2A_FLOW_STATUS: Remediation -> Agent 1 (completing circular flow)")]
    else if decide (tool_count = 0) then
      [(WARNING, "No remediation tools called - check LLM instructions and diagnosis input")]
    else []
  else [].

End Stage3.

(* ===================================================================== *)
(** ** Notions the further statements are written with *)
(* ===================================================================== *)

Module CostSpec.
Import Cost.

(** One call of [log_request_cost], with the answer of the clock. *)
Record CostCall := {
  call_now : string;
  call_transaction_id : string;
  call_model_name : string;
  call_input_tokens : Z;
  call_output_tokens : Z;
  call_request_type : string;
  call_context : Dict
}.

(** The calls made one after the other on the same tracker; [None] as soon
    as one of them raises. *)
Fixpoint log_in_turn (tr : CostTracker) (calls : list CostCall) : option CostTracker :=
  match calls with
  | [] => Some tr
  | c :: calls' =>
      match log_request_cost tr (call_now c) (call_transaction_id c) (call_model_name c)
              (call_input_tokens c) (call_output_tokens c) (call_request_type c)
              (call_context c) with
      | Some (tr', _) => log_in_turn tr' calls'
      | None => None
      end
  end.

(** Entry [e] is the record of call [c] on the tracker of agent [name]. *)
Definition recorded (name : string) (c : CostCall) (e : CostEntry) : Prop :=
  timestamp e = call_now c
  ∧ transaction_id e = call_transaction_id c
  ∧ entry_agent_name e = name
  ∧ request_type e = call_request_type c
  ∧ calculate_cost (call_model_name c) (call_input_tokens c) (call_output_tokens c)
    = Some (cost_info e)
  ∧ context e = match call_context c with [] => None | _ => Some (call_context c) end.

(** The sum [total_session_cost] accumulates over entries: from the left,
    starting from [start]. *)
Definition running_total (start : float) (entries : list CostEntry) : float :=
  foldl (λ acc e, (acc + total_cost_usd (cost_info e))%float) start entries.

End CostSpec.

Module StreamSpec.
Import PyStr Classifier Cost Stage1.

(** The encoded events of a results array: a comma between two events and
    nowhere else. *)
Fixpoint separated (events : list StreamEvent) : list Chunk :=
  match events with
  | [] => []
  | [e] => [ChunkEvent e]
  | e :: events' => ChunkEvent e :: ChunkComma :: separated events'
  end.

(** The text of a part that counts as text for [row_generator]: a [text]
    attribute that is not empty. *)
Definition text_of_part (part : Part) : option string :=
  match part_text part with
  | Some t => if truthy t then Some t else None
  | None => None
  end.

(** All the parts of the events of a run, in order. *)
Definition parts_of (events : list Event) : list Part :=
  concat (omap id events).

(** The strings of a list, one after the other. *)
Definition join_all (l : list string) : string := foldr String.append EmptyString l.

(** An entry of the ledger as the streaming endpoint of the agent [name]
    writes it for a record. *)
Definition streaming_entry (name : string) (e : CostEntry) : Prop :=
  entry_agent_name e = name
  ∧ request_type e = "csv_streaming"
  ∧ model_used (cost_info e) = "gemini-1.5-flash"
  ∧ pricing_rate (cost_info e) = flash_pricing
  ∧ (1 ≤ input_tokens (cost_info e))%Z
  ∧ (1 ≤ output_tokens (cost_info e))%Z.

(** The chunks yielded so far are the opening and the events with their
    commas, and [first] still holds exactly when no event was yielded. *)
Definition framed (st : GenState) : Prop :=
  yielded st = ChunkOpen :: separated (events_of (yielded st))
  ∧ first st = bool_decide (events_of (yielded st) = []).

(** The ledger of the state is the one the generator started with and one
    streaming entry for each success event. *)
Definition ledger_extends (tracker : CostTracker) (st : GenState) : Prop :=
  agent_name (cost_tracker st) = agent_name tracker
  ∧ ∃ new, session_costs (cost_tracker st) = session_costs tracker ++ new
           ∧ length new = length (List.filter is_success (events_of (yielded st)))
           ∧ Forall (streaming_entry (agent_name tracker)) new.

End StreamSpec.

(* ===================================================================== *)
(** ** cost_tracker.py: the registry of trackers *)
(* ===================================================================== *)

Module Registry.
Import PyStr PyNum Cost.

(** [_cost_trackers]: agent name to tracker, in insertion order. The
    registry is the store of the trackers: an agent's tracker is the value
    under its name. *)
Definition Trackers := list (string * CostTracker).

(** [_cost_trackers.get(agent_name)] *)
Fixpoint find_tracker (agent_name : string) (reg : Trackers) : option CostTracker :=
  match reg with
  | [] => None
  | (name, tr) :: reg' =>
      if decide (name = agent_name) then Some tr else find_tracker agent_name reg'
  end.

(** [get_cost_tracker]: the registry after the call and the tracker
    returned. *)
Definition get_cost_tracker (agent_name : string) (reg : Trackers)
  : Trackers * CostTracker :=
  match find_tracker agent_name reg with
  | Some tr => (reg, tr)
  | None => (reg ++ [(agent_name, new_tracker agent_name)], new_tracker agent_name)
  end.

(** [log_all_session_summaries]: the values of the lines logged, tracker
    after tracker, and whether the loop ran to its end ([false]: the
    KeyError of a [log_session_summary] left it). *)
Fixpoint log_all_session_summaries (reg : Trackers) : list (list PyVal) * bool :=
  match reg with
  | [] => ([], true)
  | (_, tr) :: reg' =>
      match log_session_summary tr with
      | None => ([], false)
      | Some line =>
          let '(lines, ended) := log_all_session_summaries reg' in
          (line :: lines, ended)
      end
  end.

(** The tracker has billed at least one request. *)
Definition used (entry : string * CostTracker) : bool :=
  match session_costs entry.2 with [] => false | _ :: _ => true end.

(** The trackers before the first one that has billed no request. *)
Fixpoint used_prefix (reg : Trackers) : Trackers :=
  match reg with
  | [] => []
  | entry :: reg' => if used entry then entry :: used_prefix reg' else []
  end.

End Registry.

(* ===================================================================== *)
(** ** machine3_remediation: the tools and the request middleware *)
(* ===================================================================== *)

Module Remediation.
Import PyStr PyNum Cost.
Export Stage1 (Level(..), LogLine).
Import Stage2.

(** *** tools.py *)

#[local] Set Warnings "-register-all".

(** The values of the dicts the tools return. *)
Inductive Val :=
| VStr (s : string)
| VInt (z : Z)
| VFloat (f : float)
| VBool (b : bool)
| VList (items : list Val)
| VDict (fields : list (string * Val)).

(** [d.get(k)] on a dict literal. *)
Fixpoint field {A} (k : string) (d : list (string * A)) : option A :=
  match d with
  | [] => None
  | (k', v) :: d' => if decide (k' = k) then Some v else field k d'
  end.

(** [s.split(sep)] for a separator of one character. *)
Fixpoint split_on (sep : ascii) (s : string) : list string :=
  match s with
  | EmptyString => [EmptyString]
  | String c s' =>
      if decide (c = sep) then EmptyString :: split_on sep s'
      else match split_on sep s' with
           | w :: ws => String c w :: ws
           | [] => [String c EmptyString]
           end
  end.

(** What a tool call takes from its environment: the clock, the draw of
    [random.choice([True, True, True, False])], the successive results of
    [random.uniform], and how [str] renders a float. *)
Record ToolEnv := {
  env_now : string;
  env_choice : bool;
  env_uniform : nat → float;
  env_str_float : float → string
}.

Definition get_tool_call_counter (counter : nat) : nat := counter.

Definition reset_tool_call_counter (counter : nat) : nat := 0.

Definition _increment_tool_counter (counter : nat) : nat := S counter.

(** Each tool takes the counter and returns it with its result. *)
Definition restart_iot_system (env : ToolEnv) (device_id device_type : string)
    (counter : nat) : nat * Val :=
  let counter := _increment_tool_counter counter in
  let success := env_choice env in
  if success then
    (counter,
     VDict [("status", VStr "iot_system_restarted");
            ("device_id", VStr device_id);
            ("device_type", VStr device_type);
            ("timestamp", VStr (env_now env));
            ("action", VStr "System Restart");
            ("message", VStr ("IoT device " +:+ device_id
               +:+ " system restarted successfully. CPU and memory cleared, network reconnected."));
            ("result", VStr "SUCCESS");
            ("estimated_downtime", VStr "30 seconds")])
  else
    (counter,
     VDict [("status", VStr "iot_restart_failed");
            ("device_id", VStr device_id);
            ("device_type", VStr device_type);
            ("timestamp", VStr (env_now env));
            ("action", VStr "System Restart");
            ("message", VStr ("IoT device " +:+ device_id
               +:+ " restart failed. Hardware intervention may be required."));
            ("result", VStr "FAILURE");
            ("error_code", VStr "SYS_RESTART_TIMEOUT")]).

(** [setting_configs]: unit and typical range of a setting. *)
Definition setting_configs : list (string * (string * string)) :=
  [("sampling_rate", ("Hz", "1-100"));
   ("cpu_threshold", ("%", "70-95"));
   ("memory_threshold", ("%", "80-95"));
   ("network_timeout", ("ms", "1000-10000"));
   ("sensor_calibration", ("offset", "-10 to +10"))].

Definition adjust_iot_settings (env : ToolEnv) (device_id setting_type new_value : string)
    (counter : nat) : nat * Val :=
  let counter := _increment_tool_counter counter in
  let config := default ("value", "varies") (field setting_type setting_configs) in
  (counter,
   VDict [("status", VStr "iot_setting_adjusted");
          ("device_id", VStr device_id);
          ("setting_type", VStr setting_type);
          ("new_value", VStr new_value);
          ("unit", VStr config.1);
          ("timestamp", VStr (env_now env));
          ("action", VStr "Configuration Update");
          ("message", VStr ("IoT device " +:+ device_id +:+ " " +:+ setting_type
             +:+ " adjusted to " +:+ new_value +:+ " " +:+ config.1));
          ("result", VStr "SUCCESS");
          ("previous_value", VStr "auto-detected")]).

(** The body of the loop over the sensors: the sensor numbered [i] takes
    the draws [2 i] and [2 i + 1]. *)
Definition calibrate_sensor (env : ToolEnv) (i : nat) (sensor : string) : Val :=
  let sensor := strip sensor in
  let offset := py_round (env_uniform env (2 * i)) 2 in
  let accuracy_improvement := py_round (env_uniform env (2 * i + 1)) 1 in
  VDict [("sensor_type", VStr sensor);
         ("calibration_offset", VFloat offset);
         ("accuracy_improvement", VStr (env_str_float env accuracy_improvement +:+ "%"));
         ("status", VStr "calibrated")].

Definition calibrate_iot_sensors (env : ToolEnv) (device_id sensor_types : string)
    (counter : nat) : nat * Val :=
  let counter := _increment_tool_counter counter in
  let sensors := split_on "," sensor_types in
  let calibration_results := imap (calibrate_sensor env) sensors in
  (counter,
   VDict [("status", VStr "iot_sensors_calibrated");
          ("device_id", VStr device_id);
          ("sensors_calibrated", VList calibration_results);
          ("timestamp", VStr (env_now env));
          ("action", VStr "Sensor Calibration");
          ("message", VStr ("IoT device " +:+ device_id +:+ " sensors calibrated: "
             +:+ pretty (length sensors) +:+ " sensors optimized"));
          ("result", VStr "SUCCESS");
          ("total_sensors", VInt (Z.of_nat (length sensors)))]).

(** [camera_model] is optional, with default "Camera". *)
Definition restart_camera_system (env : ToolEnv) (camera_id : string)
    (camera_model : option string) (counter : nat) : nat * Val :=
  let camera_model := default "Camera" camera_model in
  let counter := _increment_tool_counter counter in
  let success := env_choice env in
  if success then
    (counter,
     VDict [("status", VStr "camera_system_restarted");
            ("camera_id", VStr camera_id);
            ("camera_model", VStr camera_model);
            ("timestamp", VStr (env_now env));
            ("action", VStr "Camera System Restart");
            ("message", VStr ("Camera " +:+ camera_id
               +:+ " system restarted successfully. Image processor cleared, autofocus reset."));
            ("result", VStr "SUCCESS");
            ("estimated_downtime", VStr "45 seconds");
            ("systems_reset",
             VList [VStr "image_processor"; VStr "autofocus"; VStr "exposure_control"])])
  else
    (counter,
     VDict [("status", VStr "camera_restart_failed");
            ("camera_id", VStr camera_id);
            ("camera_model", VStr camera_model);
            ("timestamp", VStr (env_now env));
            ("action", VStr "Camera System Restart");
            ("message", VStr ("Camera " +:+ camera_id
               +:+ " restart failed. Lens mechanism may be stuck."));
            ("result", VStr "FAILURE");
            ("error_code", VStr "CAM_RESTART_BLOCKED")]).

(** [brightness_mapping]: iso, exposure and aperture of a level. *)
Definition brightness_mapping : list (string * (Val * string * string)) :=
  [("low", (VInt 100, "1/60", "f/8"));
   ("medium", (VInt 400, "1/30", "f/5.6"));
   ("high", (VInt 800, "1/15", "f/4"));
   ("auto", (VStr "auto", "auto", "auto"))].

(** [brightness_mapping["medium"]] *)
Definition medium_brightness : Val * string * string := (VInt 400, "1/30", "f/5.6").

(** [auto_adjust] is optional, with default [True]. *)
Definition adjust_camera_brightness (env : ToolEnv) (camera_id brightness_level : string)
    (auto_adjust : option bool) (counter : nat) : nat * Val :=
  let auto_adjust := default true auto_adjust in
  let counter := _increment_tool_counter counter in
  let settings :=
    default medium_brightness (field (lower brightness_level) brightness_mapping) in
  (counter,
   VDict [("status", VStr "camera_brightness_adjusted");
          ("camera_id", VStr camera_id);
          ("brightness_level", VStr brightness_level);
          ("iso_setting", settings.1.1);
          ("exposure_time", VStr settings.1.2);
          ("aperture", VStr settings.2);
          ("auto_adjust_enabled", VBool auto_adjust);
          ("timestamp", VStr (env_now env));
          ("action", VStr "Brightness Adjustment");
          ("message", VStr ("Camera " +:+ camera_id +:+ " brightness adjusted to "
             +:+ brightness_level +:+ " level with optimized exposure settings"));
          ("result", VStr "SUCCESS")]).

(** [focus_results]: method, accuracy and speed of a mode. *)
Definition focus_results : list (string * (string * string * string)) :=
  [("auto", ("continuous_af", "95%", "fast"));
   ("manual", ("manual_ring", "99%", "manual"));
   ("macro", ("close_focus", "98%", "slow"));
   ("sport", ("predictive_af", "92%", "very_fast"))].

(** [focus_results["auto"]] *)
Definition auto_focus : string * string * string := ("continuous_af", "95%", "fast").

(** [focus_mode] and [focus_distance] are optional, with defaults "auto"
    and "infinity". *)
Definition adjust_camera_focus (env : ToolEnv) (camera_id : string)
    (focus_mode focus_distance : option string) (counter : nat) : nat * Val :=
  let focus_mode := default "auto" focus_mode in
  let focus_distance := default "infinity" focus_distance in
  let counter := _increment_tool_counter counter in
  let result := default auto_focus (field (lower focus_mode) focus_results) in
  (counter,
   VDict [("status", VStr "camera_focus_adjusted");
          ("camera_id", VStr camera_id);
          ("focus_mode", VStr focus_mode);
          ("focus_distance", VStr focus_distance);
          ("focus_method", VStr result.1.1);
          ("focus_accuracy", VStr result.1.2);
          ("focus_speed", VStr result.2);
          ("timestamp", VStr (env_now env));
          ("action", VStr "Focus Adjustment");
          ("message", VStr ("Camera " +:+ camera_id +:+ " focus adjusted to " +:+ focus_mode
             +:+ " mode with " +:+ result.1.2 +:+ " accuracy"));
          ("result", VStr "SUCCESS")]).

(** A call of one of [remediation_tools], with its arguments. *)
Inductive ToolCall :=
| RestartIotSystem (device_id device_type : string)
| AdjustIotSettings (device_id setting_type new_value : string)
| CalibrateIotSensors (device_id sensor_types : string)
| RestartCameraSystem (camera_id : string) (camera_model : option string)
| AdjustCameraBrightness (camera_id brightness_level : string) (auto_adjust : option bool)
| AdjustCameraFocus (camera_id : string) (focus_mode focus_distance : option string).

Definition call_tool (env : ToolEnv) (call : ToolCall) (counter : nat) : nat * Val :=
  match call with
  | RestartIotSystem device_id device_type =>
      restart_iot_system env device_id device_type counter
  | AdjustIotSettings device_id setting_type new_value =>
      adjust_iot_settings env device_id setting_type new_value counter
  | CalibrateIotSensors device_id sensor_types =>
      calibrate_iot_sensors env device_id sensor_types counter
  | RestartCameraSystem camera_id camera_model =>
      restart_camera_system env camera_id camera_model counter
  | AdjustCameraBrightness camera_id brightness_level auto_adjust =>
      adjust_camera_brightness env camera_id brightness_level auto_adjust counter
  | AdjustCameraFocus camera_id focus_mode focus_distance =>
      adjust_camera_focus env camera_id focus_mode focus_distance counter
  end.

(** The tool calls of a request, one after the other: the counter at the
    end and the results. *)
Fixpoint call_tools (calls : list (ToolEnv * ToolCall)) (counter : nat) : nat * list Val :=
  match calls with
  | [] => (counter, [])
  | (env, call) :: calls' =>
      let '(counter1, result) := call_tool env call counter in
      let '(counter2, results) := call_tools calls' counter1 in
      (counter2, result :: results)
  end.

(** *** agent_gemini.py: [log_requests] *)

(** What [call_next(request)] does in this stage: the agent calls tools and
    the application answers. *)
Record Handling := {
  tool_calls : list (ToolEnv * ToolCall);
  response : HttpResponse
}.

(** The middleware around one HTTP request, as in the diagnosis stage: it
    returns the process state, the lines it logged and the response. *)
Definition log_requests (proc : Process) (now transaction_id : string) (request : Request)
    (handle : Handling) : Process * list LogLine * HttpResponse :=
  let log0 := [(INFO, "HTTP " +:+ method request +:+ " " +:+ url_path request)] in
  let counter0 := reset_tool_call_counter (tool_call_counter proc) in
  let '(estimated_input_tokens, log1) :=
    if decide (method request = "POST") then
      match request_body request with
      | inr body =>
          if truthy body then
            (estimate_tokens body,
             [(INFO, "COST_START | Transaction: " +:+ transaction_id
                     +:+ " | Input tokens (estimated): " +:+ pretty (estimate_tokens body))])
          else (0%Z, [])
      | inl e => (0%Z, [(WARNING, "Could not read request body for cost tracking: " +:+ e)])
      end
    else (0%Z, []) in
  let counter1 := (call_tools (tool_calls handle) counter0).1 in
  let tool_count := get_tool_call_counter counter1 in
  let response_size := response_size_of (response handle) in
  let estimated_output_tokens := Z.max 1 (response_size / 4) in
  let '(tracker', log2) :=
    match log_request_cost (cost_tracker proc) now transaction_id "gemini-1.5-pro"
            estimated_input_tokens estimated_output_tokens "a2a_remediation"
            [("tool_calls", PyInt (Z.of_nat tool_count));
             ("request_path", PyStr (url_path request));
             ("response_size", PyInt response_size);
             ("remediation_functions_called", PyInt (Z.of_nat tool_count))] with
    | Some (tracker', _) => (tracker', [])
    | None =>
        (cost_tracker proc,
         [(WARNING, "Cost tracking error: integer division result too large for a float")])
    end in
  ({| tool_call_counter := counter1; cost_tracker := tracker' |},
   log0 ++ log1 ++ log2 ++ Stage3.remediation_flow_monitoring (method request) tool_count,
   response handle).

(** The number of occurrences of a character in a string. *)
Fixpoint count_char (c : ascii) (s : string) : nat :=
  match s with
  | EmptyString => 0
  | String c' s' => (if decide (c' = c) then 1 else 0) + count_char c s'
  end.

(** A string that is empty or begins with a character that is not white
    space. *)
Definition left_trimmed (s : string) : Prop :=
  match s with EmptyString => True | String c _ => is_space c = false end.

End Remediation.

(* ===================================================================== *)
(** ** machine1_log_analysis/tools.py: the IoT analysis tools *)
(* ===================================================================== *)

Module LogTools.
Import PyStr PyNum.

(** How an f-string renders a float: [str(x)] for [{x}] and
    [format(x, '.1f')] for [{x:.1f}]. The renderings are taken as given;
    no statement depends on them. *)
Record Rendering := {
  str_float : float → string;
  fixed_1 : float → string
}.

(** [x > y] on two floats. *)
Definition gt (x y : float) : bool := PrimFloat.ltb y x.

(** [x < y] on two floats. *)
Definition lt (x y : float) : bool := PrimFloat.ltb x y.

(** The truth value of a list: non-empty. *)
Definition nonempty {A} (l : list A) : bool :=
  match l with [] => false | _ :: _ => true end.

Definition analyze_device_metrics (r : Rendering) (device_id : string)
    (cpu_usage memory_usage : float) : string :=
  let issues := [] in
  let issues :=
    if gt cpu_usage 60 then issues ++ ["HIGH CPU usage: " +:+ str_float r cpu_usage +:+ "%"]
    else issues in
  let issues :=
    if gt memory_usage 60
    then issues ++ ["HIGH memory usage: " +:+ str_float r memory_usage +:+ "%"]
    else issues in
  if nonempty issues then
    let severity := if gt cpu_usage 90 || gt memory_usage 90 then "HIGH" else "MEDIUM" in
    "Device " +:+ device_id +:+ ": " +:+ severity +:+ " severity. Issues: "
      +:+ join ", " issues
  else
    let severity := "LOW" in
    "Device " +:+ device_id +:+ ": " +:+ severity +:+ " severity. Metrics within normal range.".

(** The degree sign is outside the ASCII alphabet of the strings here and
    is written as its two UTF-8 bytes. *)
Definition degree_sign : string :=
  String (ascii_of_nat 194) (String (ascii_of_nat 176) EmptyString).

Definition check_device_health (r : Rendering) (device_id : string)
    (temperature battery_level : float) : string :=
  let issues := [] in
  let issues :=
    if gt temperature 60
    then issues ++ ["HIGH temperature: " +:+ str_float r temperature +:+ degree_sign +:+ "C"]
    else issues in
  let issues :=
    if lt battery_level 20
    then issues ++ ["LOW battery: " +:+ str_float r battery_level +:+ "%"]
    else issues in
  if nonempty issues then
    let severity := if gt temperature 70 || lt battery_level 10 then "CRITICAL" else "MEDIUM" in
    "Device " +:+ device_id +:+ ": " +:+ severity +:+ " health issues. " +:+ join ", " issues
  else
    "Device " +:+ device_id +:+ ": GOOD health status.".

Definition analyze_network_performance (r : Rendering) (device_id : string)
    (latency packet_loss : float) : string :=
  let issues := [] in
  let issues :=
    if gt latency 300 then issues ++ ["HIGH latency: " +:+ str_float r latency +:+ "ms"]
    else if gt latency 150
    then issues ++ ["ELEVATED latency: " +:+ str_float r latency +:+ "ms"]
    else issues in
  let issues :=
    if gt packet_loss 3
    then issues ++ ["HIGH packet loss: " +:+ str_float r packet_loss +:+ "%"]
    else if gt packet_loss 1
    then issues ++ ["ELEVATED packet loss: " +:+ str_float r packet_loss +:+ "%"]
    else issues in
  if nonempty issues then
    let severity := if gt latency 500 || gt packet_loss 5 then "HIGH" else "MEDIUM" in
    "Device " +:+ device_id +:+ ": " +:+ severity +:+ " network issues. " +:+ join ", " issues
  else
    let severity := "GOOD" in
    "Device " +:+ device_id +:+ ": " +:+ severity +:+ " network performance.".

(** The two lists [analyze_operational_metrics] fills. *)
Definition operational_findings (r : Rendering) (uptime_hrs : float)
    (workload_intensity error_count failure_type : Z) : list string * list string :=
  let issues := [] in
  let risk_factors := [] in
  (* Analyze uptime patterns *)
  let '(issues, risk_factors) :=
    if lt uptime_hrs 24
    then (issues ++ ["SHORT uptime: " +:+ fixed_1 r uptime_hrs +:+ " hours (recent restart)"],
          risk_factors)
    else if gt uptime_hrs 720
    then (issues,
          risk_factors ++ ["EXTENDED uptime: " +:+ fixed_1 r uptime_hrs
                           +:+ " hours (may need maintenance)"])
    else (issues, risk_factors) in
  (* Analyze workload intensity *)
  let '(issues, risk_factors) :=
    if (8 <=? workload_intensity)%Z
    then (issues ++ ["EXTREME workload: intensity " +:+ pretty workload_intensity],
          risk_factors)
    else if (6 <=? workload_intensity)%Z
    then (issues ++ ["HIGH workload: intensity " +:+ pretty workload_intensity], risk_factors)
    else if (4 <=? workload_intensity)%Z
    then (issues,
          risk_factors ++ ["MODERATE workload: intensity " +:+ pretty workload_intensity])
    else (issues, risk_factors) in
  (* Analyze error patterns *)
  let '(issues, risk_factors) :=
    if (20 <? error_count)%Z
    then (issues ++ ["CRITICAL error rate: " +:+ pretty error_count +:+ " errors"],
          risk_factors)
    else if (10 <? error_count)%Z
    then (issues ++ ["HIGH error rate: " +:+ pretty error_count +:+ " errors"], risk_factors)
    else if (5 <? error_count)%Z
    then (issues,
          risk_factors ++ ["ELEVATED error rate: " +:+ pretty error_count +:+ " errors"])
    else if (0 <? error_count)%Z
    then (issues,
          risk_factors ++ ["Some errors detected: " +:+ pretty error_count +:+ " errors"])
    else (issues, risk_factors) in
  (* Analyze failure type *)
  let '(issues, risk_factors) :=
    if (8 <=? failure_type)%Z
    then (issues ++ ["SEVERE failure type: " +:+ pretty failure_type], risk_factors)
    else if (5 <=? failure_type)%Z
    then (issues ++ ["SIGNIFICANT failure type: " +:+ pretty failure_type], risk_factors)
    else if (3 <=? failure_type)%Z
    then (issues, risk_factors ++ ["Moderate failure type: " +:+ pretty failure_type])
    else if (0 <? failure_type)%Z
    then (issues, risk_factors ++ ["Minor failure type: " +:+ pretty failure_type])
    else (issues, risk_factors) in
  (issues, risk_factors).

Definition analyze_operational_metrics (r : Rendering) (device_id : string)
    (uptime_hrs : float) (workload_intensity error_count failure_type : Z) : string :=
  let '(issues, risk_factors) :=
    operational_findings r uptime_hrs workload_intensity error_count failure_type in
  (* Determine overall operational status *)
  if nonempty issues then
    let severity :=
      if (20 <? error_count)%Z || (8 <=? workload_intensity)%Z || (8 <=? failure_type)%Z
      then "CRITICAL" else "HIGH" in
    let result :=
      "Device " +:+ device_id +:+ ": " +:+ severity +:+ " operational issues. "
        +:+ join ", " issues in
    if nonempty risk_factors
    then result +:+ " Additional concerns: " +:+ join ", " risk_factors
    else result
  else if nonempty risk_factors then
    let severity := "MEDIUM" in
    "Device " +:+ device_id +:+ ": " +:+ severity +:+ " operational concerns. "
      +:+ join ", " risk_factors
  else
    let severity := "GOOD" in
    "Device " +:+ device_id +:+ ": " +:+ severity +:+ " operational status.".

(** *** The levels, as conditions on the arguments *)

(** The level of [analyze_device_metrics]. *)
Definition metrics_level (cpu_usage memory_usage : float) : string :=
  if gt cpu_usage 90 || gt memory_usage 90 then "HIGH severity. Issues: "
  else if gt cpu_usage 60 || gt memory_usage 60 then "MEDIUM severity. Issues: "
  else "LOW severity. Metrics within normal range.".

(** The level of [check_device_health]. *)
Definition health_level (temperature battery_level : float) : string :=
  if gt temperature 70 || lt battery_level 10 then "CRITICAL health issues. "
  else if gt temperature 60 || lt battery_level 20 then "MEDIUM health issues. "
  else "GOOD health status.".

(** The level of [analyze_network_performance]. *)
Definition network_level (latency packet_loss : float) : string :=
  if gt latency 500 || gt packet_loss 5 then "HIGH network issues. "
  else if gt latency 150 || gt packet_loss 1 then "MEDIUM network issues. "
  else "GOOD network performance.".

(** The level of [analyze_operational_metrics]. *)
Definition operational_level (uptime_hrs : float)
    (workload_intensity error_count failure_type : Z) : string :=
  if (20 <? error_count)%Z || (8 <=? workload_intensity)%Z || (8 <=? failure_type)%Z
  then "CRITICAL operational issues. "
  else if lt uptime_hrs 24 || (6 <=? workload_intensity)%Z || (10 <? error_count)%Z
          || (5 <=? failure_type)%Z
  then "HIGH operational issues. "
  else if gt uptime_hrs 720 || (4 <=? workload_intensity)%Z || (0 <? error_count)%Z
          || (0 <? failure_type)%Z
  then "MEDIUM operational concerns. "
  else "GOOD operational status.".

End LogTools.

(* ===================================================================== *)
(** ** machine2_diagnosis/tools.py: the diagnosis tools *)
(* ===================================================================== *)

Module Diagnosis.
Import PyStr PyNum.
Import LogTools (gt, lt, nonempty).
Import Stage2 (_mark_tool_called).

(** *** The operations of Python the tools rely on *)

(** [s[n:]] *)
Fixpoint drop_str (n : nat) (s : string) : string :=
  match n, s with
  | 0, _ => s
  | S n', String _ s' => drop_str n' s'
  | S _, EmptyString => EmptyString
  end.

(** The longest prefix of [s] whose characters are all in the class. *)
Fixpoint take_while (class : ascii → bool) (s : string) : string :=
  match s with
  | EmptyString => EmptyString
  | String c s' => if class c then String c (take_while class s') else EmptyString
  end.

(** Every character of [s] is in the class. *)
Fixpoint all_in (class : ascii → bool) (s : string) : bool :=
  match s with
  | EmptyString => true
  | String c s' => class c && all_in class s'
  end.

(** [s.split(sep)] for a non-empty separator: the string is cut at the
    occurrences of [sep] found from left to right, which do not overlap.
    [skip] is the number of characters of a separator still to pass. *)
Fixpoint split_from (sep s : string) (skip : nat) : list string :=
  match s with
  | EmptyString => [EmptyString]
  | String c s' =>
      match skip with
      | S skip' => split_from sep s' skip'
      | 0 =>
          if startswith sep s
          then EmptyString :: split_from sep s' (String.length sep - 1)
          else match split_from sep s' 0 with
               | piece :: pieces => String c piece :: pieces
               | [] => [String c EmptyString]
               end
      end
  end.

Definition split (sep s : string) : list string := split_from sep s 0.

(** The classes [[0-9]], [[0-9.]] and [[^\n\r]] of the patterns, on the
    ASCII alphabet. *)
Definition is_digit (c : ascii) : bool :=
  let n := nat_of_ascii c in (48 <=? n)%nat && (n <=? 57)%nat.

Definition digit_or_dot (c : ascii) : bool :=
  is_digit c || (nat_of_ascii c =? 46)%nat.

Definition not_newline (c : ascii) : bool :=
  let n := nat_of_ascii c in negb ((n =? 10)%nat || (n =? 13)%nat).

(** A match of [label\s*(class+)] at the start of [s]: the group. The
    white space is passed greedily and the group is the longest run of
    characters of the class; as white space is outside the classes used,
    backtracking finds no other match. *)
Definition match_here (class : ascii → bool) (label s : string) : option string :=
  if startswith label s then
    let group := take_while class (lstrip (drop_str (String.length label) s)) in
    if truthy group then Some group else None
  else None.

(** [re.search(label + r"\s*(class+)", s)]: the group of the leftmost
    match, [None] without a match. *)
Fixpoint search (class : ascii → bool) (label s : string) : option string :=
  match match_here class label s with
  | Some group => Some group
  | None =>
      match s with
      | EmptyString => None
      | String _ s' => search class label s'
      end
  end.

(** A match of [label(class+)] at the start of [s], without white space
    in between, and its leftmost occurrence. *)
Definition match_tight (class : ascii → bool) (label s : string) : option string :=
  if startswith label s then
    let group := take_while class (drop_str (String.length label) s) in
    if truthy group then Some group else None
  else None.

Fixpoint search_tight (class : ascii → bool) (label s : string) : option string :=
  match match_tight class label s with
  | Some group => Some group
  | None =>
      match s with
      | EmptyString => None
      | String _ s' => search_tight class label s'
      end
  end.

(** The exceptions the tools can raise: [ValueError] carries the string
    that could not be converted. *)
Inductive Raised :=
| IndexError
| ValueError (text : string).

(** A computation that returns or raises. *)
Definition Exn (A : Type) : Type := Raised + A.

Definition bind_exn {A B} (m : Exn A) (f : A → Exn B) : Exn B :=
  match m with
  | inl e => inl e
  | inr a => f a
  end.

#[local] Notation "x ←! m ; f" := (bind_exn m (λ x, f))
  (at level 20, m at level 100, f at level 200, only parsing).

(** The number a string of decimal digits denotes. *)
Fixpoint digits_value (s : string) (acc : Z) : Z :=
  match s with
  | EmptyString => acc
  | String c s' => digits_value s' (10 * acc + (Z.of_nat (nat_of_ascii c) - 48))
  end.

(** The float nearest to [whole.frac]. *)
Definition decimal (whole frac : string) : float :=
  SF2Prim (SFdiv prec emax (Z2SF (digits_value (whole +:+ frac) 0))
             (Z2SF (10 ^ Z.of_nat (String.length frac)))).

(** [float(group)] for a group of the class [[0-9.]]: digits with at most
    one point and at least one digit; [None] is ValueError. *)
Definition float_of_group (group : string) : option float :=
  let whole := take_while is_digit group in
  match drop_str (String.length whole) group with
  | EmptyString => if truthy whole then Some (decimal whole EmptyString) else None
  | String _ frac =>
      if all_in is_digit frac && (truthy whole || truthy frac)
      then Some (decimal whole frac) else None
  end.

(** What the tools take from the Python runtime: how [str] renders a
    float in an f-string, and [sys.get_int_max_str_digits()], the limit on
    the digits [int] converts (0: no limit). *)
Record Runtime := {
  str_float : float → string;
  int_max_str_digits : nat
}.

(** [int(group)] for a group of the class [[0-9]]. *)
Definition int_of_group (rt : Runtime) (group : string) : option Z :=
  if (0 <? int_max_str_digits rt)%nat && (int_max_str_digits rt <? String.length group)%nat
  then None else Some (digits_value group 0).

(** [m = re.search(...)] and, under [if m:], [float(m.group(1))]. *)
Definition float_metric (label data_section : string) : Exn (option float) :=
  match search digit_or_dot label data_section with
  | None => inr None
  | Some group =>
      match float_of_group group with
      | Some x => inr (Some x)
      | None => inl (ValueError group)
      end
  end.

(** [m = re.search(...)] and, under [if m:], [int(m.group(1))]. *)
Definition int_metric (rt : Runtime) (label data_section : string) : Exn (option Z) :=
  match search is_digit label data_section with
  | None => inr None
  | Some group =>
      match int_of_group rt group with
      | Some n => inr (Some n)
      | None => inl (ValueError group)
      end
  end.

(** [report.split("LOG REFERENCE DATA:")[1]] *)
Definition data_section_of (report : string) : Exn string :=
  match split "LOG REFERENCE DATA:" report !! 1 with
  | Some data_section => inr data_section
  | None => inl IndexError
  end.

(** [if m: x = float(...); <body>] *)
Definition when_found {A B} (body : A → B → A) (acc : A) (m : option B) : A :=
  match m with
  | Some x => body acc x
  | None => acc
  end.

(** *** [generate_remediation_plan] *)

(** The lists [immediate_actions] and [preventive_measures]. *)
Definition Actions : Type := list string * list string.

(** "CPU-based remediation" *)
Definition cpu_remediation (acts : Actions) (cpu : float) : Actions :=
  if gt cpu 80 then
    (acts.1 ++ ["Terminate non-essential processes immediately"],
     acts.2 ++ ["Implement CPU usage monitoring"])
  else if gt cpu 60 then
    (acts.1 ++ ["Review and optimize running processes"], acts.2)
  else acts.

(** "Memory-based remediation" *)
Definition memory_remediation (acts : Actions) (memory : float) : Actions :=
  if gt memory 85 then
    (acts.1 ++ ["Clear memory cache and restart services"],
     acts.2 ++ ["Implement automatic memory cleanup"])
  else acts.

(** "Network-based remediation" *)
Definition network_remediation (acts : Actions) (latency : float) : Actions :=
  if gt latency 150 then
    (acts.1 ++ ["Check network connectivity"], acts.2 ++ ["Implement network monitoring"])
  else acts.

(** The part of the tool that fills the two lists. *)
Definition planned_actions (report_content : string) : Exn Actions :=
  let acts : Actions := ([], []) in
  if contains "LOG REFERENCE DATA" report_content then
    data_section ←! data_section_of report_content;
    if contains "Device_ID:" data_section then
      cpu ←! float_metric "CPU_Usage (%):" data_section;
      let acts := when_found cpu_remediation acts cpu in
      memory ←! float_metric "Memory_Usage (%):" data_section;
      let acts := when_found memory_remediation acts memory in
      latency ←! float_metric "Network_Latency (ms):" data_section;
      let acts := when_found network_remediation acts latency in
      inr acts
    else if contains "Model:" data_section then
      inr (acts.1 ++ ["Update firmware if available"],
           acts.2 ++ ["Consider hardware upgrade planning"])
    else inr acts
  else inr acts.

(** "Build remediation plan" *)
Definition build_plan (acts : Actions) : string :=
  let plan := "REMEDIATION_PLAN:" in
  let plan :=
    if nonempty acts.1 then plan +:+ " IMMEDIATE: " +:+ join " | " acts.1 else plan in
  let plan :=
    if nonempty acts.2 then plan +:+ " PREVENTIVE: " +:+ join " | " acts.2 else plan in
  plan.

(** Each tool takes the counter and returns it with its result or its
    exception: the call is counted before anything else is done. *)
Definition generate_remediation_plan (report_content : string) (counter : nat)
  : nat * Exn string :=
  let counter := _mark_tool_called "generate_remediation_plan" counter in
  (counter, acts ←! planned_actions report_content; inr (build_plan acts)).

(** *** [assess_severity_level] *)

(** The list [severity_factors] and [severity_score]. *)
Definition Factors : Type := list string * Z.

(** [severity_factors.append(name)] and [severity_score += points]. *)
Definition add_factor (found : Factors) (name : string) (points : Z) : Factors :=
  (found.1 ++ [name], (found.2 + points)%Z).

(** "CPU severity" *)
Definition cpu_severity (rt : Runtime) (found : Factors) (cpu : float) : Factors :=
  if gt cpu 90 then add_factor found ("CRITICAL_CPU(" +:+ str_float rt cpu +:+ "%)") 4
  else if gt cpu 80 then add_factor found ("HIGH_CPU(" +:+ str_float rt cpu +:+ "%)") 3
  else if gt cpu 60 then add_factor found ("MEDIUM_CPU(" +:+ str_float rt cpu +:+ "%)") 2
  else found.

(** "Memory severity" *)
Definition memory_severity (rt : Runtime) (found : Factors) (memory : float) : Factors :=
  if gt memory 90
  then add_factor found ("CRITICAL_MEMORY(" +:+ str_float rt memory +:+ "%)") 4
  else if gt memory 85
  then add_factor found ("HIGH_MEMORY(" +:+ str_float rt memory +:+ "%)") 3
  else found.

(** "Network severity" *)
Definition latency_severity (rt : Runtime) (found : Factors) (latency : float) : Factors :=
  if gt latency 300
  then add_factor found ("CRITICAL_LATENCY(" +:+ str_float rt latency +:+ "ms)") 4
  else if gt latency 200
  then add_factor found ("HIGH_LATENCY(" +:+ str_float rt latency +:+ "ms)") 3
  else if gt latency 150
  then add_factor found ("MEDIUM_LATENCY(" +:+ str_float rt latency +:+ "ms)") 2
  else found.

(** "Error severity" *)
Definition error_severity (found : Factors) (errors : Z) : Factors :=
  if (5 <? errors)%Z then add_factor found ("CRITICAL_ERRORS(" +:+ pretty errors +:+ ")") 4
  else if (3 <? errors)%Z then add_factor found ("HIGH_ERRORS(" +:+ pretty errors +:+ ")") 3
  else if (1 <? errors)%Z then add_factor found ("MEDIUM_ERRORS(" +:+ pretty errors +:+ ")") 2
  else found.

(** The part of the tool that collects the factors and the score. *)
Definition severity_factors (rt : Runtime) (report_content : string) : Exn Factors :=
  let found : Factors := ([], 0%Z) in
  if contains "LOG REFERENCE DATA" report_content then
    data_section ←! data_section_of report_content;
    if contains "Device_ID:" data_section then
      cpu ←! float_metric "CPU_Usage (%):" data_section;
      let found := when_found (cpu_severity rt) found cpu in
      memory ←! float_metric "Memory_Usage (%):" data_section;
      let found := when_found (memory_severity rt) found memory in
      latency ←! float_metric "Network_Latency (ms):" data_section;
      let found := when_found (latency_severity rt) found latency in
      errors ←! int_metric rt "Error_Count:" data_section;
      let found := when_found error_severity found errors in
      inr found
    else if contains "Model:" data_section then
      inr (add_factor found "CAMERA_ASSESSMENT" 1)
    else inr found
  else inr found.

(** "Determine final severity level" *)
Definition final_severity (severity_score : Z) : string :=
  if (12 <=? severity_score)%Z then "CRITICAL"
  else if (8 <=? severity_score)%Z then "HIGH"
  else if (4 <=? severity_score)%Z then "MEDIUM"
  else "LOW".

Definition assessment_of (found : Factors) : string :=
  "SEVERITY_ASSESSMENT: " +:+ final_severity found.2 +:+ " | FACTORS: "
    +:+ (if nonempty found.1 then join " | " found.1 else "NO_CRITICAL_FACTORS")
    +:+ " | SCORE: " +:+ pretty found.2.

Definition assess_severity_level (rt : Runtime) (report_content : string) (counter : nat)
  : nat * Exn string :=
  let counter := _mark_tool_called "assess_severity_level" counter in
  (counter, found ←! severity_factors rt report_content; inr (assessment_of found)).

(** *** [diagnose_camera_equipment] *)

(** "Extract camera model from report header" *)
Definition camera_model_of (camera_report : string) : string :=
  if contains "Model " camera_report then
    match search_tight not_newline "Model " camera_report with
    | Some group => strip group
    | None => "UNKNOWN"
    end
  else "UNKNOWN".

(** The dict [specs], as far as it is read afterwards. *)
Record Specs := {
  spec_resolution : option float;
  spec_pixels : option float;
  spec_weight : option float
}.

(** [if m: specs[key] = float(m.group(1))] *)
Definition convert_match (m : option string) : Exn (option float) :=
  match m with
  | None => inr None
  | Some group =>
      match float_of_group group with
      | Some x => inr (Some x)
      | None => inl (ValueError group)
      end
  end.

(** "Extract camera specifications from LOG REFERENCE DATA section": the
    five searches and then the five conversions, each of which can raise,
    also those of the zoom and of the price, which are not read
    afterwards. *)
Definition camera_specs (camera_report : string) : Exn Specs :=
  if contains "LOG REFERENCE DATA" camera_report then
    data_section ←! data_section_of camera_report;
    let resolution_match := search digit_or_dot "Max resolution:" data_section in
    let pixels_match := search digit_or_dot "Effective pixels:" data_section in
    let zoom_match := search digit_or_dot "Zoom wide (W):" data_section in
    let weight_match := search digit_or_dot "Weight (inc. batteries):" data_section in
    let price_match := search digit_or_dot "Price:" data_section in
    resolution ←! convert_match resolution_match;
    pixels ←! convert_match pixels_match;
    zoom_wide ←! convert_match zoom_match;
    weight ←! convert_match weight_match;
    price ←! convert_match price_match;
    inr {| spec_resolution := resolution; spec_pixels := pixels; spec_weight := weight |}
  else inr {| spec_resolution := None; spec_pixels := None; spec_weight := None |}.

(** The lists [quality_issues] and [technical_analysis]. *)
Definition Findings : Type := list string * list string.

(** "Resolution Analysis" *)
Definition resolution_analysis (rt : Runtime) (found : Findings) (resolution : float)
  : Findings :=
  if lt resolution 800
  then (found.1 ++ ["LOW_RESOLUTION_SENSOR(" +:+ str_float rt resolution +:+ ")"], found.2)
  else if lt resolution 1200
  then (found.1, found.2 ++ ["ADEQUATE_RESOLUTION(" +:+ str_float rt resolution +:+ ")"])
  else (found.1, found.2 ++ ["HIGH_RESOLUTION(" +:+ str_float rt resolution +:+ ")"]).

(** "Pixel Analysis" *)
Definition pixel_analysis (rt : Runtime) (found : Findings) (pixels : float) : Findings :=
  if lt pixels 1
  then (found.1 ++ ["INADEQUATE_PIXEL_COUNT(" +:+ str_float rt pixels +:+ "MP)"], found.2)
  else if lt pixels 2
  then (found.1, found.2 ++ ["BASIC_SENSOR(" +:+ str_float rt pixels +:+ "MP)"])
  else (found.1, found.2 ++ ["DECENT_SENSOR(" +:+ str_float rt pixels +:+ "MP)"]).

(** "Weight Analysis" *)
Definition weight_analysis (rt : Runtime) (found : Findings) (weight : float) : Findings :=
  if gt weight 600
  then (found.1 ++ ["HEAVY_WEIGHT(" +:+ str_float rt weight +:+ "g)"], found.2)
  else if gt weight 400
  then (found.1, found.2 ++ ["MODERATE_WEIGHT(" +:+ str_float rt weight +:+ "g)"])
  else (found.1, found.2 ++ ["LIGHTWEIGHT(" +:+ str_float rt weight +:+ "g)"]).

(** "Overall Assessment" *)
Definition camera_severity (quality_issues value_concerns : list string) : string :=
  if nonempty quality_issues && nonempty value_concerns then "HIGH"
  else if nonempty quality_issues || nonempty value_concerns then "MEDIUM"
  else "LOW".

(** "Build diagnosis summary" *)
Definition camera_summary (camera_model severity : string)
    (quality_issues value_concerns technical_analysis : list string) : string :=
  let diagnosis :=
    "CAMERA DIAGNOSIS - " +:+ camera_model +:+ ": " +:+ severity +:+ " SEVERITY" in
  let diagnosis :=
    if nonempty quality_issues
    then diagnosis +:+ " | QUALITY_ISSUES: " +:+ join " | " quality_issues
    else diagnosis in
  let diagnosis :=
    if nonempty value_concerns
    then diagnosis +:+ " | VALUE_CONCERNS: " +:+ join " | " value_concerns
    else diagnosis in
  let diagnosis :=
    if nonempty technical_analysis
    then diagnosis +:+ " | TECHNICAL: " +:+ join " | " technical_analysis
    else diagnosis in
  diagnosis.

(** [value_concerns] is the list the tool creates and never appends to. *)
Definition diagnose_camera_equipment (rt : Runtime) (camera_report : string) (counter : nat)
  : nat * Exn string :=
  let counter := _mark_tool_called "diagnose_camera_equipment" counter in
  let camera_model := camera_model_of camera_report in
  (counter,
   specs ←! camera_specs camera_report;
   let value_concerns : list string := [] in
   let found : Findings := ([], []) in
   let found := when_found (resolution_analysis rt) found (spec_resolution specs) in
   let found := when_found (pixel_analysis rt) found (spec_pixels specs) in
   let found := when_found (weight_analysis rt) found (spec_weight specs) in
   let severity := camera_severity found.1 value_concerns in
   inr (camera_summary camera_model severity found.1 value_concerns found.2)).

(** *** [analyze_root_cause] *)

(** "CPU Analysis" *)
Definition cpu_cause (rt : Runtime) (causes : list string) (cpu : float) : list string :=
  if gt cpu 80
  then causes ++ ["CRITICAL_CPU_OVERLOAD - " +:+ str_float rt cpu +:+ "% utilization"]
  else if gt cpu 60
  then causes ++ ["HIGH_CPU_USAGE - " +:+ str_float rt cpu +:+ "% resource pressure"]
  else causes.

(** "Memory Analysis" *)
Definition memory_cause (rt : Runtime) (causes : list string) (memory : float)
  : list string :=
  if gt memory 85
  then causes ++ ["MEMORY_EXHAUSTION - " +:+ str_float rt memory +:+ "% usage critical"]
  else causes.

(** "Network Analysis" *)
Definition latency_cause (rt : Runtime) (causes : list string) (latency : float)
  : list string :=
  if gt latency 150
  then causes ++ ["NETWORK_LATENCY_ISSUE - " +:+ str_float rt latency
                  +:+ "ms exceeds threshold"]
  else causes.

(** "Error Analysis" *)
Definition error_cause (causes : list string) (errors : Z) : list string :=
  if (2 <? errors)%Z
  then causes ++ ["OPERATIONAL_ERRORS - " +:+ pretty errors +:+ " errors detected"]
  else causes.

(** "Resolution analysis" *)
Definition resolution_cause (rt : Runtime) (causes : list string) (resolution : float)
  : list string :=
  if lt resolution 800
  then causes ++ ["LOW_RESOLUTION - " +:+ str_float rt resolution +:+ " below standards"]
  else causes.

(** "Pixel analysis" *)
Definition pixel_cause (rt : Runtime) (causes : list string) (pixels : float)
  : list string :=
  if lt pixels 1
  then causes ++ ["INADEQUATE_SENSOR - " +:+ str_float rt pixels +:+ "MP insufficient"]
  else causes.

(** The part of the tool that fills [root_causes]. *)
Definition root_causes (rt : Runtime) (report_content : string) : Exn (list string) :=
  let causes : list string := [] in
  if contains "LOG REFERENCE DATA" report_content then
    data_section ←! data_section_of report_content;
    if contains "Device_ID:" data_section then
      cpu ←! float_metric "CPU_Usage (%):" data_section;
      let causes := when_found (cpu_cause rt) causes cpu in
      memory ←! float_metric "Memory_Usage (%):" data_section;
      let causes := when_found (memory_cause rt) causes memory in
      latency ←! float_metric "Network_Latency (ms):" data_section;
      let causes := when_found (latency_cause rt) causes latency in
      errors ←! int_metric rt "Error_Count:" data_section;
      let causes := when_found error_cause causes errors in
      inr causes
    else if contains "Model:" data_section then
      resolution ←! float_metric "Max resolution:" data_section;
      let causes := when_found (resolution_cause rt) causes resolution in
      pixels ←! float_metric "Effective pixels:" data_section;
      let causes := when_found (pixel_cause rt) causes pixels in
      inr causes
    else inr causes
  else inr causes.

(** "Finalize analysis" *)
Definition finalize_causes (causes : list string) : string :=
  let causes :=
    if nonempty causes then causes
    else causes ++ ["NO_CRITICAL_ISSUES_DETECTED - Metrics within acceptable ranges"] in
  "ROOT_CAUSE_ANALYSIS: " +:+ join " | " causes.

Definition analyze_root_cause (rt : Runtime) (report_content : string) (counter : nat)
  : nat * Exn string :=
  let counter := _mark_tool_called "analyze_root_cause" counter in
  (counter, causes ←! root_causes rt report_content; inr (finalize_causes causes)).

(** *** Notions of the statements *)

(** The number of the labels that occur in the text. *)
Definition labels_present (labels : list string) (text : string) : Z :=
  Z.of_nat (length (List.filter (λ label, contains label text) labels)).

(** The four metrics [assess_severity_level] scores. *)
Definition scored_labels : list string :=
  ["CPU_Usage (%):"; "Memory_Usage (%):"; "Network_Latency (ms):"; "Error_Count:"].

(** The number of occurrences of a character in a string. *)
Fixpoint count_of (c : ascii) (s : string) : nat :=
  match s with
  | EmptyString => 0
  | String c' s' => (if decide (c' = c) then 1 else 0) + count_of c s'
  end.

(** The actions planned so far: no more preventive measures than
    immediate actions, and at most [n] of these. *)
Definition balanced (n : nat) (acts : Actions) : Prop :=
  length acts.2 ≤ length acts.1 ≤ n.

(** The score so far: not negative and at most [bound]. *)
Definition scored (bound : Z) (found : Factors) : Prop := (0 ≤ found.2 ≤ bound)%Z.

(** The findings so far: at most [n] quality issues. *)
Definition few_issues (n : nat) (found : Findings) : Prop := length found.1 ≤ n.

End Diagnosis.

(* ===================================================================== *)
(** * Properties *)
(* ===================================================================== *)

(** ** Strings *)

Module PyStrFacts.
Import PyStr.
#[local] Arguments String.append !_ _ / : simpl nomatch.

Lemma append_assoc (a b c : string) : (a +:+ b) +:+ c = a +:+ b +:+ c.
Proof. induction a as [|x a IH]; simpl; [reflexivity | by rewrite IH]. Qed.

Lemma append_empty_r (a : string) : a +:+ EmptyString = a.
Proof. induction a as [|x a IH]; simpl; [reflexivity | congruence]. Qed.

Lemma upper_append (a b : string) : upper (a +:+ b) = upper a +:+ upper b.
Proof. induction a as [|x a IH]; simpl; [reflexivity | congruence]. Qed.

Lemma startswith_spec (p s : string) :
  startswith p s = true ↔ ∃ post, s = p +:+ post.
Proof.
  revert s. induction p as [|a p IH]; intros s; simpl.
  - split; [intros _; by exists s | done].
  - destruct s as [|b s].
    + split; [done | intros [post H]; discriminate].
    + case_decide as Hab.
      * subst b. rewrite IH. split; intros [post H]; exists post; congruence.
      * split; [done | intros [post H]; congruence].
Qed.

(** Python's [needle in hay] finds exactly the substrings of [hay]. *)
Lemma contains_spec (needle hay : string) :
  contains needle hay = true ↔ ∃ pre post, hay = pre +:+ needle +:+ post.
Proof.
  induction hay as [|c hay IH].
  - simpl. rewrite orb_false_r, startswith_spec. split.
    + intros [post H]. by exists EmptyString, post.
    + intros [[|x pre] [post H]]; [by exists post | discriminate].
  - simpl. rewrite orb_true_iff, startswith_spec, IH. split.
    + intros [[post H] | (pre & post & H)].
      * by exists EmptyString, post.
      * exists (String c pre), post. simpl. by rewrite H.
    + intros ([|x pre] & post & H); simpl in H.
      * left. by exists post.
      * right. exists pre, post. congruence.
Qed.

(** A split of the upper-cased text comes from a split of the text. *)
Lemma upper_split (t a b : string) :
  upper t = a +:+ b → ∃ a' b', t = a' +:+ b' ∧ upper a' = a ∧ upper b' = b.
Proof.
  revert t. induction a as [|x a IH]; intros t H.
  - exists EmptyString, t. done.
  - destruct t as [|c t]; [discriminate|]. simpl in H.
    injection H as Hc Ht. destruct (IH _ Ht) as (a' & b' & -> & Ha & Hb).
    exists (String c a'), b'. simpl. by rewrite Hc, Ha, Hb.
Qed.

(** The code's test on the upper-cased text decides case-insensitive
    occurrence. *)
Lemma mentions_contains (kw text : string) :
  mentions kw text ↔ contains kw (upper text) = true.
Proof.
  rewrite contains_spec. split.
  - intros (pre & mid & post & -> & <-).
    exists (upper pre), (upper post). by rewrite !upper_append.
  - intros (pre & post & H).
    apply upper_split in H as (pre' & rest & -> & _ & H).
    apply upper_split in H as (mid & post' & -> & Hmid & _).
    by exists pre', mid, post'.
Qed.

Lemma upper_lower_ascii (c : ascii) : upper_ascii (lower_ascii c) = upper_ascii c.
Proof. destruct c as [[] [] [] [] [] [] [] []]; reflexivity. Qed.

Lemma lower_upper_ascii (c : ascii) : lower_ascii (upper_ascii c) = lower_ascii c.
Proof. destruct c as [[] [] [] [] [] [] [] []]; reflexivity. Qed.

Lemma upper_lower (s : string) : upper (lower s) = upper s.
Proof. induction s as [|c s IH]; simpl; [done | by rewrite upper_lower_ascii, IH]. Qed.

Lemma lower_upper (s : string) : lower (upper s) = lower s.
Proof. induction s as [|c s IH]; simpl; [done | by rewrite lower_upper_ascii, IH]. Qed.

Lemma lower_append (a b : string) : lower (a +:+ b) = lower a +:+ lower b.
Proof. induction a as [|x a IH]; simpl; [reflexivity | by rewrite IH]. Qed.

Lemma lower_split (t a b : string) :
  lower t = a +:+ b → ∃ a' b', t = a' +:+ b' ∧ lower a' = a ∧ lower b' = b.
Proof.
  revert t. induction a as [|x a IH]; intros t H.
  - exists EmptyString, t. done.
  - destruct t as [|c t]; [discriminate|]. simpl in H.
    injection H as Hc Ht. destruct (IH _ Ht) as (a' & b' & -> & Ha & Hb).
    exists (String c a'), b'. simpl. by rewrite Hc, Ha, Hb.
Qed.

(** The test on the lower-cased text decides the same occurrence. *)
Lemma mentions_contains_lower (kw text : string) :
  mentions (upper kw) text ↔ contains (lower kw) (lower text) = true.
Proof.
  rewrite contains_spec. split.
  - intros (pre & mid & post & -> & Hmid).
    exists (lower pre), (lower post). rewrite !lower_append. do 2 f_equal.
    by rewrite <- (lower_upper mid), Hmid, lower_upper.
  - intros (pre & post & H).
    apply lower_split in H as (pre' & rest & -> & _ & H).
    apply lower_split in H as (mid & post' & -> & Hmid & _).
    exists pre', mid, post'. split; [done|].
    by rewrite <- (upper_lower mid), Hmid, upper_lower.
Qed.

Lemma is_space_upper (c : ascii) : is_space (upper_ascii c) = is_space c.
Proof. destruct c as [[] [] [] [] [] [] [] []]; reflexivity. Qed.

Lemma all_space_upper (s : string) : all_space (upper s) = all_space s.
Proof. induction s as [|c s IH]; simpl; [done | by rewrite is_space_upper, IH]. Qed.

Lemma all_space_append (a b : string) :
  all_space (a +:+ b) = all_space a && all_space b.
Proof. induction a as [|c a IH]; simpl; [done | by rewrite IH, andb_assoc]. Qed.

Lemma lstrip_empty (s : string) : lstrip s = EmptyString ↔ all_space s = true.
Proof.
  induction s as [|c s IH]; simpl; [done|].
  destruct (is_space c); simpl; [exact IH | done].
Qed.

Lemma lstrip_head (s : string) c r : lstrip s = String c r → is_space c = false.
Proof.
  induction s as [|x s IH]; simpl; [done|].
  destruct (is_space x) eqn:E; [exact IH | congruence].
Qed.

Lemma rstrip_head c r : is_space c = false → rstrip (String c r) ≠ EmptyString.
Proof. simpl. intros ->. by destruct (rstrip r). Qed.

(** The guard [response_text and response_text.strip()] holds exactly for
    a text with a character that is not white space. *)
Lemma guard_not_blank (s : string) :
  truthy s && truthy (strip s) = negb (all_space s).
Proof.
  unfold strip. destruct (lstrip s) as [|c r] eqn:E.
  - apply lstrip_empty in E as ->. by rewrite andb_false_r.
  - pose proof (lstrip_head _ _ _ E) as Hc.
    assert (all_space s = false) as ->.
    { destruct (all_space s) eqn:Ha; [|done].
      apply lstrip_empty in Ha. congruence. }
    destruct s; [done|]. simpl truthy at 1.
    pose proof (rstrip_head c r Hc). by destruct (rstrip (String c r)).
Qed.

(** A blank text mentions only blank keywords. *)
Lemma mentions_blank (kw text : string) :
  all_space text = true → mentions kw text → all_space kw = true.
Proof.
  intros Hs (pre & mid & post & -> & <-).
  rewrite !all_space_append in Hs. rewrite all_space_upper.
  by apply andb_prop in Hs as [_ [H _]%andb_prop].
Qed.

End PyStrFacts.

(** ** The severity classifier *)

Module ClassifierFacts.
Import PyStr PyStrFacts Classifier.

Lemma first_found_some (found : Severity → bool) (s : Severity) :
  first_found found = Some s ↔
  found s = true ∧ ∀ s', sev_rank s < sev_rank s' → found s' = false.
Proof.
  unfold first_found. split.
  - destruct (found CRITICAL) eqn:Ec, (found HIGH) eqn:Eh,
      (found MEDIUM) eqn:Em, (found LOW) eqn:El;
      intros [= <-]; (split; [done|]); intros []; simpl; done || lia.
  - intros [Hs Hmax]. destruct s.
    + rewrite (Hmax CRITICAL), (Hmax HIGH), (Hmax MEDIUM), Hs by (simpl; lia). done.
    + rewrite (Hmax CRITICAL), (Hmax HIGH), Hs by (simpl; lia). done.
    + rewrite (Hmax CRITICAL), Hs by (simpl; lia). done.
    + by rewrite Hs.
Qed.

Lemma first_found_none (found : Severity → bool) :
  first_found found = None ↔ ∀ s, found s = false.
Proof.
  unfold first_found. split.
  - destruct (found CRITICAL) eqn:Ec, (found HIGH) eqn:Eh,
      (found MEDIUM) eqn:Em, (found LOW) eqn:El; try done. by intros _ [].
  - intros H. by rewrite !H.
Qed.

(** The two branches of [determine_severity], one chain each. *)
Lemma determine_severity_unfold (text : string) :
  determine_severity text =
    if all_space text then None
    else if contains marker (upper text)
         then first_found (λ s, contains (labelled s) (upper text))
         else first_found (λ s, contains (sev_name s) (upper text)).
Proof.
  unfold determine_severity. rewrite guard_not_blank.
  destruct (all_space text); reflexivity.
Qed.

Lemma keyword_not_blank (s : Severity) : all_space (sev_name s) = false.
Proof. by destruct s. Qed.

Lemma blank_mentions_no_keyword (text : string) (s : Severity) :
  all_space text = true → ¬ mentions (sev_name s) text.
Proof.
  intros Hb Hm. pose proof (mentions_blank _ _ Hb Hm) as H.
  by rewrite keyword_not_blank in H.
Qed.

Lemma blank_mentions_no_marker (text : string) :
  all_space text = true → ¬ mentions marker text.
Proof. intros Hb Hm. by pose proof (mentions_blank _ _ Hb Hm). Qed.

(** C4. On a text without the marker ['RISK ASSESSMENT:'] (in any case) the
    classifier returns the most severe level whose keyword occurs anywhere
    in the text, in any case: it returns level [s] exactly when the keyword
    of [s] occurs and no keyword of a more severe level does, and [None]
    exactly when no keyword occurs. A text with both "medium" and "critical"
    is CRITICAL, and the empty text is [None]. *)
Theorem keyword_search_most_severe (text : string) :
  ¬ mentions marker text →
  (∀ s, determine_severity text = Some s ↔
        mentions (sev_name s) text
        ∧ ∀ s', sev_rank s < sev_rank s' → ¬ mentions (sev_name s') text)
  ∧ (determine_severity text = None ↔ ∀ s, ¬ mentions (sev_name s) text)
  ∧ (mentions "MEDIUM" text → mentions "CRITICAL" text →
     determine_severity text = Some CRITICAL)
  ∧ determine_severity EmptyString = None.
Proof.
  intros Hmarker.
  assert (Hsome : ∀ s, determine_severity text = Some s ↔
            mentions (sev_name s) text
            ∧ ∀ s', sev_rank s < sev_rank s' → ¬ mentions (sev_name s') text).
  { intros s. rewrite determine_severity_unfold.
    destruct (all_space text) eqn:Hb.
    - split; [done|]. intros [Hm _]. by apply blank_mentions_no_keyword in Hm.
    - rewrite mentions_contains in Hmarker.
      destruct (contains marker (upper text)); [done|].
      rewrite first_found_some, <- mentions_contains.
      split; intros [Hs Hmax]; (split; [done|]); intros s' Hlt.
      + rewrite mentions_contains, (Hmax s' Hlt). done.
      + specialize (Hmax s' Hlt). rewrite mentions_contains in Hmax.
        by destruct (contains (sev_name s') (upper text)). }
  split; [exact Hsome|]. split; [|split; [|reflexivity]].
  - rewrite determine_severity_unfold.
    destruct (all_space text) eqn:Hb.
    + split; [|done]. intros _ s. by apply blank_mentions_no_keyword.
    + rewrite mentions_contains in Hmarker.
      destruct (contains marker (upper text)); [done|].
      rewrite first_found_none. split; intros H s; specialize (H s).
      * rewrite mentions_contains, H. done.
      * rewrite mentions_contains in H.
        by destruct (contains (sev_name s) (upper text)).
  - intros _ Hc. apply (Hsome CRITICAL). split; [exact Hc|].
    intros []; simpl; lia.
Qed.

(** A text with "medium" and "critical" and no marker. *)
Lemma keyword_search_most_severe_witness :
  determine_severity "Medium load on the bus, critical temperature" = Some CRITICAL.
Proof.
  refine (proj1 (proj2 (proj2
    (keyword_search_most_severe "Medium load on the bus, critical temperature" _))) _ _).
  - rewrite mentions_contains. by vm_compute.
  - apply mentions_contains. by vm_compute.
  - apply mentions_contains. by vm_compute.
Defined.

(** C5, as stated, fails: the text below has the marker followed by a token
    that is no level, and the keyword "critical" elsewhere, and it is
    classified [None]. *)
Lemma unknown_label_is_none :
  let text := "RISK ASSESSMENT: UNKNOWN. Critical failure of the sensor" in
  mentions marker text
  ∧ (∀ s, ¬ mentions (labelled s) text)
  ∧ mentions (sev_name CRITICAL) text
  ∧ determine_severity text = None.
Proof.
  simpl. split; [|split; [|split]].
  - apply mentions_contains. by vm_compute.
  - intros s. rewrite mentions_contains. destruct s; by vm_compute.
  - apply mentions_contains. by vm_compute.
  - by vm_compute.
Qed.

(** C5, amended. Whenever the text has the marker ['RISK ASSESSMENT:'] (in
    any case), only the labelled forms ['RISK ASSESSMENT: <LEVEL>'] count:
    the classifier returns level [s] exactly when the labelled form of [s]
    occurs and no labelled form of a more severe level does, and it returns
    [None] when no labelled form of a known level occurs, whatever level
    keywords the text has elsewhere. *)
Theorem marker_excludes_keyword_search (text : string) :
  mentions marker text →
  (∀ s, determine_severity text = Some s ↔
        mentions (labelled s) text
        ∧ ∀ s', sev_rank s < sev_rank s' → ¬ mentions (labelled s') text)
  ∧ ((∀ s, ¬ mentions (labelled s) text) → determine_severity text = None).
Proof.
  intros Hmarker. rewrite determine_severity_unfold.
  destruct (all_space text) eqn:Hb.
  { by apply blank_mentions_no_marker in Hmarker. }
  apply mentions_contains in Hmarker as ->. split.
  - intros s. rewrite first_found_some, <- mentions_contains.
    split; intros [Hs Hmax]; (split; [done|]); intros s' Hlt.
    + rewrite mentions_contains, (Hmax s' Hlt). done.
    + specialize (Hmax s' Hlt). rewrite mentions_contains in Hmax.
      by destruct (contains (labelled s') (upper text)).
  - intros H. apply first_found_none. intros s. specialize (H s).
    rewrite mentions_contains in H.
    by destruct (contains (labelled s) (upper text)).
Qed.

(** A text whose marker carries no known level, and a labelled one. *)
Lemma marker_excludes_keyword_search_witness :
  determine_severity "RISK ASSESSMENT: UNKNOWN. Critical failure of the sensor" = None
  ∧ (determine_severity "Risk Assessment: High (battery low)" = Some HIGH ↔
     mentions (labelled HIGH) "Risk Assessment: High (battery low)"
     ∧ ∀ s', sev_rank HIGH < sev_rank s' →
             ¬ mentions (labelled s') "Risk Assessment: High (battery low)").
Proof.
  split.
  - refine (proj2 (marker_excludes_keyword_search
              "RISK ASSESSMENT: UNKNOWN. Critical failure of the sensor" _) _).
    + apply mentions_contains. by vm_compute.
    + intros s. rewrite mentions_contains. destruct s; by vm_compute.
  - refine (proj1 (marker_excludes_keyword_search
              "Risk Assessment: High (battery low)" _) HIGH).
    apply mentions_contains. by vm_compute.
Defined.

End ClassifierFacts.

(** ** The cost tracker *)

Module CostFacts.
Import PyStr PyStrFacts PyNum Cost.

Lemma pricing_lookup (model_name : string) :
  default flash_pricing (GEMINI_PRICING !! pricing_key_of model_name) = tier_of model_name.
Proof.
  unfold pricing_key_of, tier_of.
  destruct (contains "pro" (lower model_name)); [reflexivity|].
  destruct (contains "flash" (lower model_name)); reflexivity.
Qed.

Lemma calculate_cost_unfold (model_name : string) (i o : Z) :
  calculate_cost model_name i o =
    in_k ← int_truediv i 1000;
    out_k ← int_truediv o 1000;
    let tier := tier_of model_name in
    let input_cost := (in_k * input_tokens_per_1k tier)%float in
    let output_cost := (out_k * output_tokens_per_1k tier)%float in
    Some {| model_used := pricing_key_of model_name;
            input_tokens := i;
            output_tokens := o;
            total_tokens := i + o;
            input_cost_usd := py_round input_cost 6;
            output_cost_usd := py_round output_cost 6;
            total_cost_usd := py_round (input_cost + output_cost) 6;
            pricing_rate := tier |}.
Proof.
  unfold calculate_cost.
  change (GEMINI_PRICING !! "gemini-1.5-flash") with (Some flash_pricing).
  simpl. rewrite pricing_lookup. reflexivity.
Qed.

(** A model name resolves to the pro tier exactly when "pro" occurs in it,
    in any case. *)
Lemma pro_tier_mentions (model_name : string) :
  contains "pro" (lower model_name) = true ↔ mentions "PRO" model_name.
Proof. symmetry. apply (mentions_contains_lower "pro"). Qed.

(** C8. Whenever [calculate_cost] returns, the rates are those of the tier
    the model name resolves to: the pro tier when "pro" occurs in the name
    (in any case), and the flash tier otherwise, the default. The input
    cost, the output cost and the total cost it reports are
    [input_tokens / 1000 * input rate], [output_tokens / 1000 * output rate]
    and their sum, each rounded to 6 decimals. For "gemini-1.5-flash" with
    1000 input and 1000 output tokens it returns a total cost of 0.000375. *)
Theorem calculate_cost_rounded_terms (model_name : string) (i o : Z) (info : CostInfo) :
  calculate_cost model_name i o = Some info →
  (mentions "PRO" model_name →
   model_used info = "gemini-1.5-pro" ∧ pricing_rate info = pro_pricing)
  ∧ (¬ mentions "PRO" model_name →
     model_used info = "gemini-1.5-flash" ∧ pricing_rate info = flash_pricing)
  ∧ (∃ in_k out_k,
       int_truediv i 1000 = Some in_k ∧ int_truediv o 1000 = Some out_k
       ∧ input_cost_usd info
         = py_round (in_k * input_tokens_per_1k (pricing_rate info)) 6
       ∧ output_cost_usd info
         = py_round (out_k * output_tokens_per_1k (pricing_rate info)) 6
       ∧ total_cost_usd info
         = py_round (in_k * input_tokens_per_1k (pricing_rate info)
                     + out_k * output_tokens_per_1k (pricing_rate info)) 6)
  ∧ (total_cost_usd <$> calculate_cost "gemini-1.5-flash" 1000 1000
     = Some 0.000375%float).
Proof.
  intros H. rewrite calculate_cost_unfold in H.
  destruct (int_truediv i 1000) as [in_k|]; [|done].
  destruct (int_truediv o 1000) as [out_k|]; [|done].
  simpl in H. injection H as <-. cbn [model_used pricing_rate input_cost_usd
    output_cost_usd total_cost_usd].
  unfold tier_of, pricing_key_of.
  split; [|split; [|split; [by exists in_k, out_k | by vm_compute]]].
  - intros Hpro. apply pro_tier_mentions in Hpro. by rewrite Hpro.
  - intros Hpro. rewrite <- pro_tier_mentions in Hpro.
    destruct (contains "pro" (lower model_name)); [done|].
    by destruct (contains "flash" (lower model_name)).
Qed.

(** The pro tier, 2000 input and 500 output tokens: 0.0025 + 0.0025. *)
Lemma calculate_cost_rounded_terms_witness :
  ∃ info, calculate_cost "Gemini-1.5-Pro" 2000 500 = Some info
          ∧ total_cost_usd info = 0.005%float
          ∧ pricing_rate info = pro_pricing.
Proof.
  destruct (calculate_cost "Gemini-1.5-Pro" 2000 500) as [info|] eqn:E;
    [|by vm_compute in E].
  exists info.
  destruct (calculate_cost_rounded_terms "Gemini-1.5-Pro" 2000 500 info E)
    as (Hpro & _ & (in_k & out_k & Hi & Ho & _ & _ & Htotal) & _).
  destruct Hpro as [_ Hrate]; [apply pro_tier_mentions; by vm_compute|].
  vm_compute in Hi. vm_compute in Ho.
  injection Hi as <-. injection Ho as <-.
  split; [done|]. split; [|exact Hrate].
  rewrite Htotal, Hrate. by vm_compute.
Defined.

(** The total is the rounded sum of the unrounded terms, which need not be
    the sum of the rounded terms: 7 input and 2 output tokens on the flash
    tier. *)
Example total_rounds_the_sum :
  (λ info, (input_cost_usd info, output_cost_usd info, total_cost_usd info))
    <$> calculate_cost "gemini-1.5-flash" 7 2
  = Some (0.000001, 0.000001, 0.000001)%float.
Proof. by vm_compute. Qed.

(** C9, as stated, fails: on a fresh tracker the summary has no token
    totals and no first or last timestamp. *)
Lemma empty_summary_lacks_fields :
  let summary := get_session_summary (new_tracker "log_analysis_agent") in
  dict_get "total_input_tokens" summary = None
  ∧ dict_get "total_output_tokens" summary = None
  ∧ dict_get "session_start" summary = None
  ∧ dict_get "session_end" summary = None.
Proof. by vm_compute. Qed.

(** C9, amended. When the ledger has no entries the summary is the request
    count 0, the total cost 0.0 and the average cost per request 0.0, and it
    has no other field. *)
Theorem empty_summary_three_fields (tr : CostTracker) :
  session_costs tr = [] →
  get_session_summary tr
  = [("total_requests", PyInt 0); ("total_cost_usd", PyFloat 0);
     ("average_cost_per_request", PyFloat 0)]
  ∧ ∀ key, key ∉ ["total_requests"; "total_cost_usd"; "average_cost_per_request"] →
           dict_get key (get_session_summary tr) = None.
Proof.
  intros Hempty. unfold get_session_summary. rewrite Hempty.
  split; [reflexivity|]. intros key Hkey. simpl.
  repeat case_decide; try reflexivity; subst key; exfalso; apply Hkey; set_solver.
Qed.

Lemma empty_summary_three_fields_witness :
  get_session_summary (new_tracker "diagnosis_agent")
  = [("total_requests", PyInt 0); ("total_cost_usd", PyFloat 0);
     ("average_cost_per_request", PyFloat 0)].
Proof.
  exact (proj1 (empty_summary_three_fields (new_tracker "diagnosis_agent") eq_refl)).
Defined.

(** With entries in the ledger the summary has all nine fields. *)
Lemma summary_fields_nonempty (tr : CostTracker) :
  session_costs tr ≠ [] →
  map fst (get_session_summary tr)
  = ["agent_name"; "total_requests"; "total_input_tokens"; "total_output_tokens";
     "total_tokens"; "total_cost_usd"; "average_cost_per_request"; "session_start";
     "session_end"].
Proof. unfold get_session_summary. by destruct (session_costs tr). Qed.

(** [log_session_summary] reads [total_tokens]: on an empty ledger it
    raises, with entries it does not. *)
Lemma log_session_summary_empty (tr : CostTracker) :
  session_costs tr = [] → log_session_summary tr = None.
Proof. intros H. unfold log_session_summary, get_session_summary. by rewrite H. Qed.

Lemma dict_get_in (key : string) (d : Dict) :
  key ∈ map fst d → is_Some (dict_get key d).
Proof.
  induction d as [|[k v] d IH]; simpl; intros Hin.
  - by apply elem_of_nil in Hin.
  - case_decide as Hk; [eauto|]. apply IH.
    apply elem_of_cons in Hin as [Heq|Hin]; [by symmetry in Heq | exact Hin].
Qed.

Lemma log_session_summary_nonempty (tr : CostTracker) :
  session_costs tr ≠ [] → is_Some (log_session_summary tr).
Proof.
  intros H. unfold log_session_summary.
  pose proof (summary_fields_nonempty tr H) as Hk.
  destruct (dict_get_in "total_requests" (get_session_summary tr)) as [v1 ->];
    [rewrite Hk; set_solver|].
  destruct (dict_get_in "total_cost_usd" (get_session_summary tr)) as [v2 ->];
    [rewrite Hk; set_solver|].
  destruct (dict_get_in "average_cost_per_request" (get_session_summary tr)) as [v3 ->];
    [rewrite Hk; set_solver|].
  destruct (dict_get_in "total_tokens" (get_session_summary tr)) as [v4 ->];
    [rewrite Hk; set_solver|].
  simpl. eauto.
Qed.

End CostFacts.

(** ** The streaming endpoint *)

Module Stage1Facts.
Import PyStr PyStrFacts PyNum Classifier Cost CostFacts Stage1 Stage1Spec Samples.

(** *** The loops as a fold over the multiplexed records *)

Section Loops.
Context (world : World).

(** One pass of the loop: the records it processes, and how it ends. *)
Lemma for_readers_reads readers : ∀ i st,
  (for_readers world readers i st).1 = foldl (step world) st (pass_reads readers).1
  ∧ match (pass_reads readers).2 with
    | Some error => (for_readers world readers i st).2 = inl error
    | None => ∃ readers' to_remove,
                (for_readers world readers i st).2 = inr (readers', to_remove)
    end.
Proof.
  induction readers as [|[[[|row rows'] [|error]] source_path] rest IH]; intros i st;
    cbn [for_readers pass_reads fst snd].
  - split; [reflexivity|]. by eexists _, _.
  - destruct (IH (S i) st) as [H1 H2].
    destruct (for_readers world rest (S i) st) as [st' [error|[readers' to_remove]]];
      cbn [fst snd] in *; (split; [exact H1|]).
    + destruct (pass_reads rest).2; [exact H2|]. by destruct H2 as (? & ? & ?).
    + destruct (pass_reads rest).2; [done|]. by eexists _, _.
  - done.
  - set (st2 := process_row _ _ _ _). destruct (IH (S i) st2) as [H1 H2].
    destruct (for_readers world rest (S i) st2) as [st' [error|[readers' to_remove]]];
      cbn [fst snd] in *; (split; [exact H1|]).
    + destruct (pass_reads rest).2; [exact H2|]. by destruct H2 as (? & ? & ?).
    + destruct (pass_reads rest).2; [done|]. by eexists _, _.
  - set (st2 := process_row _ _ _ _). destruct (IH (S i) st2) as [H1 H2].
    destruct (for_readers world rest (S i) st2) as [st' [error'|[readers' to_remove]]];
      cbn [fst snd] in *; (split; [exact H1|]).
    + destruct (pass_reads rest).2; [exact H2|]. by destruct H2 as (? & ? & ?).
    + destruct (pass_reads rest).2; [done|]. by eexists _, _.
Qed.

(** The loop, unfolded once. *)
Lemma while_readers_unfold readers st :
  readers ≠ [] →
  while_readers world readers st
  = match for_readers world readers 0 st with
    | (st', inl error) => (st', Some error)
    | (st', inr (readers', to_remove)) =>
        while_readers world (pop_all readers' to_remove) st'
    end.
Proof.
  intros Hne. funelim (while_readers world readers st); [done| |];
    match goal with Hpass : for_readers _ _ _ _ = _ |- _ => by rewrite Hpass end.
Qed.

Lemma while_readers_pass readers st :
  readers ≠ [] →
  while_readers world readers st
  = match (pass_reads readers).2 with
    | Some error => (foldl (step world) st (pass_reads readers).1, Some error)
    | None => while_readers world (next_readers readers)
                (foldl (step world) st (pass_reads readers).1)
    end.
Proof.
  intros Hne. rewrite while_readers_unfold by done.
  destruct (for_readers_reads readers 0 st) as [H1 H2].
  destruct (for_readers world readers 0 st) as [st' [error|[readers' to_remove]]] eqn:E;
    cbn [fst snd] in *; subst st'.
  - destruct (pass_reads readers).2; [by injection H2 as ->|].
    by destruct H2 as (? & ? & ?).
  - destruct (pass_reads readers).2; [done|].
    pose proof (pop_all_for_readers world readers [] 0 st _ readers' to_remove
                  eq_refl E) as Hpop.
    cbn [app] in Hpop. by rewrite Hpop.
Qed.

Lemma work_left_nil readers : work_left readers = 0 → readers = [].
Proof.
  destruct readers as [|[[rows read_end] src] rs]; [done|]. unfold work_left. simpl. lia.
Qed.

Lemma while_readers_reads : ∀ fuel readers st,
  work_left readers ≤ fuel →
  while_readers world readers st
  = (foldl (step world) st (reads fuel readers).1, (reads fuel readers).2).
Proof.
  induction fuel as [|fuel IH]; intros readers st Hfuel.
  - rewrite (work_left_nil readers) by lia. by rewrite while_readers_equation_1.
  - destruct readers as [|r rs]; [by rewrite while_readers_equation_1|].
    rewrite while_readers_pass by done. cbn [reads].
    destruct (pass_reads (r :: rs)).2; [done|].
    cbn [fst snd]. rewrite foldl_app. apply IH.
    pose proof (work_left_next (r :: rs)). simpl length in *. lia.
Qed.

(** The two nested loops process the records in the order of [reading],
    and are left by the exception of a read that raises one. *)
Lemma while_readers_fold readers st :
  while_readers world readers st
  = (foldl (step world) st (reading readers).1, (reading readers).2).
Proof. by apply while_readers_reads. Qed.

Lemma heads_next_records readers :
  heads readers ++ all_records (next_readers readers) ≡ₚ all_records readers.
Proof.
  unfold all_records.
  induction readers as [|[[[|row rows'] read_end] source_path] rest IH]; simpl.
  - done.
  - exact IH.
  - constructor. rewrite <- IH.
    rewrite !(assoc_L (++)). f_equiv. apply (comm (++)).
Qed.

Lemma passes_records : ∀ fuel readers,
  work_left readers ≤ fuel → passes fuel readers ≡ₚ all_records readers.
Proof.
  induction fuel as [|fuel IH]; intros readers Hfuel.
  - by rewrite (work_left_nil readers) by lia.
  - destruct readers as [|r rs]; [done|]. cbn [passes].
    rewrite IH, heads_next_records; [done|].
    pose proof (work_left_next (r :: rs)). simpl length in *. lia.
Qed.

(** Round-robin order is an arrangement of all the records. *)
Lemma round_robin_records readers : round_robin readers ≡ₚ all_records readers.
Proof. by apply passes_records. Qed.

(** *** The records read when a read can raise *)

Lemma pass_reads_prefix readers : (pass_reads readers).1 `prefix_of` heads readers.
Proof.
  induction readers as [|[[[|row rows'] [|error]] source_path] rest IH];
    cbn [pass_reads heads fst]; try done.
  - apply prefix_nil.
  - by apply prefix_cons.
  - by apply prefix_cons.
Qed.

Lemma pass_reads_heads readers :
  (pass_reads readers).2 = None → (pass_reads readers).1 = heads readers.
Proof.
  induction readers as [|[[[|row rows'] [|error]] source_path] rest IH];
    cbn [pass_reads heads fst snd]; try done.
  - intros H. by rewrite IH.
  - intros H. by rewrite IH.
Qed.

Lemma pass_reads_readable readers : readable readers → (pass_reads readers).2 = None.
Proof.
  induction 1 as [|[[[|row rows'] read_end] source_path] rest Hend _ IH];
    cbn [pass_reads snd] in *; [done| |done].
  cbn in Hend. by subst read_end.
Qed.

Lemma pass_reads_fault readers error :
  (pass_reads readers).2 = Some error → read_fails error readers.
Proof.
  unfold read_fails.
  induction readers as [|[[[|row rows'] [|error']] source_path] rest IH];
    cbn [pass_reads snd]; [done| | |by right; auto..].
  - by right; auto.
  - intros [= ->]. by left.
Qed.

Lemma readable_next readers : readable readers → readable (next_readers readers).
Proof.
  induction 1 as [|[[[|row rows'] read_end] source_path] rest Hend _ IH];
    cbn [next_readers]; [constructor|done|by constructor].
Qed.

Lemma next_readers_readable readers :
  (pass_reads readers).2 = None → readable (next_readers readers) → readable readers.
Proof.
  unfold readable.
  induction readers as [|[[[|row rows'] [|error]] source_path] rest IH];
    cbn [pass_reads next_readers snd]; [done| |done| |].
  - intros Hpass Hnext. constructor; [done | by apply IH].
  - intros Hpass Hnext. apply Forall_cons in Hnext as [Hend Hnext].
    constructor; [done | by apply IH].
  - intros Hpass Hnext. apply Forall_cons in Hnext as [Hend Hnext].
    constructor; [done | by apply IH].
Qed.

Lemma read_fails_next readers error :
  read_fails error (next_readers readers) → read_fails error readers.
Proof.
  unfold read_fails.
  induction readers as [|[[[|row rows'] read_end] source_path] rest IH];
    cbn [next_readers]; [done|by right; auto|].
  intros H. apply Exists_cons in H as [H|H]; [by left | by right; auto].
Qed.

Lemma reads_prefix : ∀ fuel readers, (reads fuel readers).1 `prefix_of` passes fuel readers.
Proof.
  induction fuel as [|fuel IH]; intros readers; [done|].
  destruct readers as [|r rs]; [done|]. cbn [reads passes].
  destruct (pass_reads (r :: rs)).2 eqn:E; cbn [fst].
  - apply prefix_app_r, pass_reads_prefix.
  - rewrite (pass_reads_heads _ E). apply prefix_app, IH.
Qed.

Lemma reads_readable : ∀ fuel readers,
  readable readers → reads fuel readers = (passes fuel readers, None).
Proof.
  induction fuel as [|fuel IH]; intros readers Hreadable; [done|].
  destruct readers as [|r rs]; [done|]. cbn [reads passes].
  rewrite (pass_reads_readable _ Hreadable).
  rewrite (pass_reads_heads _ (pass_reads_readable _ Hreadable)).
  by rewrite (IH _ (readable_next _ Hreadable)).
Qed.

Lemma reads_fault : ∀ fuel readers error,
  (reads fuel readers).2 = Some error → read_fails error readers.
Proof.
  induction fuel as [|fuel IH]; intros readers error; [done|].
  destruct readers as [|r rs]; [done|]. cbn [reads].
  destruct (pass_reads (r :: rs)).2 eqn:E; cbn [snd].
  - intros [= ->]. by apply pass_reads_fault.
  - intros H. by apply read_fails_next, IH.
Qed.

Lemma reads_complete : ∀ fuel readers,
  work_left readers ≤ fuel → (reads fuel readers).2 = None → readable readers.
Proof.
  induction fuel as [|fuel IH]; intros readers Hfuel.
  - rewrite (work_left_nil readers) by lia. constructor.
  - destruct readers as [|r rs]; [constructor|]. cbn [reads].
    destruct (pass_reads (r :: rs)).2 eqn:E; cbn [snd]; [done|].
    intros H. apply next_readers_readable; [exact E|]. apply IH; [|exact H].
    pose proof (work_left_next (r :: rs)). simpl length in *. lia.
Qed.

(** The records read are the first records of round-robin order. *)
Lemma reading_prefix readers : (reading readers).1 `prefix_of` round_robin readers.
Proof. apply reads_prefix. Qed.

(** Sources that can be read to their end are read in round-robin order,
    to their end. *)
Lemma reading_readable readers :
  readable readers → reading readers = (round_robin readers, None).
Proof. apply reads_readable. Qed.

(** The reading ends with an exception exactly when some source cannot be
    read to its end, and the exception is that of such a source. *)
Lemma reading_fault readers error :
  (reading readers).2 = Some error → read_fails error readers.
Proof. apply reads_fault. Qed.

Lemma reading_complete readers : (reading readers).2 = None → readable readers.
Proof. by apply reads_complete. Qed.

Lemma reading_unreadable readers :
  ¬ readable readers → ∃ error, (reading readers).2 = Some error ∧ read_fails error readers.
Proof.
  intros Hnot. destruct (reading readers).2 as [error|] eqn:E.
  - exists error. split; [reflexivity | by apply reading_fault].
  - destruct Hnot. by apply reading_complete.
Qed.

(** *** What one record does to the state *)

Lemma events_of_app (a b : list Chunk) : events_of (a ++ b) = events_of a ++ events_of b.
Proof. apply omap_app. Qed.

Lemma yield_event_events (e : StreamEvent) (st : GenState) :
  events_of (yielded (yield_event e st)) = events_of (yielded st) ++ [e].
Proof.
  unfold yield_event. cbn [yielded]. rewrite !events_of_app.
  by destruct (first st).
Qed.

(** The effect of [process_row], field by field, in terms of the event of
    the record. *)
Lemma process_row_effect (st : GenState) (row : Row) (source_path : string) (turn : Turn) :
  let st' := process_row st row source_path turn in
  let e := event_for turn (row_count st) source_path row in
  row_count st' = row_count st
  ∧ records_read st' = records_read st
  ∧ events_of (yielded st') = events_of (yielded st) ++ [e]
  ∧ severity_counts st'
    = match e with
      | RowResult _ _ _ _ severity => count_severity severity (severity_counts st)
      | RowError _ _ _ _ => severity_counts st
      end
  ∧ gate_log st'
    = gate_log st ++ match e with
                     | RowResult _ _ device_id text severity =>
                         forwarding_gate device_id text severity
                     | RowError _ _ _ _ => []
                     end
  ∧ length (session_costs (Stage1.cost_tracker st'))
    = length (session_costs (Stage1.cost_tracker st)) + (if is_success e then 1 else 0).
Proof.
  unfold process_row, event_for, log_request_cost, row_failed.
  destruct (turn_run turn) as [msg|events].
  - rewrite yield_event_events. cbn. rewrite app_nil_r. repeat split; lia.
  - destruct (calculate_cost _ _ _) as [info|]; cbn [mbind option_bind].
    + rewrite yield_event_events. cbn. rewrite length_app. done.
    + rewrite yield_event_events. cbn. rewrite app_nil_r. repeat split; lia.
Qed.

Lemma step_effect (st : GenState) (rec : Row * string) :
  let st' := step world st rec in
  let n := S (row_count st) in
  let e := event_for (world n) n rec.2 rec.1 in
  row_count st' = n
  ∧ records_read st' = records_read st ++ [(n, rec.2, rec.1)]
  ∧ events_of (yielded st') = events_of (yielded st) ++ [e]
  ∧ severity_counts st'
    = match e with
      | RowResult _ _ _ _ severity => count_severity severity (severity_counts st)
      | RowError _ _ _ _ => severity_counts st
      end
  ∧ length (session_costs (Stage1.cost_tracker st'))
    = length (session_costs (Stage1.cost_tracker st)) + (if is_success e then 1 else 0).
Proof.
  unfold step.
  destruct (process_row_effect (read_row st rec.1 rec.2) rec.1 rec.2
              (world (row_count (read_row st rec.1 rec.2))))
    as (H1 & H2 & H3 & H4 & _ & H5).
  by cbn [read_row row_count records_read yielded severity_counts Stage1.cost_tracker] in *.
Qed.

(** A property every record preserves holds after the loops. *)
Lemma foldl_step_invariant (P : GenState → Prop) :
  (∀ st rec, P st → P (step world st rec)) →
  ∀ records st, P st → P (foldl (step world) st records).
Proof.
  intros Hstep records. induction records as [|rec records IH]; intros st HP; [done|].
  simpl. apply IH, Hstep, HP.
Qed.

(** *** Invariants of the stream *)

Lemma numbered_step st rec : numbered st → numbered (step world st rec).
Proof.
  unfold numbered. intros H.
  destruct (step_effect st rec) as (-> & -> & _).
  rewrite map_app, H, seq_S. reflexivity.
Qed.

Lemma one_event_each_step st rec :
  one_event_each world st → one_event_each world (step world st rec).
Proof.
  unfold one_event_each. intros H.
  destruct (step_effect st rec) as (_ & -> & -> & _).
  by rewrite map_app, H.
Qed.

Lemma sev_name_inj (s s' : Severity) : sev_name s = sev_name s' → s = s'.
Proof. by destruct s, s'. Qed.

Lemma successes_with_snoc (sev : option Severity) (events : list StreamEvent) e :
  successes_with sev (events ++ [e])
  = successes_with sev events + (if classified_as sev e then 1 else 0).
Proof.
  unfold successes_with. rewrite List.filter_app, length_app. simpl.
  by destruct (classified_as sev e).
Qed.

Lemma counts_classified_step st rec :
  counts_classified st → counts_classified (step world st rec).
Proof.
  unfold counts_classified. intros H s.
  destruct (step_effect st rec) as (_ & _ & -> & -> & _).
  rewrite successes_with_snoc.
  destruct (event_for _ _ _ _) as [n src dev text [s0|]|n src dev msg]; simpl.
  - rewrite (H s0). destruct (decide (s0 = s)) as [->|Hne].
    + rewrite lookup_insert_eq, bool_decide_eq_true_2 by done. f_equal. lia.
    + rewrite lookup_insert_ne by (intros Heq; by apply sev_name_inj in Heq).
      rewrite bool_decide_eq_false_2 by congruence. rewrite H. f_equal. lia.
  - rewrite H. f_equal. lia.
  - rewrite H. f_equal. lia.
Qed.

Lemma records_of_fold : ∀ records st,
  map (λ r : nat * string * Row, (r.2, r.1.2)) (records_read (foldl (step world) st records))
  = map (λ r : nat * string * Row, (r.2, r.1.2)) (records_read st) ++ records.
Proof.
  induction records as [|[row src] records IH]; intros st; simpl.
  - by rewrite app_nil_r.
  - rewrite IH. destruct (step_effect st (row, src)) as (_ & -> & _).
    rewrite map_app, <- (assoc_L (++)). reflexivity.
Qed.

End Loops.

Lemma initial_numbered tracker : numbered (initial_state tracker).
Proof. reflexivity. Qed.

Lemma initial_one_event_each world tracker : one_event_each world (initial_state tracker).
Proof. reflexivity. Qed.

Lemma initial_counts_classified tracker : counts_classified (initial_state tracker).
Proof. by intros []. Qed.

(** The state in which the rows loop of [row_generator] ends, and how the
    generator ends after it. *)
Lemma row_generator_state fs world tracker sources readers :
  open_all fs sources = inr readers →
  let st := foldl (step world) (initial_state tracker) (reading readers).1 in
  match (reading readers).2 with
  | Some error => row_generator fs world tracker sources = (st, Aborted error)
  | None =>
      (row_generator fs world tracker sources = (st, Aborted "'total_tokens'")
       ∧ session_costs (cost_tracker st) = [])
      ∨ (row_generator fs world tracker sources = (yield_summary st, Completed)
         ∧ session_costs (cost_tracker st) ≠ [])
  end.
Proof.
  intros Hopen. cbn zeta.
  unfold row_generator. rewrite Hopen, while_readers_fold.
  destruct (reading readers).2 as [error|]; [reflexivity|].
  set (st := foldl _ _ _).
  destruct (session_costs (cost_tracker st)) as [|entry entries] eqn:E.
  - left. by rewrite log_session_summary_empty.
  - right. destruct (log_session_summary_nonempty (cost_tracker st)) as [v ->];
      [by rewrite E|done].
Qed.

(** The records and the events of the final state are those of the state
    after the loops. *)
Lemma row_generator_loops fs world tracker sources readers :
  open_all fs sources = inr readers →
  let st := foldl (step world) (initial_state tracker) (reading readers).1 in
  let run := row_generator fs world tracker sources in
  records_read run.1 = records_read st
  ∧ events_of (yielded run.1) = events_of (yielded st).
Proof.
  intros Hopen. cbn zeta.
  pose proof (row_generator_state fs world tracker sources readers Hopen) as H.
  cbn zeta in H. destruct (reading readers).2 as [error|].
  - by rewrite H.
  - destruct H as [[-> _]|[-> _]]; [done|].
    unfold yield_summary. cbn [fst records_read yielded].
    by rewrite events_of_app, app_nil_r.
Qed.

Lemma event_for_key turn n source_path row :
  event_row (event_for turn n source_path row) = n
  ∧ event_source (event_for turn n source_path row) = source_path.
Proof.
  unfold event_for. destruct (turn_run turn); [done|].
  by destruct (calculate_cost _ _ _).
Qed.

Lemma records_read_fold world : ∀ records st,
  records_read (foldl (step world) st records)
  = records_read st
    ++ imap (λ k (rec : Row * string), (row_count st + S k, rec.2, rec.1)) records.
Proof.
  induction records as [|rec records IH]; intros st; simpl.
  - by rewrite app_nil_r.
  - rewrite IH. destruct (step_effect world st rec) as (-> & -> & _).
    rewrite <- (assoc_L (++)). f_equal. cbn [imap app].
    replace (row_count st + 1) with (S (row_count st)) by lia. f_equal.
    apply imap_ext. intros k rec' _. cbn. do 2 f_equal. lia.
Qed.

Lemma ledger_grown_step world tracker st rec :
  ledger_grown tracker st → ledger_grown tracker (step world st rec).
Proof.
  unfold ledger_grown. intros H.
  destruct (step_effect world st rec) as (_ & _ & -> & _ & ->).
  rewrite List.filter_app, length_app, H. simpl.
  destruct (is_success _); simpl; lia.
Qed.

Lemma initial_ledger_grown tracker : ledger_grown tracker (initial_state tracker).
Proof. unfold ledger_grown. simpl. lia. Qed.

(** What holds of the final state of [row_generator] when the sources
    open: the records read, in the order of [reading] and numbered from 1,
    and one event for each. *)
Lemma generator_records_events fs world tracker sources readers :
  open_all fs sources = inr readers →
  let st := (row_generator fs world tracker sources).1 in
  records_read st
  = imap (λ k (rec : Row * string), (S k, rec.2, rec.1)) (reading readers).1
  ∧ map (λ r : nat * string * Row, r.1.1) (records_read st)
    = seq 1 (length (reading readers).1)
  ∧ one_event_each world st.
Proof.
  intros Hopen.
  destruct (row_generator_loops fs world tracker sources readers Hopen) as [Hrec Hev].
  cbn zeta in *. unfold one_event_each. rewrite Hrec, Hev.
  set (records := (reading readers).1).
  pose proof (records_read_fold world records (initial_state tracker)) as Hrr.
  pose proof (foldl_step_invariant world numbered (numbered_step world)
                records _ (initial_numbered tracker)) as Hnum.
  pose proof (foldl_step_invariant world (one_event_each world) (one_event_each_step world)
                records _ (initial_one_event_each world tracker)) as Hone.
  cbn in Hrr.
  split; [exact Hrr|]. split; [|exact Hone].
  unfold numbered in Hnum. rewrite Hnum. f_equal.
  apply (f_equal length) in Hnum.
  by rewrite length_map, length_seq, Hrr, length_imap in Hnum.
Qed.

(** The records of a numbered list. *)
Lemma numbered_records (records : list (Row * string)) :
  map (λ r : nat * string * Row, (r.2, r.1.2))
      (imap (λ k (rec : Row * string), (S k, rec.2, rec.1)) records)
  = records.
Proof.
  assert (∀ k, map (λ r : nat * string * Row, (r.2, r.1.2))
                 (imap (λ i (rec : Row * string), (k + S i, rec.2, rec.1)) records)
               = records) as H.
  { induction records as [|[row src] l IH]; intros k; [done|]. cbn [imap map]. f_equal.
    rewrite <- (IH (S k)) at 2. f_equal. apply imap_ext. intros i rec _. simpl.
    do 2 f_equal. lia. }
  by rewrite <- (H 0) at 2.
Qed.

(** When every read succeeds, the stream completes exactly when the ledger
    is not empty at its end: when it had entries before the request, or a
    record succeeded. *)
Lemma generator_completes fs world tracker sources readers :
  open_all fs sources = inr readers →
  (reading readers).2 = None →
  let run := row_generator fs world tracker sources in
  (run.2 = Completed ∨ run.2 = Aborted "'total_tokens'")
  ∧ (run.2 = Completed
     ↔ session_costs tracker ≠ []
       ∨ ∃ e, e ∈ events_of (yielded run.1) ∧ is_success e).
Proof.
  intros Hopen Hread. cbn zeta.
  assert (∀ events : list StreamEvent,
            0 < length (List.filter is_success events)
            ↔ ∃ e, e ∈ events ∧ is_success e) as Hsome.
  { intros events. split.
    - intros Hlen. destruct (List.filter is_success events) as [|e l] eqn:E;
        [cbn in Hlen; lia|].
      assert (e ∈ List.filter is_success events) as Hin by (rewrite E; left).
      apply list_elem_of_In, List.filter_In in Hin as [Hin He].
      exists e. split; [by apply list_elem_of_In | by rewrite He].
    - intros (e & Hin & He).
      assert (e ∈ List.filter is_success events) as Hin'.
      { apply list_elem_of_In, List.filter_In. split; [by apply list_elem_of_In|].
        by destruct (is_success e). }
      destruct (List.filter is_success events); [by apply elem_of_nil in Hin'|].
      cbn. lia. }
  setoid_rewrite <- Hsome. clear Hsome.
  pose proof (foldl_step_invariant world (ledger_grown tracker) (ledger_grown_step world tracker)
                (reading readers).1 _ (initial_ledger_grown tracker)) as Hled.
  pose proof (row_generator_state fs world tracker sources readers Hopen) as H.
  cbn zeta in H. rewrite Hread in H.
  unfold ledger_grown in Hled.
  destruct H as [[-> Hempty]|[-> Hne]]; cbn [fst snd yield_summary yielded].
  - split; [by right|].
    rewrite Hempty in Hled. simpl in Hled. split; [done|].
    intros [H|H]; [|lia]. destruct (session_costs tracker); [done|simpl in Hled; lia].
  - split; [by left|].
    rewrite events_of_app, app_nil_r. split; [|done]. intros _.
    destruct (session_costs tracker) as [|e l]; [|by left]. right.
    destruct (session_costs (cost_tracker (foldl _ _ _))); [done|]. simpl in Hled. lia.
Qed.

(** A read that raises leaves the generator with its exception. *)
Lemma generator_read_fault fs world tracker sources readers error :
  open_all fs sources = inr readers →
  (reading readers).2 = Some error →
  (row_generator fs world tracker sources).2 = Aborted error.
Proof.
  intros Hopen Hread.
  pose proof (row_generator_state fs world tracker sources readers Hopen) as H.
  cbn zeta in H. rewrite Hread in H. by rewrite H.
Qed.

(** *** C2: one event for each record read *)

(** C2. When the sources open, the records are read in round-robin order
    until a read raises (to the end of every source when all of them can be
    read to their end, and then every record of every source is read once),
    they are numbered from 1, and the stream has exactly one event for each
    record read, in the order they are read: the event of the record alone,
    whatever happened to the records before it. A record whose agent turn
    raises gets the error event with the message of the exception, and the
    records read after it still get their events. A source that cannot be
    read to its end ends the stream with the exception of the read. When
    all sources are read to their end, the stream completes if and only if
    the tracker held an entry before the request or some record succeeded,
    and otherwise the generator is left by the KeyError of
    [log_session_summary]. So the failure of a record can end the stream:
    for the single source "devices.csv" with one record, on a tracker
    without entries, the record whose turn raises gets its error event and
    then the generator is left by that KeyError, without the closing
    section, whereas the stream of the same record with a turn that answers
    completes. *)
Theorem failing_record_ends_stream :
  (∀ (fs : FileSystem) (world : World) (tracker : CostTracker) (sources : list string)
     (readers : list Reader),
     open_all fs sources = inr readers →
     let run := row_generator fs world tracker sources in
     records_read run.1
     = imap (λ k (rec : Row * string), (S k, rec.2, rec.1)) (reading readers).1
     ∧ events_of (yielded run.1)
       = map (λ r : nat * string * Row, event_for (world r.1.1) r.1.1 r.1.2 r.2)
             (records_read run.1)
     ∧ (reading readers).1 `prefix_of` round_robin readers
     ∧ (readable readers →
        (reading readers).1 = round_robin readers
        ∧ map (λ r : nat * string * Row, (r.2, r.1.2)) (records_read run.1)
          ≡ₚ all_records readers
        ∧ (run.2 = Completed ∨ run.2 = Aborted "'total_tokens'")
        ∧ (run.2 = Completed
           ↔ session_costs tracker ≠ []
             ∨ ∃ e, e ∈ events_of (yielded run.1) ∧ is_success e))
     ∧ (¬ readable readers →
        ∃ error, run.2 = Aborted error ∧ read_fails error readers))
  ∧ (∀ turn n source_path row msg,
       turn_run turn = AgentRaises msg →
       event_for turn n source_path row = RowError n source_path (device_id_of row) msg)
  ∧ (∀ turn n source_path row events,
       turn_run turn = AgentEvents events →
       event_for turn n source_path row ≠ RowError n source_path (device_id_of row)
                                            "integer division result too large for a float" →
       is_success (event_for turn n source_path row) = true)
  ∧ (let failing := row_generator one_row (λ _, failure "model overloaded")
                      (new_tracker "log_analysis_agent") ["devices.csv"] in
     let answering := row_generator one_row (λ _, answer "RISK ASSESSMENT: LOW" 0)
                        (new_tracker "log_analysis_agent") ["devices.csv"] in
     yielded failing.1
     = [ChunkOpen; ChunkEvent (RowError 1 "devices.csv" (Some "D1") "model overloaded")]
     ∧ failing.2 = Aborted "'total_tokens'"
     ∧ events_of (yielded answering.1)
       = [RowResult 1 "devices.csv" (Some "D1") "RISK ASSESSMENT: LOW" (Some LOW)]
     ∧ answering.2 = Completed).
Proof.
  split; [|split; [|split; [|by vm_compute]]].
  - intros fs world tracker sources readers Hopen.
    destruct (generator_records_events fs world tracker sources readers Hopen)
      as (Hrec & _ & Hone).
    cbn zeta in *. split; [exact Hrec|]. split; [exact Hone|].
    split; [apply reading_prefix|]. split.
    + intros Hreadable. rewrite Hrec, numbered_records.
      pose proof (reading_readable _ Hreadable) as Hread. rewrite Hread. cbn [fst].
      split; [reflexivity|]. split; [apply round_robin_records|].
      apply (generator_completes fs world tracker sources readers Hopen).
      by rewrite Hread.
    + intros Hnot. destruct (reading_unreadable readers Hnot) as (error & Hread & Hfails).
      exists error. split; [|exact Hfails].
      by apply (generator_read_fault fs world tracker sources readers).
  - intros turn n src row msg H. unfold event_for. by rewrite H.
  - intros turn n src row events H. unfold event_for. rewrite H.
    by destruct (calculate_cost _ _ _).
Qed.

(** *** C6: round-robin order *)

(** C6. Two sources that open with 3 and with 5 records are read in the
    order source1[0], source2[0], source1[1], source2[1], source1[2],
    source2[2], source2[3], source2[4], numbered 1 to 8, and the events of
    the stream carry these numbers and sources in this order; so it is
    whatever the read after the last record of the second source does. *)
Theorem round_robin_three_and_five (fs : FileSystem) (world : World)
    (tracker : CostTracker) (s1 s2 : string) (a0 a1 a2 b0 b1 b2 b3 b4 : Row)
    (last_read : ReadEnd) :
  open_all fs [s1; s2]
  = inr [([a0; a1; a2], EndOfFile, s1); ([b0; b1; b2; b3; b4], last_read, s2)] →
  let st := (row_generator fs world tracker [s1; s2]).1 in
  records_read st
  = [(1, s1, a0); (2, s2, b0); (3, s1, a1); (4, s2, b1);
     (5, s1, a2); (6, s2, b2); (7, s2, b3); (8, s2, b4)]
  ∧ map (λ e, (event_row e, event_source e)) (events_of (yielded st))
    = [(1, s1); (2, s2); (3, s1); (4, s2); (5, s1); (6, s2); (7, s2); (8, s2)].
Proof.
  intros Hopen.
  destruct (generator_records_events fs world tracker [s1; s2] _ Hopen)
    as (Hrec & _ & Hone).
  cbn zeta in *. unfold one_event_each in Hone. rewrite Hone, Hrec. clear Hone Hrec.
  assert ((reading [([a0; a1; a2], EndOfFile, s1); ([b0; b1; b2; b3; b4], last_read, s2)]).1
          = [(a0, s1); (b0, s2); (a1, s1); (b1, s2); (a2, s1); (b2, s2); (b3, s2); (b4, s2)])
    as -> by (by destruct last_read).
  split; [reflexivity|].
  cbn [imap map fst snd compose].
  repeat match goal with
         | |- context [event_for ?t ?n ?s ?r] =>
             destruct (event_for_key t n s r) as [-> ->]
         end.
  reflexivity.
Qed.

Lemma round_robin_three_and_five_witness :
  map (λ e, (event_row e, event_source e))
      (events_of (yielded (row_generator devices_and_cameras
                             (λ _, answer "RISK ASSESSMENT: LOW" 0)
                             (new_tracker "log_analysis_agent")
                             ["iot.csv"; "cameras.csv"]).1))
  = [(1, "iot.csv"); (2, "cameras.csv"); (3, "iot.csv"); (4, "cameras.csv");
     (5, "iot.csv"); (6, "cameras.csv"); (7, "cameras.csv"); (8, "cameras.csv")].
Proof.
  exact (proj2 (round_robin_three_and_five devices_and_cameras
                  (λ _, answer "RISK ASSESSMENT: LOW" 0)
                  (new_tracker "log_analysis_agent") "iot.csv" "cameras.csv"
                  (plain [("Device_ID", "D1")]) (plain [("Device_ID", "D2")])
                  (plain [("Device_ID", "D3")])
                  (plain [("Model", "C1")]) (plain [("Model", "C2")])
                  (plain [("Model", "C3")]) (plain [("Model", "C4")])
                  (plain [("Model", "C5")]) EndOfFile eq_refl)).
Defined.

(** *** C10: the severity counts *)

Lemma successes_by_severity (events : list StreamEvent) :
  successes events
  = successes_with None events
    + sum_list (map (λ s, successes_with (Some s) events) [LOW; MEDIUM; HIGH; CRITICAL]).
Proof.
  unfold successes, successes_with.
  induction events as [|e events IH]; [reflexivity|].
  destruct e as [n src dev text [[]|]|n src dev msg]; simpl in *; lia.
Qed.

Lemma counts_classified_generator fs world tracker sources :
  counts_classified (row_generator fs world tracker sources).1.
Proof.
  unfold row_generator.
  destruct (open_all fs sources) as [msg|readers]; [apply initial_counts_classified|].
  rewrite while_readers_fold. set (st := foldl _ _ _).
  assert (counts_classified st) as Hst.
  { apply foldl_step_invariant; [apply counts_classified_step|].
    apply initial_counts_classified. }
  destruct (reading readers).2; [exact Hst|].
  destruct (log_session_summary _); [|exact Hst].
  intros s. cbn [fst yield_summary severity_counts yielded].
  rewrite events_of_app, app_nil_r. apply Hst.
Qed.

(** C10. In every stream each of the four severity counts is the number of
    success events classified with exactly that severity, so the four counts
    and the success events with a null severity add up to the number of
    success events; when the stream completes, its closing section carries
    these counts. A success event with a null severity is in the results and
    in no count: there is a completed stream with one success event whose
    four counts are all zero. *)
Theorem counts_omit_null_severity :
  (∀ (fs : FileSystem) (world : World) (tracker : CostTracker) (sources : list string),
     let run := row_generator fs world tracker sources in
     let events := events_of (yielded run.1) in
     (∀ s, severity_counts run.1 !! sev_name s = Some (successes_with (Some s) events))
     ∧ counted (severity_counts run.1) + successes_with None events = successes events
     ∧ (run.2 = Completed →
        last (yielded run.1)
        = Some (ChunkSummary (severity_counts run.1)
                  (get_session_summary (cost_tracker run.1)))))
  ∧ (let run := row_generator two_rows (λ _, answer "All readings nominal." 0)
                  (new_tracker "log_analysis_agent") ["devices.csv"] in
     let events := events_of (yielded run.1) in
     run.2 = Completed
     ∧ events = [RowResult 1 "devices.csv" (Some "D1") "All readings nominal." None;
                 RowResult 2 "devices.csv" (Some "D2") "All readings nominal." None]
     ∧ counted (severity_counts run.1) = 0
     ∧ successes events = 2).
Proof.
  split; [|by vm_compute].
  intros fs world tracker sources run events.
  pose proof (counts_classified_generator fs world tracker sources) as Hc.
  fold run in Hc. unfold counts_classified in Hc. fold events in Hc.
  split; [exact Hc|]. split.
  - rewrite successes_by_severity. unfold counted. cbn [map].
    rewrite !Hc. unfold default, id. simpl. lia.
  - subst run events. unfold row_generator.
    destruct (open_all fs sources) as [msg|readers]; [done|].
    destruct (while_readers world readers (initial_state tracker)) as [st [error|]]; [done|].
    destruct (log_session_summary _); [|done]. intros _.
    cbn [fst yield_summary yielded severity_counts cost_tracker].
    by rewrite last_snoc.
Qed.

(** *** C3: a source that cannot be opened *)

(** Whenever a declared source cannot be opened, the endpoint has already
    answered with the streaming response: the generator yields the opening
    chunk and then the exception of [open] leaves it. *)
Lemma unopened_source_stream (data : RequestData) (fs : FileSystem) (world : World)
    (tracker : CostTracker) (sources : list string) (msg : string) :
  normalize_sources data = Some sources →
  open_all fs sources = inl msg →
  stream_csv_endpoint (inr data) fs world tracker
  = StreamingResponse (initial_state tracker, Aborted msg).
Proof.
  intros Hsrc Hopen. unfold stream_csv_endpoint, row_generator.
  by rewrite Hsrc, Hopen.
Qed.

(** The sibling path: a request that declares no source is refused with an
    error document and status 400, and no stream. *)
Lemma no_source_declared (data : RequestData) (fs : FileSystem) (world : World)
    (tracker : CostTracker) :
  normalize_sources data = None →
  stream_csv_endpoint (inr data) fs world tracker
  = JSONResponse [("error", PyStr "csv_path or csv_paths is required")] 400.
Proof. intros H. unfold stream_csv_endpoint. by rewrite H. Qed.

(** C3 at its failing input: the request names the single source
    "missing.csv", which does not exist. The caller gets the streaming
    response, whose generator yields the opening chunk and is then left by
    the exception of [open]: no error document and no client-error status. *)
Theorem missing_source_starts_stream (world : World) (tracker : CostTracker) :
  let fs : FileSystem :=
    λ path, inl ("[Errno 2] No such file or directory: '" +:+ path +:+ "'") in
  stream_csv_endpoint (inr {| csv_paths := None; csv_path := Some "missing.csv" |})
    fs world tracker
  = StreamingResponse
      (initial_state tracker,
       Aborted "[Errno 2] No such file or directory: 'missing.csv'")
  ∧ yielded (initial_state tracker) = [ChunkOpen].
Proof. split; reflexivity. Qed.

(** *** C1: the forwarding gate *)

(** C1, as stated, fails. A record whose report is classified HIGH while
    the agent turn made no call to the next stage, and a record classified
    LOW while the turn made one: the gate of [row_generator] changes neither
    number. *)
Lemma severity_does_not_decide_calls :
  let row : Row := plain [("Device_ID", "D1"); ("CPU_Usage (%)", "97")] in
  let silent := answer "RISK ASSESSMENT: HIGH" 0 in
  let eager := answer "RISK ASSESSMENT: LOW" 1 in
  (event_for silent 1 "devices.csv" row
   = RowResult 1 "devices.csv" (Some "D1") "RISK ASSESSMENT: HIGH" (Some HIGH)
   ∧ forwarding_calls silent = 0)
  ∧ (event_for eager 1 "devices.csv" row
     = RowResult 1 "devices.csv" (Some "D1") "RISK ASSESSMENT: LOW" (Some LOW)
     ∧ forwarding_calls eager = 1).
Proof. by vm_compute. Qed.

(** The scan of the response finds a consultation exactly when the text
    contains one of the indicators. *)
Lemma a2a_detected_shown (text : string) :
  a2a_detected text = true
  ↔ ∃ indicator,
      indicator ∈ ["diagnosis_agent:"; "Remediation Status:"; "Device Type:";
                   "Actions Taken:"; "Results Summary:"]
      ∧ contains indicator text = true.
Proof.
  unfold a2a_detected. rewrite existsb_exists. unfold a2a_indicators.
  split; intros (indicator & Hin & Hc); exists indicator; (split; [|exact Hc]);
    by apply list_elem_of_In.
Qed.

(** C1, amended. For every processed record that gets a success event, the
    forwarding gate of the stage writes log lines, which depend on the
    classified severity and on the response text. For MEDIUM, HIGH and
    CRITICAL it writes that consultation of the diagnosis agent is required
    for the device at that severity and that the LLM is instructed to
    consult it; then, when the response text contains one of the five
    indicator strings, that the consultation was detected, and otherwise
    two warnings: that it was not detected, and the first 300 characters of
    the response. For LOW and for a null severity the gate writes nothing,
    and a record that ends in an error event does not reach the gate. *)
Theorem gate_flags_medium_and_above (st : GenState) (row : Row) (source_path : string)
    (turn : Turn) :
  let st' := process_row st row source_path turn in
  match event_for turn (row_count st) source_path row with
  | RowResult _ _ device_id text severity =>
      let device := match device_id with Some name => name | None => "None" end in
      let shown :=
        ∃ indicator,
          indicator ∈ ["diagnosis_agent:"; "Remediation Status:"; "Device Type:";
                       "Actions Taken:"; "Results Summary:"]
          ∧ contains indicator text = true in
      let flagged (level : string) (lines : list LogLine) :=
        ∃ outcome,
          lines
          = [(INFO, "A2A sub-agent consultation required: " +:+ device +:+ " (" +:+ level
                    +:+ " severity, schema-independent)");
             (INFO, "A2A FORWARDING (Agent 1): Instructing LLM to consult diagnosis_agent for "
                    +:+ device)] ++ outcome
          ∧ (shown →
             outcome
             = [(INFO, "A2A sub-agent consultation detected: diagnosis_agent response embedded for device "
                       +:+ device)])
          ∧ (¬ shown →
             outcome
             = [(WARNING, "A2A sub-agent consultation not detected in final response for device "
                          +:+ device +:+ ". Check agent prompts and sub-agent availability.");
                (WARNING, "Response preview for debugging: "
                          +:+ String.substring 0 300 text +:+ "...")]) in
      ∃ lines,
        gate_log st' = gate_log st ++ lines
        ∧ match severity with
          | Some MEDIUM => flagged "MEDIUM" lines
          | Some HIGH => flagged "HIGH" lines
          | Some CRITICAL => flagged "CRITICAL" lines
          | Some LOW | None => lines = []
          end
  | RowError _ _ _ _ => gate_log st' = gate_log st
  end.
Proof.
  destruct (process_row_effect st row source_path turn) as (_ & _ & _ & _ & Hgate & _).
  cbn zeta in *. rewrite Hgate.
  destruct (event_for turn (row_count st) source_path row)
    as [n src device_id text severity|n src device_id msg]; [|by rewrite app_nil_r].
  eexists. split; [reflexivity|].
  pose proof (a2a_detected_shown text) as Hshown.
  unfold forwarding_gate, str_of, default.
  destruct severity as [[]|]; cbn [a2a_required sev_name]; try reflexivity;
    (eexists; split; [reflexivity|]);
    (destruct (a2a_detected text);
     [split; [reflexivity|]; intros Hnot; destruct Hnot; by apply Hshown
     |split; [|reflexivity]; intros H; by apply Hshown in H]).
Qed.

End Stage1Facts.

(** ** Tool-call telemetry *)

Module Stage2Facts.
Import PyStr PyNum Cost Stage2.
#[local] Arguments String.append !_ _ / : simpl nomatch.

Lemma run_tools_count (calls : list string) (counter : nat) :
  run_tools calls counter = counter + length calls.
Proof.
  unfold run_tools, _mark_tool_called. revert counter.
  induction calls as [|c calls IH]; intros counter; simpl; [lia|].
  rewrite IH. lia.
Qed.

(** The count the middleware reads after the response is the number of tool
    invocations of this request, whatever the counter was before. *)
Lemma counter_is_per_request proc now transaction_id request handle :
  tool_call_counter (log_requests proc now transaction_id request handle).1.1
  = length (tools_called handle).
Proof.
  unfold log_requests.
  destruct (if decide (method request = "POST") then _ else _) as [tokens log1].
  destruct (log_request_cost _ _ _ _ _ _ _ _) as [[tracker' entry]|]; simpl;
    by rewrite run_tools_count.
Qed.

(** The response of the application is returned as it is. *)
Lemma response_not_blocked proc now transaction_id request handle :
  (log_requests proc now transaction_id request handle).2 = response handle.
Proof.
  unfold log_requests.
  destruct (if decide (method request = "POST") then _ else _) as [tokens log1].
  by destruct (log_request_cost _ _ _ _ _ _ _ _) as [[tracker' entry]|].
Qed.

(** At or above the minimum of 4 the summary reports complete, from 1 to 3
    partial. *)
Lemma summary_complete (tool_count : nat) :
  4 ≤ tool_count → outcomes (tool_execution_summary "POST" tool_count) = [Complete].
Proof.
  intros H. unfold tool_execution_summary.
  destruct (4 <=? tool_count)%nat eqn:E; [reflexivity|].
  apply Nat.leb_gt in E. lia.
Qed.

Lemma summary_partial (tool_count : nat) :
  0 < tool_count < 4 → outcomes (tool_execution_summary "POST" tool_count) = [Partial].
Proof.
  intros H.
  assert (tool_count = 1 ∨ tool_count = 2 ∨ tool_count = 3) as [->|[->| ->]] by lia;
    reflexivity.
Qed.

(** C7 at its failing input: a POST request during which no tool is
    invoked. The counter is zero after the request, the response is
    returned, and the summary of the diagnosis stage writes no line for it,
    so no missed-execution warning is logged; the remediation stage does
    write that warning for a zero count. *)
Theorem zero_tools_logged_nothing (proc : Process) (now transaction_id path : string)
    (body : string + string) (answer : HttpResponse) :
  let request := {| method := "POST"; url_path := path; request_body := body |} in
  let handle := {| tools_called := []; response := answer |} in
  let result := log_requests proc now transaction_id request handle in
  tool_call_counter result.1.1 = 0
  ∧ result.2 = answer
  ∧ tool_execution_summary "POST" 0 = []
  ∧ outcomes result.1.2 = []
  ∧ outcomes (Stage3.remediation_flow_monitoring "POST" 0) = [Missed].
Proof.
  cbn zeta. split; [by rewrite counter_is_per_request|].
  split; [by rewrite response_not_blocked|]. split; [reflexivity|].
  split; [|reflexivity].
  unfold log_requests. cbn [method request_body url_path tools_called response].
  destruct (decide ("POST" = "POST")) as [_|]; [|done].
  destruct body as [e|body]; [|destruct (truthy body)];
    destruct (log_request_cost _ _ _ _ _ _ _ _) as [[tracker' entry]|];
    reflexivity.
Qed.

End Stage2Facts.

(** ** The cost ledger over a session *)

Module LedgerFacts.
Import PyStr PyStrFacts PyNum Cost CostFacts CostSpec.

Lemma log_request_cost_effect tr now txn model i o rtype ctx tr' entry :
  log_request_cost tr now txn model i o rtype ctx = Some (tr', entry) →
  session_costs tr' = session_costs tr ++ [entry]
  ∧ agent_name tr' = agent_name tr
  ∧ total_session_cost tr'
    = (total_session_cost tr + total_cost_usd (cost_info entry))%float
  ∧ timestamp entry = now
  ∧ transaction_id entry = txn
  ∧ entry_agent_name entry = agent_name tr
  ∧ request_type entry = rtype
  ∧ calculate_cost model i o = Some (cost_info entry)
  ∧ context entry = match ctx with [] => None | _ => Some ctx end.
Proof.
  unfold log_request_cost.
  destruct (calculate_cost model i o) as [info|]; [|discriminate].
  cbn [mbind option_bind]. intros [= <- <-]. cbn. repeat split.
Qed.

(** The calls of a session append their entries in call order and leave
    the earlier entries alone. *)
Lemma log_in_turn_entries : ∀ calls tr tr',
  log_in_turn tr calls = Some tr' →
  agent_name tr' = agent_name tr
  ∧ ∃ new, session_costs tr' = session_costs tr ++ new
           ∧ Forall2 (recorded (agent_name tr)) calls new
           ∧ total_session_cost tr' = running_total (total_session_cost tr) new.
Proof.
  induction calls as [|c calls IH]; intros tr tr' H; cbn [log_in_turn] in H.
  - injection H as <-. split; [reflexivity|]. exists [].
    rewrite app_nil_r. repeat split. constructor.
  - destruct (log_request_cost _ _ _ _ _ _ _ _) as [[tr1 entry]|] eqn:E; [|discriminate].
    apply log_request_cost_effect in E
      as (Hcosts & Hname & Htotal & Hnow & Htxn & Hagent & Htype & Hinfo & Hctx).
    destruct (IH tr1 tr' H) as (Hname' & new & Hnew & Hrec & Hsum).
    split; [congruence|]. exists (entry :: new).
    rewrite Hnew, Hcosts, <- (assoc_L (++)). split; [reflexivity|].
    split.
    + constructor; [by repeat split|]. by rewrite <- Hname.
    + unfold running_total in *. cbn [foldl]. by rewrite <- Htotal.
Qed.

Lemma sum_Z_app (a b : list Z) : sum_Z (a ++ b) = (sum_Z a + sum_Z b)%Z.
Proof. unfold sum_Z. induction a as [|x a IH]; simpl; [reflexivity | lia]. Qed.

Lemma recorded_tokens name calls new :
  Forall2 (recorded name) calls new →
  map (input_tokens ∘ cost_info) new = map call_input_tokens calls
  ∧ map (output_tokens ∘ cost_info) new = map call_output_tokens calls
  ∧ map timestamp new = map call_now calls
  ∧ map transaction_id new = map call_transaction_id calls.
Proof.
  induction 1 as [|c e calls new (Hnow & Htxn & _ & _ & Hinfo & _) _ IH]; [done|].
  destruct IH as (IHi & IHo & IHn & IHt).
  rewrite calculate_cost_unfold in Hinfo.
  destruct (int_truediv (call_input_tokens c) 1000) as [in_k|]; [|discriminate].
  destruct (int_truediv (call_output_tokens c) 1000) as [out_k|]; [|discriminate].
  cbn [mbind option_bind] in Hinfo. injection Hinfo as Hinfo.
  cbn [map compose]. rewrite IHi, IHo, IHn, IHt, Hnow, Htxn, <- Hinfo.
  repeat split.
Qed.

Lemma last_recorded : ∀ (new : list CostEntry) (calls : list CostCall) e c,
  timestamp e = call_now c →
  map timestamp new = map call_now calls →
  timestamp (List.last new e) = call_now (List.last calls c).
Proof.
  induction new as [|e' new IH]; intros [|c' calls] e c He Hnow; try discriminate;
    [exact He|].
  injection Hnow as He' Hnow.
  destruct new as [|e2 new], calls as [|c2 calls]; try discriminate; [exact He'|].
  exact (IH (c2 :: calls) e c He Hnow).
Qed.

(** X1. [log_session_summary] raises KeyError exactly on an empty ledger;
    with entries it formats the number of requests, the rounded total, the
    rounded average and the total of the tokens. *)
Theorem summary_log_needs_an_entry (tr : CostTracker) :
  log_session_summary tr
  = match session_costs tr with
    | [] => None
    | _ :: _ =>
        let n := Z.of_nat (length (session_costs tr)) in
        Some [PyInt n;
              PyFloat (py_round (total_session_cost tr) 6);
              PyFloat (py_round (total_session_cost tr / float_of_int n) 6);
              PyInt (sum_Z (map (input_tokens ∘ cost_info) (session_costs tr))
                     + sum_Z (map (output_tokens ∘ cost_info) (session_costs tr)))]
    end.
Proof.
  unfold log_session_summary, get_session_summary.
  destruct (session_costs tr) as [|entry entries]; reflexivity.
Qed.

(** X2. On a tracker that starts empty, after any series of calls that do
    not raise: the ledger has one entry for each call, in call order, with
    the call's transaction id, time and request type and the cost computed
    for its model and tokens; and the running total is the sum of the
    entries' rounded totals, added from the left starting from 0.0. *)
Theorem ledger_records_each_call (name : string) (calls : list CostCall)
    (tr' : CostTracker) :
  log_in_turn (new_tracker name) calls = Some tr' →
  agent_name tr' = name
  ∧ Forall2 (recorded name) calls (session_costs tr')
  ∧ length (session_costs tr') = length calls
  ∧ total_session_cost tr' = running_total 0 (session_costs tr').
Proof.
  intros H. apply log_in_turn_entries in H as (Hname & new & Hnew & Hrec & Hsum).
  cbn in Hnew, Hname, Hrec, Hsum. subst new.
  repeat split; try assumption.
  symmetry. eapply Forall2_length, Hrec.
Qed.

(** One flash and one pro request. *)
Lemma ledger_records_each_call_witness :
  ∃ tr', log_in_turn (new_tracker "diagnosis_agent")
           [{| call_now := "2024-11-14T22:13:20"; call_transaction_id := "t1";
               call_model_name := "gemini-1.5-flash"; call_input_tokens := 1000;
               call_output_tokens := 1000; call_request_type := "csv_streaming";
               call_context := [] |};
            {| call_now := "2024-11-14T22:13:25"; call_transaction_id := "t2";
               call_model_name := "gemini-1.5-pro"; call_input_tokens := 2000;
               call_output_tokens := 500; call_request_type := "a2a_diagnosis";
               call_context := [("tool_calls", PyInt 4)] |}] = Some tr'
         ∧ length (session_costs tr') = 2
         ∧ total_session_cost tr' = running_total 0 (session_costs tr').
Proof.
  match goal with |- ∃ tr', ?run = _ ∧ _ => destruct run as [tr'|] eqn:E end;
    [|by vm_compute in E].
  exists tr'. split; [reflexivity|].
  destruct (ledger_records_each_call _ _ _ E) as (_ & _ & Hlen & Hsum).
  split; assumption.
Defined.

(** X3. The summary of a session of at least one call, none raising, on a
    tracker that starts empty: the number of requests is the number of
    calls, the token totals are the sums over the calls, and the session
    starts and ends at the times of the first and of the last call. *)
Theorem summary_totals_the_calls (name : string) (c : CostCall) (calls : list CostCall)
    (tr' : CostTracker) :
  log_in_turn (new_tracker name) (c :: calls) = Some tr' →
  let summary := get_session_summary tr' in
  let total_in := sum_Z (map call_input_tokens (c :: calls)) in
  let total_out := sum_Z (map call_output_tokens (c :: calls)) in
  dict_get "agent_name" summary = Some (PyStr name)
  ∧ dict_get "total_requests" summary = Some (PyInt (Z.of_nat (S (length calls))))
  ∧ dict_get "total_input_tokens" summary = Some (PyInt total_in)
  ∧ dict_get "total_output_tokens" summary = Some (PyInt total_out)
  ∧ dict_get "total_tokens" summary = Some (PyInt (total_in + total_out))
  ∧ dict_get "session_start" summary = Some (PyStr (call_now c))
  ∧ dict_get "session_end" summary = Some (PyStr (call_now (List.last calls c))).
Proof.
  intros H. apply log_in_turn_entries in H as (Hname & new & Hnew & Hrec & _).
  cbn in Hnew, Hname, Hrec.
  pose proof (Forall2_length _ _ _ Hrec) as Hlen.
  destruct (recorded_tokens _ _ _ Hrec) as (Hin & Hout & Hnow & _).
  cbn zeta. unfold get_session_summary. rewrite Hnew.
  destruct new as [|e new]; [discriminate|].
  rewrite Hin, Hout, Hname. cbn [length] in Hlen. injection Hlen as Hlen.
  cbn [length]. rewrite <- Hlen.
  assert (timestamp e = call_now c) as He by (by injection Hnow).
  assert (timestamp (List.last (e :: new) e) = call_now (List.last calls c)) as Hlast.
  { injection Hnow as _ Hnow.
    replace (List.last (e :: new) e) with (List.last new e) by (by destruct new).
    by apply last_recorded. }
  rewrite Hlast, He. repeat split.
Qed.

Lemma summary_totals_the_calls_witness :
  ∃ tr', log_in_turn (new_tracker "log_analysis_agent")
           [{| call_now := "2024-11-14T22:13:20"; call_transaction_id := "t1";
               call_model_name := "gemini-1.5-flash"; call_input_tokens := 40;
               call_output_tokens := 120; call_request_type := "csv_streaming";
               call_context := [] |};
            {| call_now := "2024-11-14T22:13:25"; call_transaction_id := "t2";
               call_model_name := "gemini-1.5-flash"; call_input_tokens := 38;
               call_output_tokens := 95; call_request_type := "csv_streaming";
               call_context := [] |}] = Some tr'
         ∧ dict_get "total_tokens" (get_session_summary tr') = Some (PyInt 293)
         ∧ dict_get "session_end" (get_session_summary tr')
           = Some (PyStr "2024-11-14T22:13:25").
Proof.
  match goal with |- ∃ tr', ?run = _ ∧ _ => destruct run as [tr'|] eqn:E end;
    [|by vm_compute in E].
  exists tr'. split; [reflexivity|].
  destruct (summary_totals_the_calls _ _ _ _ E) as (_ & _ & _ & _ & Htokens & _ & Hend).
  split; assumption.
Defined.

Lemma len_append (a b : string) : len (a +:+ b) = (len a + len b)%Z.
Proof.
  unfold len. induction a as [|x a IH]; simpl String.length; [reflexivity|].
  cbn [String.append String.length]. lia.
Qed.

(** X4. [estimate_tokens] never gives 0: it is 1 for a text of fewer than 8
    characters, the empty text included, and a quarter of the length,
    rounded down, from 4 characters on; a longer text never has a smaller
    estimate. *)
Theorem estimate_tokens_bounds (text : string) :
  (1 ≤ estimate_tokens text)%Z
  ∧ (estimate_tokens text = 1 ↔ len text < 8)%Z
  ∧ (4 ≤ len text → 4 * estimate_tokens text ≤ len text < 4 * estimate_tokens text + 4)%Z
  ∧ (∀ more, estimate_tokens text ≤ estimate_tokens (text +:+ more))%Z.
Proof.
  unfold estimate_tokens.
  assert (0 ≤ len text)%Z as H0 by (unfold len; lia).
  split; [lia|]. split; [split; intros H; Z.div_mod_to_equations; lia|].
  split; [intros H; Z.div_mod_to_equations; lia|].
  intros more. rewrite len_append.
  assert (0 ≤ len more)%Z as H1 by (unfold len; lia).
  Z.div_mod_to_equations. lia.
Qed.

End LedgerFacts.

(** ** The streamed document and the ledger of a stream *)

Module StreamFacts.
Import PyStr PyStrFacts PyNum Classifier ClassifierFacts Cost CostFacts.
Import Stage1 Stage1Spec Stage1Facts StreamSpec Samples.

Lemma separated_snoc (events : list StreamEvent) (e : StreamEvent) :
  separated (events ++ [e])
  = separated events ++ (if bool_decide (events = []) then [] else [ChunkComma])
    ++ [ChunkEvent e].
Proof.
  induction events as [|e1 events IH]; [reflexivity|].
  destruct events as [|e2 events]; [reflexivity|].
  change (separated ((e1 :: e2 :: events) ++ [e]))
    with (ChunkEvent e1 :: ChunkComma :: separated ((e2 :: events) ++ [e])).
  rewrite IH. reflexivity.
Qed.

Lemma events_of_separated (events : list StreamEvent) :
  events_of (separated events) = events.
Proof.
  induction events as [|e1 events IH]; [reflexivity|].
  destruct events as [|e2 events]; [reflexivity|].
  change (events_of (separated (e1 :: e2 :: events)))
    with (e1 :: events_of (separated (e2 :: events))).
  by rewrite IH.
Qed.

(** What [process_row] yields, and what it appends to the ledger. *)
Lemma process_row_yields (st : GenState) (row : Row) (source_path : string) (turn : Turn) :
  let st' := process_row st row source_path turn in
  let e := event_for turn (row_count st) source_path row in
  yielded st' = yielded st ++ (if first st then [] else [ChunkComma]) ++ [ChunkEvent e]
  ∧ first st' = false
  ∧ agent_name (cost_tracker st') = agent_name (cost_tracker st)
  ∧ ∃ new, session_costs (cost_tracker st') = session_costs (cost_tracker st) ++ new
           ∧ length new = (if is_success e then 1 else 0)
           ∧ Forall (streaming_entry (agent_name (cost_tracker st))) new.
Proof.
  cbn zeta. unfold process_row, event_for, row_failed.
  destruct (turn_run turn) as [msg|events].
  { repeat split. exists []. rewrite app_nil_r. repeat split. constructor. }
  unfold log_request_cost.
  destruct (calculate_cost _ _ _) as [info|] eqn:E; cbn [mbind option_bind].
  2:{ repeat split. exists []. rewrite app_nil_r. repeat split. constructor. }
  repeat split. eexists [_]. repeat split. constructor; [|constructor].
  rewrite calculate_cost_unfold in E. revert E.
  destruct (int_truediv (estimate_tokens (llm_input_of row)) 1000) as [in_k|];
    [|discriminate].
  destruct (int_truediv (estimate_tokens (response_text _)) 1000) as [out_k|];
    [|discriminate].
  cbn [mbind option_bind]. intros [= <-].
  unfold streaming_entry, estimate_tokens. cbn. repeat split; lia.
Qed.

Lemma events_of_yield (chunks : list Chunk) (b : bool) (e : StreamEvent) :
  events_of (chunks ++ (if b then [] else [ChunkComma]) ++ [ChunkEvent e])
  = events_of chunks ++ [e].
Proof. rewrite !events_of_app. by destruct b. Qed.

Section Loops.
Context (world : World).

Lemma step_yields (st : GenState) (rec : Row * string) :
  let st' := step world st rec in
  let e := event_for (world (S (row_count st))) (S (row_count st)) rec.2 rec.1 in
  yielded st' = yielded st ++ (if first st then [] else [ChunkComma]) ++ [ChunkEvent e]
  ∧ first st' = false
  ∧ agent_name (cost_tracker st') = agent_name (cost_tracker st)
  ∧ ∃ new, session_costs (cost_tracker st') = session_costs (cost_tracker st) ++ new
           ∧ length new = (if is_success e then 1 else 0)
           ∧ Forall (streaming_entry (agent_name (cost_tracker st))) new.
Proof.
  exact (process_row_yields (read_row st rec.1 rec.2) rec.1 rec.2
           (world (S (row_count st)))).
Qed.

Lemma framed_step st rec : framed st → framed (step world st rec).
Proof.
  intros [Hy Hf]. destruct (step_yields st rec) as (Hy' & Hf' & _).
  unfold framed. rewrite Hy', Hf', events_of_yield. split.
  - rewrite separated_snoc, <- Hf. rewrite Hy at 1. reflexivity.
  - symmetry. apply bool_decide_eq_false_2. intros H.
    by apply app_eq_nil in H as [_ H].
Qed.

Lemma ledger_extends_step tracker st rec :
  ledger_extends tracker st → ledger_extends tracker (step world st rec).
Proof.
  intros (Hname & new & Hnew & Hlen & Hall).
  destruct (step_yields st rec) as (Hy' & _ & Hname' & new' & Hnew' & Hlen' & Hall').
  split; [congruence|]. exists (new ++ new').
  rewrite Hnew', Hnew, <- (assoc_L (++)). split; [reflexivity|].
  rewrite Hy', events_of_yield, List.filter_app, !length_app, Hlen, Hlen'.
  split.
  - cbn [List.filter]. by destruct (is_success _).
  - apply Forall_app. split; [exact Hall|]. by rewrite <- Hname.
Qed.

End Loops.

Lemma initial_framed tracker : framed (initial_state tracker).
Proof. split; reflexivity. Qed.

Lemma initial_ledger_extends tracker : ledger_extends tracker (initial_state tracker).
Proof.
  split; [reflexivity|]. exists []. cbn. rewrite app_nil_r. repeat split. constructor.
Qed.

(** X5. The chunks of every stream are the opening, the events with one
    comma between two consecutive events and none before the first or after
    the last, and then the closing section exactly when the generator
    returns; a generator left by an exception yields nothing after its last
    event. *)
Theorem stream_is_framed (fs : FileSystem) (world : World) (tracker : CostTracker)
    (sources : list string) :
  let run := row_generator fs world tracker sources in
  yielded run.1
  = ChunkOpen :: separated (events_of (yielded run.1))
    ++ match run.2 with
       | Completed =>
           [ChunkSummary (severity_counts run.1) (get_session_summary (cost_tracker run.1))]
       | Aborted _ => []
       end.
Proof.
  cbn zeta. unfold row_generator.
  destruct (open_all fs sources) as [msg|readers]; [reflexivity|].
  rewrite while_readers_fold. set (st := foldl _ _ _).
  assert (framed st) as [Hy _].
  { apply foldl_step_invariant; [apply framed_step | apply initial_framed]. }
  destruct (reading readers).2 as [error|];
    [cbn [fst snd]; rewrite app_nil_r; exact Hy|].
  destruct (log_session_summary _); cbn [fst snd yield_summary yielded severity_counts
                                          cost_tracker].
  - rewrite events_of_app. cbn [events_of omap]. rewrite app_nil_r.
    rewrite Hy at 1. reflexivity.
  - rewrite app_nil_r. exact Hy.
Qed.

(** X6. When the sources open, every record read gets its event. When
    every source can be read to its end, these are all the records, and
    then the stream is closed if and only if the ledger is not empty: the
    tracker held an entry before the request or some record succeeded;
    otherwise the KeyError of [log_session_summary] leaves the generator
    after the last event, in particular for sources without records and
    when every record fails on a fresh tracker. When some source cannot be
    read to its end, the generator is left by the exception of a read,
    with the events of the records read before it. *)
Theorem stream_closes_iff_ledger_nonempty (fs : FileSystem) (world : World)
    (tracker : CostTracker) (sources : list string) (readers : list Reader) :
  open_all fs sources = inr readers →
  let run := row_generator fs world tracker sources in
  let events := events_of (yielded run.1) in
  events
  = imap (λ k (rec : Row * string), event_for (world (S k)) (S k) rec.2 rec.1)
         (reading readers).1
  ∧ (readable readers →
     length events = length (all_records readers)
     ∧ (run.2 = Completed ∨ run.2 = Aborted "'total_tokens'")
     ∧ (run.2 = Completed ↔ session_costs tracker ≠ [] ∨ ∃ e, e ∈ events ∧ is_success e))
  ∧ (¬ readable readers →
     ∃ error, run.2 = Aborted error ∧ read_fails error readers).
Proof.
  intros Hopen. cbn zeta.
  destruct (generator_records_events fs world tracker sources readers Hopen)
    as (Hrec & _ & Hone).
  unfold one_event_each in Hone. cbn zeta in Hrec.
  assert (events_of (yielded (row_generator fs world tracker sources).1)
          = imap (λ k (rec : Row * string), event_for (world (S k)) (S k) rec.2 rec.1)
                 (reading readers).1) as Hevents.
  { rewrite Hone, Hrec. clear. generalize (reading readers).1. intros records.
    exact (fmap_imap _ _ records). }
  split; [exact Hevents|]. split.
  - intros Hreadable.
    pose proof (reading_readable _ Hreadable) as Hread.
    split; [|split].
    + rewrite Hevents, length_imap, Hread. cbn [fst].
      apply Permutation_length, round_robin_records.
    + apply (generator_completes fs world tracker sources readers Hopen).
      by rewrite Hread.
    + apply (generator_completes fs world tracker sources readers Hopen).
      by rewrite Hread.
  - intros Hnot. destruct (reading_unreadable readers Hnot) as (error & Hread & Hfails).
    exists error.
    split; [by apply (generator_read_fault fs world tracker sources readers) | exact Hfails].
Qed.

(** Two records whose turns both raise, on a fresh tracker: two error
    events and no closing section. *)
Lemma stream_closes_iff_ledger_nonempty_witness :
  let run := row_generator two_rows (λ _, failure "model overloaded")
               (new_tracker "log_analysis_agent") ["devices.csv"] in
  events_of (yielded run.1)
  = [RowError 1 "devices.csv" (Some "D1") "model overloaded";
     RowError 2 "devices.csv" (Some "D2") "model overloaded"]
  ∧ run.2 = Aborted "'total_tokens'".
Proof.
  cbn zeta.
  destruct (stream_closes_iff_ledger_nonempty two_rows (λ _, failure "model overloaded")
              (new_tracker "log_analysis_agent") ["devices.csv"]
              [([plain [("Device_ID", "D1"); ("CPU_Usage (%)", "97")];
                 plain [("Device_ID", "D2"); ("CPU_Usage (%)", "12")]],
                EndOfFile, "devices.csv")]
              eq_refl) as (Hevents & _ & _).
  split; [rewrite Hevents; reflexivity | reflexivity].
Defined.

(** X9. A stream leaves the entries the tracker held in place and appends
    one entry for each success event and none for an error event; each new
    entry is of type csv_streaming, carries the tracker's agent name, is
    priced at the flash tier and counts at least one input and one output
    token. *)
Theorem stream_ledger_entries (fs : FileSystem) (world : World) (tracker : CostTracker)
    (sources : list string) :
  let run := row_generator fs world tracker sources in
  agent_name (cost_tracker run.1) = agent_name tracker
  ∧ ∃ new, session_costs (cost_tracker run.1) = session_costs tracker ++ new
           ∧ length new = successes (events_of (yielded run.1))
           ∧ Forall (streaming_entry (agent_name tracker)) new.
Proof.
  cbn zeta. unfold row_generator.
  destruct (open_all fs sources) as [msg|readers]; [apply initial_ledger_extends|].
  rewrite while_readers_fold. set (st := foldl _ _ _).
  assert (ledger_extends tracker st) as Hst.
  { apply foldl_step_invariant; [apply ledger_extends_step | apply initial_ledger_extends]. }
  destruct (reading readers).2 as [error|]; [exact Hst|].
  destruct (log_session_summary _); [|exact Hst].
  destruct Hst as (Hname & new & Hnew & Hlen & Hall).
  split; [exact Hname|]. exists new.
  cbn [fst yield_summary yielded cost_tracker]. rewrite events_of_app.
  cbn [events_of omap]. rewrite app_nil_r. by repeat split.
Qed.

(** *** The collected response *)

Lemma join_all_app (a b : list string) : join_all (a ++ b) = join_all a +:+ join_all b.
Proof.
  unfold join_all. induction a as [|x a IH]; [reflexivity|].
  cbn [app foldr]. by rewrite IH, append_assoc.
Qed.

(** What one part does to the accumulator. *)
Lemma collect_part_fields (acc : Collected) (p : Part) :
  response_text (collect_part acc p)
  = response_text acc +:+ join_all (omap text_of_part [p])
  ∧ non_text_parts_count (collect_part acc p) + length (omap text_of_part [p])
    = S (non_text_parts_count acc)
  ∧ function_calls_completed (collect_part acc p)
    = function_calls_completed acc
      + length (List.filter (λ p, bool_decide (text_of_part p = None)
                                  && part_has_function_call p) [p]).
Proof.
  unfold collect_part, text_of_part, join_all. cbn [omap list_omap List.filter].
  destruct (part_text p) as [t|]; [destruct (truthy t)|];
    destruct (part_has_function_call p); cbn;
    rewrite ?append_empty_r; repeat split; lia.
Qed.

(** The fields of the accumulator after a list of parts. *)
Lemma collect_parts (parts : list Part) : ∀ acc,
  let got := foldl collect_part acc parts in
  response_text got = response_text acc +:+ join_all (omap text_of_part parts)
  ∧ non_text_parts_count got + length (omap text_of_part parts)
    = non_text_parts_count acc + length parts
  ∧ function_calls_completed got
    = function_calls_completed acc
      + length (List.filter (λ p, bool_decide (text_of_part p = None)
                                  && part_has_function_call p) parts).
Proof.
  induction parts as [|p parts IH]; intros acc; cbn zeta.
  - cbn. rewrite append_empty_r. repeat split; lia.
  - cbn [foldl]. destruct (IH (collect_part acc p)) as (Ht & Hn & Hf).
    destruct (collect_part_fields acc p) as (Ht' & Hn' & Hf').
    change (p :: parts) with ([p] ++ parts).
    rewrite omap_app, List.filter_app, !length_app, join_all_app, Ht, Hf, Ht', Hf'.
    rewrite append_assoc. change (length [p]) with 1. repeat split; lia.
Qed.

Lemma collect_events (events : list Event) : ∀ acc,
  let got := foldl collect_event acc events in
  response_text got = response_text acc +:+ join_all (omap text_of_part (parts_of events))
  ∧ non_text_parts_count got + length (omap text_of_part (parts_of events))
    = non_text_parts_count acc + length (parts_of events)
  ∧ function_calls_completed got
    = function_calls_completed acc
      + length (List.filter (λ p, bool_decide (text_of_part p = None)
                                  && part_has_function_call p) (parts_of events)).
Proof.
  induction events as [|[parts|] events IH]; intros acc; cbn zeta.
  - cbn. rewrite append_empty_r. repeat split; lia.
  - cbn [foldl collect_event]. destruct (IH (foldl collect_part acc parts)) as (Ht & Hn & Hf).
    destruct (collect_parts parts acc) as (Ht' & Hn' & Hf').
    change (parts_of (Some parts :: events)) with (parts ++ parts_of events).
    rewrite omap_app, List.filter_app, !length_app, join_all_app, Ht, Hf, Ht', Hf'.
    rewrite append_assoc. repeat split; lia.
  - exact (IH acc).
Qed.

(** X7. The response text of a record is the concatenation, in order, of
    the non-empty texts of the parts of all events of its run; every other
    part is counted as a non-text part; the function calls counted are the
    parts without non-empty text that have a function call, so a part with
    both text and a function call counts as text only, and the count never
    exceeds that of the non-text parts. *)
Theorem collect_concatenates_text (events : list Event) :
  let got := collect events in
  let parts := parts_of events in
  response_text got = join_all (omap text_of_part parts)
  ∧ non_text_parts_count got + length (omap text_of_part parts) = length parts
  ∧ function_calls_completed got
    = length (List.filter (λ p, bool_decide (text_of_part p = None)
                                && part_has_function_call p) parts)
  ∧ function_calls_completed got ≤ non_text_parts_count got.
Proof.
  cbn zeta. unfold collect.
  destruct (collect_events events
              {| response_text := EmptyString; non_text_parts_count := 0;
                 function_calls_completed := 0 |}) as (Ht & Hn & Hf).
  cbn in Ht, Hn, Hf. repeat split; try assumption.
  rewrite Hf. clear Ht Hf.
  set (got := foldl _ _ _) in *. clearbody got.
  set (parts := parts_of events) in *. clearbody parts.
  assert (length (List.filter (λ p, bool_decide (text_of_part p = None)
                                    && part_has_function_call p) parts)
          + length (omap text_of_part parts) ≤ length parts) as Hle; [|lia].
  clear. induction parts as [|p parts IH]; [done|].
  change (p :: parts) with ([p] ++ parts).
  rewrite List.filter_app, omap_app, !length_app.
  assert (length (List.filter (λ p, bool_decide (text_of_part p = None)
                                    && part_has_function_call p) [p])
          + length (omap text_of_part [p]) ≤ 1) as Hp; [|cbn [length]; lia].
  cbn [List.filter omap list_omap].
  destruct (text_of_part p); [cbn; lia|].
  destruct (part_has_function_call p); cbn; lia.
Qed.

End StreamFacts.

(** ** The severity classifier and the case of the text *)

Module ClassifierCaseFacts.
Import PyStr PyStrFacts Classifier ClassifierFacts.

Lemma upper_upper_ascii (c : ascii) : upper_ascii (upper_ascii c) = upper_ascii c.
Proof. destruct c as [[] [] [] [] [] [] [] []]; reflexivity. Qed.

Lemma upper_upper (s : string) : upper (upper s) = upper s.
Proof. induction s as [|c s IH]; simpl; [done | by rewrite upper_upper_ascii, IH]. Qed.

Lemma is_space_lower (c : ascii) : is_space (lower_ascii c) = is_space c.
Proof. destruct c as [[] [] [] [] [] [] [] []]; reflexivity. Qed.

Lemma all_space_lower (s : string) : all_space (lower s) = all_space s.
Proof. induction s as [|c s IH]; simpl; [done | by rewrite is_space_lower, IH]. Qed.

(** X8. The classification does not depend on the case of the response:
    two texts that read the same once upper-cased get the same severity,
    so a text, its upper-cased and its lower-cased form are classified
    alike. *)
Theorem severity_ignores_case (text text' : string) :
  upper text = upper text' →
  determine_severity text = determine_severity text'.
Proof.
  intros H. rewrite !determine_severity_unfold.
  rewrite <- (all_space_upper text), <- (all_space_upper text'), H. reflexivity.
Qed.

Lemma severity_ignores_case_witness :
  determine_severity "Risk Assessment: High (cpu critical)"
  = determine_severity "risk assessment: high (CPU CRITICAL)".
Proof. apply severity_ignores_case. reflexivity. Defined.

End ClassifierCaseFacts.

(** ** The middleware of the diagnosis stage, request by request *)

Module DiagnosisMiddlewareFacts.
Import PyStr PyStrFacts PyNum Cost CostFacts Stage2 Stage2Facts.

Lemma outcomes_app (a b : list LogLine) : outcomes (a ++ b) = outcomes a ++ outcomes b.
Proof. apply omap_app. Qed.

(** The outcomes the summary of the diagnosis stage reports. *)
Lemma summary_outcomes (m : string) (n : nat) :
  outcomes (tool_execution_summary m n)
  = if decide (m = "POST") then
      if (4 <=? n)%nat then [Complete] else if (1 <=? n)%nat then [Partial] else []
    else [].
Proof.
  unfold tool_execution_summary. case_decide; [|reflexivity].
  destruct n as [|[|[|[|n]]]]; reflexivity.
Qed.

(** The entry of a request billed at the pro tier. *)
Lemma pro_entry tr now txn i o rtype ctx tr' entry :
  log_request_cost tr now txn "gemini-1.5-pro" i o rtype ctx = Some (tr', entry) →
  session_costs tr' = session_costs tr ++ [entry]
  ∧ transaction_id entry = txn
  ∧ request_type entry = rtype
  ∧ pricing_rate (cost_info entry) = pro_pricing
  ∧ input_tokens (cost_info entry) = i
  ∧ output_tokens (cost_info entry) = o.
Proof.
  unfold log_request_cost. rewrite calculate_cost_unfold.
  destruct (int_truediv i 1000) as [in_k|]; [|discriminate].
  destruct (int_truediv o 1000) as [out_k|]; [|discriminate].
  cbn [mbind option_bind]. intros [= <- <-]. cbn. repeat split.
Qed.

(** X10. The middleware of the diagnosis stage, for every request: the
    response of the application is returned unchanged; the counter after
    the request is the number of tools invoked during it, whatever it was
    before; the log reports an outcome only for a POST request with at
    least one tool (complete from 4 tools on, partial for 1 to 3); and the
    request, POST or not, is billed one ledger entry of type a2a_diagnosis
    at the pro tier with at least one output token and, when it is not a
    POST, no input token, unless the cost computation raises: then the
    ledger is unchanged and a warning is logged. *)
Theorem diagnosis_request_telemetry (proc : Process) (now txn : string)
    (request : Request) (handle : Handling) :
  let result := log_requests proc now txn request handle in
  let n := length (tools_called handle) in
  result.2 = response handle
  ∧ tool_call_counter result.1.1 = n
  ∧ outcomes result.1.2
    = (if decide (method request = "POST") then
         if (4 <=? n)%nat then [Complete] else if (1 <=? n)%nat then [Partial] else []
       else [])
  ∧ ((∃ e, session_costs (cost_tracker result.1.1)
           = session_costs (cost_tracker proc) ++ [e]
           ∧ transaction_id e = txn
           ∧ request_type e = "a2a_diagnosis"
           ∧ pricing_rate (cost_info e) = pro_pricing
           ∧ (1 ≤ output_tokens (cost_info e))%Z
           ∧ (method request ≠ "POST" → input_tokens (cost_info e) = 0%Z))
     ∨ (cost_tracker result.1.1 = cost_tracker proc
        ∧ (WARNING, "Cost tracking error: integer division result too large for a float")
          ∈ result.1.2)).
Proof.
  cbn zeta. split; [apply response_not_blocked|].
  split; [apply counter_is_per_request|].
  unfold log_requests.
  destruct (if decide (method request = "POST") then _ else _) as [tokens log1] eqn:E1.
  assert (outcomes log1 = [] ∧ (method request ≠ "POST" → tokens = 0%Z)) as [Hlog1 Htok].
  { case_decide as Hm.
    - split; [|done]. destruct (request_body request) as [e|body];
        [|destruct (truthy body)]; by injection E1 as <- <-.
    - by injection E1 as <- <-. }
  destruct (log_request_cost _ _ _ _ _ _ _ _) as [[tracker' entry]|] eqn:E2;
    cbn [fst snd tool_call_counter cost_tracker].
  - split.
    + rewrite !outcomes_app, Hlog1, summary_outcomes.
      unfold get_tool_call_counter, reset_tool_call_counter.
      rewrite run_tools_count. reflexivity.
    + left. exists entry. apply pro_entry in E2 as (Hc & Ht & Hr & Hp & Hi & Ho).
      rewrite Hi, Ho. split; [exact Hc|]. split; [exact Ht|]. split; [exact Hr|].
      split; [exact Hp|]. split; [lia | exact Htok].
  - split.
    + rewrite !outcomes_app, Hlog1, summary_outcomes.
      unfold get_tool_call_counter, reset_tool_call_counter.
      rewrite run_tools_count. reflexivity.
    + right. split; [reflexivity|].
      rewrite !elem_of_app. right. right. left. apply elem_of_cons. by left.
Qed.

End DiagnosisMiddlewareFacts.

(** ** The registry of trackers *)

Module RegistryFacts.
Import PyStr PyNum Cost CostFacts Registry.

Lemma summary_of_used (name : string) (tr : CostTracker) :
  used (name, tr) = true → is_Some (log_session_summary tr).
Proof.
  unfold used. cbn [snd]. intros H. apply log_session_summary_nonempty.
  by destruct (session_costs tr).
Qed.

Lemma summary_of_unused (name : string) (tr : CostTracker) :
  used (name, tr) = false → log_session_summary tr = None.
Proof.
  unfold used. cbn [snd]. intros H. apply log_session_summary_empty.
  by destruct (session_costs tr).
Qed.

Lemma log_all_app (a b : Trackers) :
  (log_all_session_summaries (a ++ b)).2
  = (log_all_session_summaries a).2 && (log_all_session_summaries b).2.
Proof.
  induction a as [|[name tr] a IH]; [reflexivity|].
  cbn [app log_all_session_summaries].
  destruct (log_session_summary tr); [|reflexivity].
  destruct (log_all_session_summaries (a ++ b)) as [lines ended].
  destruct (log_all_session_summaries a) as [lines' ended'].
  exact IH.
Qed.

(** X11. [log_all_session_summaries] runs to its end if and only if every
    registered tracker has billed at least one request; otherwise it logs
    the summaries of the trackers registered before the first unused one
    and is then left by that tracker's KeyError, so the later trackers are
    not summarised. In particular it cannot complete once
    [get_cost_tracker] has registered a new agent that has not billed yet.
    [get_cost_tracker] leaves the registry as it is for a registered name. *)
Theorem summaries_stop_at_unused_tracker (reg : Trackers) :
  let run := log_all_session_summaries reg in
  (run.2 = true ↔ Forall (λ entry, session_costs entry.2 ≠ []) reg)
  ∧ map Some run.1 = map (λ entry, log_session_summary entry.2) (used_prefix reg)
  ∧ (∀ name, find_tracker name reg = None →
       (log_all_session_summaries (get_cost_tracker name reg).1).2 = false)
  ∧ (∀ name, is_Some (find_tracker name reg) → (get_cost_tracker name reg).1 = reg).
Proof.
  cbn zeta. split; [|split; [|split]].
  - induction reg as [|[name tr] reg IH]; [by split; [constructor|]|].
    cbn [log_all_session_summaries]. rewrite Forall_cons. cbn [snd].
    destruct (used (name, tr)) eqn:Hu.
    + destruct (summary_of_used _ _ Hu) as [line Hline].
      rewrite Hline. destruct (log_all_session_summaries reg) as [lines ended].
      cbn [snd] in *. rewrite IH. unfold used in Hu. cbn [snd] in Hu.
      split; [intros H; split; [by destruct (session_costs tr) | exact H] | by intros [_ H]].
    + rewrite (summary_of_unused _ _ Hu). cbn [snd]. unfold used in Hu. cbn [snd] in Hu.
      split; [discriminate|]. intros [H _]. by destruct (session_costs tr).
  - induction reg as [|[name tr] reg IH]; [reflexivity|].
    cbn [log_all_session_summaries used_prefix].
    destruct (used (name, tr)) eqn:Hu.
    + destruct (summary_of_used _ _ Hu) as [line Hline].
      rewrite Hline. destruct (log_all_session_summaries reg) as [lines ended].
      cbn [fst map snd] in *. by rewrite Hline, IH.
    + by rewrite (summary_of_unused _ _ Hu).
  - intros name Hnew. unfold get_cost_tracker. rewrite Hnew. cbn [fst].
    rewrite log_all_app. apply andb_false_intro2. reflexivity.
  - intros name [tr Htr]. unfold get_cost_tracker. by rewrite Htr.
Qed.

End RegistryFacts.

(** ** The remediation stage *)

Module RemediationFacts.
Import PyStr PyStrFacts PyNum Cost CostFacts Stage2 Remediation.
Import DiagnosisMiddlewareFacts.

Lemma call_tool_counter (env : ToolEnv) (call : ToolCall) (counter : nat) :
  (call_tool env call counter).1 = S counter.
Proof.
  destruct call; cbn [call_tool]; try reflexivity.
  - unfold restart_iot_system. by destruct (env_choice env).
  - unfold restart_camera_system. by destruct (env_choice env).
Qed.

(** Each tool call counts once, whatever the tool, its arguments and its
    result. *)
Lemma call_tools_counter (calls : list (ToolEnv * ToolCall)) : ∀ counter,
  (call_tools calls counter).1 = counter + length calls
  ∧ length (call_tools calls counter).2 = length calls.
Proof.
  induction calls as [|[env call] calls IH]; intros counter; cbn [call_tools length].
  - cbn [fst snd]. split; [lia | reflexivity].
  - pose proof (call_tool_counter env call counter) as Hc.
    destruct (call_tool env call counter) as [counter1 result]. cbn [fst] in Hc. subst.
    destruct (IH (S counter)) as [IH1 IH2].
    destruct (call_tools calls (S counter)) as [counter2 results]. cbn [fst snd length] in *.
    split; lia.
Qed.

(** The outcomes the flow monitoring of the remediation stage reports. *)
Lemma monitoring_outcomes (m : string) (n : nat) :
  outcomes (Stage3.remediation_flow_monitoring m n)
  = if decide (m = "POST") then if (1 <=? n)%nat then [Complete] else [Missed] else [].
Proof.
  unfold Stage3.remediation_flow_monitoring. case_decide; [|reflexivity].
  destruct n as [|n]; reflexivity.
Qed.

(** X12. The middleware of the remediation stage, for every request: the
    response of the application is returned unchanged; the counter after
    the request is the number of tool calls made during it, whatever tools
    were called with whatever result and whatever the counter was before;
    every POST request logs exactly one outcome, complete with at least one
    tool call and the missed-execution warning with none, and any other
    method logs none; and the request is billed one ledger entry of type
    a2a_remediation at the pro tier whose context carries the tool count,
    unless the cost computation raises: then the ledger is unchanged and a
    warning is logged. *)
Theorem remediation_request_telemetry (proc : Process) (now txn : string)
    (request : Request) (handle : Remediation.Handling) :
  let result := Remediation.log_requests proc now txn request handle in
  let n := length (tool_calls handle) in
  result.2 = Remediation.response handle
  ∧ tool_call_counter result.1.1 = n
  ∧ outcomes result.1.2
    = (if decide (method request = "POST") then
         if (1 <=? n)%nat then [Complete] else [Missed]
       else [])
  ∧ ((∃ e ctx, session_costs (cost_tracker result.1.1)
               = session_costs (cost_tracker proc) ++ [e]
               ∧ transaction_id e = txn
               ∧ request_type e = "a2a_remediation"
               ∧ pricing_rate (cost_info e) = pro_pricing
               ∧ (1 ≤ output_tokens (cost_info e))%Z
               ∧ context e = Some ctx
               ∧ dict_get "tool_calls" ctx = Some (PyInt (Z.of_nat n))
               ∧ dict_get "remediation_functions_called" ctx = Some (PyInt (Z.of_nat n)))
     ∨ (cost_tracker result.1.1 = cost_tracker proc
        ∧ (WARNING, "Cost tracking error: integer division result too large for a float")
          ∈ result.1.2)).
Proof.
  cbn zeta. unfold Remediation.log_requests.
  destruct (if decide (method request = "POST") then _ else _) as [tokens log1] eqn:E1.
  assert (outcomes log1 = []) as Hlog1.
  { case_decide as Hm; [|by injection E1 as <- <-].
    destruct (request_body request) as [e|body]; [|destruct (truthy body)];
      by injection E1 as <- <-. }
  unfold Remediation.get_tool_call_counter, Remediation.reset_tool_call_counter.
  destruct (call_tools_counter (tool_calls handle) 0) as [Hcount _].
  rewrite Hcount. cbn [Nat.add].
  destruct (log_request_cost _ _ _ _ _ _ _ _) as [[tracker' entry]|] eqn:E2;
    cbn [fst snd tool_call_counter cost_tracker].
  - split; [reflexivity|]. split; [reflexivity|]. split.
    + by rewrite !outcomes_app, Hlog1, monitoring_outcomes.
    + left. exists entry.
      pose proof E2 as E3. apply pro_entry in E2 as (Hc & Ht & Hr & Hp & Hi & Ho).
      apply LedgerFacts.log_request_cost_effect in E3 as (_ & _ & _ & _ & _ & _ & _ & _ & Hctx).
      eexists. rewrite Ho.
      split; [exact Hc|]. split; [exact Ht|]. split; [exact Hr|]. split; [exact Hp|].
      split; [lia|]. split; [exact Hctx|]. split; reflexivity.
  - split; [reflexivity|]. split; [reflexivity|]. split.
    + by rewrite !outcomes_app, Hlog1, monitoring_outcomes.
    + right. split; [reflexivity|].
      rewrite !elem_of_app. right. right. left. apply elem_of_cons. by left.
Qed.

(** *** [calibrate_iot_sensors] *)

Lemma split_on_length (sep : ascii) (s : string) :
  length (split_on sep s) = S (count_char sep s).
Proof.
  induction s as [|c s IH]; [reflexivity|].
  cbn [split_on count_char]. case_decide; cbn [length Nat.add].
  - by rewrite IH.
  - destruct (split_on sep s) as [|w ws]; [discriminate|]. exact IH.
Qed.

Lemma lstrip_left_trimmed (s : string) : left_trimmed (lstrip s).
Proof.
  induction s as [|c s IH]; [exact I|].
  cbn [lstrip]. destruct (is_space c) eqn:E; [exact IH | exact E].
Qed.

Lemma lstrip_fixed (s : string) : left_trimmed s → lstrip s = s.
Proof. destruct s as [|c s]; [done|]. cbn. by intros ->. Qed.

Lemma rstrip_left_trimmed (s : string) : left_trimmed s → left_trimmed (rstrip s).
Proof.
  destruct s as [|c s]; [done|]. cbn [left_trimmed rstrip]. intros Hc.
  destruct (rstrip s); [by rewrite Hc | exact Hc].
Qed.

Lemma rstrip_idemp (s : string) : rstrip (rstrip s) = rstrip s.
Proof.
  induction s as [|c s IH]; [reflexivity|].
  cbn [rstrip]. destruct (rstrip s) as [|c' r] eqn:E.
  - destruct (is_space c) eqn:Hc; [reflexivity|]. cbn [rstrip]. by rewrite Hc.
  - cbn [rstrip]. cbn [rstrip] in IH. rewrite IH. reflexivity.
Qed.

(** [strip] leaves a stripped string as it is. *)
Lemma strip_idemp (s : string) : strip (strip s) = strip s.
Proof.
  unfold strip.
  rewrite (lstrip_fixed (rstrip (lstrip s)))
    by apply rstrip_left_trimmed, lstrip_left_trimmed.
  apply rstrip_idemp.
Qed.

(** Joining the fields of a string with the separator gives the string
    back. *)
Lemma join_split_on (sep : ascii) (s : string) :
  join (String sep EmptyString) (split_on sep s) = s.
Proof.
  induction s as [|c s IH]; [reflexivity|].
  cbn [split_on]. pose proof (split_on_length sep s) as Hlen.
  destruct (split_on sep s) as [|w ws]; [discriminate|]. clear Hlen.
  case_decide as Hc.
  - subst c.
    change (String sep (join (String sep EmptyString) (w :: ws)) = String sep s).
    by rewrite IH.
  - destruct ws as [|w' ws]; cbn [join] in *; by rewrite <- IH.
Qed.

(** No field holds the separator. *)
Lemma split_on_fields (sep : ascii) (s : string) :
  Forall (λ name, count_char sep name = 0) (split_on sep s).
Proof.
  induction s as [|c s IH]; [by repeat constructor|].
  cbn [split_on]. case_decide as Hc; [by constructor|].
  destruct (split_on sep s) as [|w ws].
  - constructor; [|constructor]. cbn [count_char]. by rewrite decide_False by done.
  - apply Forall_cons in IH as [Hw Hws]. constructor; [|exact Hws].
    cbn [count_char]. by rewrite decide_False, Hw by done.
Qed.

(** X13. [calibrate_iot_sensors] calibrates one sensor for each field of
    the comma-separated argument, the empty fields included: the fields are
    the strings without a comma that, joined by commas, give the argument;
    the number reported as total_sensors and the number of calibration
    records are the number of commas plus one, so at least one, also for
    the empty argument; the records follow the fields in order, each record
    names its field without the white space around it and has status
    calibrated; the overall result is SUCCESS and the tool counter goes up
    by one. *)
Theorem calibrate_counts_fields (env : ToolEnv) (device_id sensor_types : string)
    (counter : nat) :
  let run := calibrate_iot_sensors env device_id sensor_types counter in
  let n := S (count_char "," sensor_types) in
  run.1 = S counter
  ∧ ∃ names fields records,
      join "," names = sensor_types
      ∧ Forall (λ name, count_char "," name = 0) names
      ∧ length names = n
      ∧ run.2 = VDict fields
      ∧ field "result" fields = Some (VStr "SUCCESS")
      ∧ field "total_sensors" fields = Some (VInt (Z.of_nat n))
      ∧ field "sensors_calibrated" fields = Some (VList records)
      ∧ length records = n
      ∧ Forall2 (λ name record,
                   ∃ sensor offset accuracy,
                     record = VDict [("sensor_type", VStr sensor);
                                     ("calibration_offset", VFloat offset);
                                     ("accuracy_improvement", VStr accuracy);
                                     ("status", VStr "calibrated")]
                     ∧ sensor = strip name
                     ∧ strip sensor = sensor)
                names records.
Proof.
  cbn zeta. unfold calibrate_iot_sensors. cbn [fst snd].
  split; [reflexivity|]. exists (split_on "," sensor_types). eexists _, _.
  split; [apply join_split_on|]. split; [apply split_on_fields|].
  split; [apply split_on_length|]. split; [reflexivity|].
  rewrite split_on_length. split; [reflexivity|]. split; [reflexivity|].
  split; [reflexivity|]. rewrite length_imap, split_on_length. split; [reflexivity|].
  generalize (split_on "," sensor_types). intros names.
  apply Forall2_same_length_lookup_2; [by rewrite length_imap|].
  intros i name record Hname Hrecord.
  rewrite list_lookup_imap, Hname in Hrecord. injection Hrecord as <-.
  unfold calibrate_sensor. eexists _, _, _.
  split; [reflexivity|]. split; [reflexivity | apply strip_idemp].
Qed.

End RemediationFacts.

(** ** The analysis tools of the first stage *)

Module LogToolsFacts.
Import PyStr PyStrFacts PyNum LogTools.

(** The order of binary64 floats is transitive. *)
Lemma SFltb_trans (x y z : spec_float) :
  SFltb x y = true → SFltb y z = true → SFltb x z = true.
Proof.
  unfold SFltb.
  destruct x as [sx|sx| |sx mx ex], y as [sy|sy| |sy my ey], z as [sz|sz| |sz mz ez];
    cbn; try discriminate; try reflexivity;
    repeat match goal with s : bool |- _ => destruct s end; cbn;
    try discriminate; try reflexivity.
  all: destruct (Z.compare_spec ex ey), (Z.compare_spec ey ez), (Z.compare_spec ex ez);
    try discriminate; try reflexivity; try lia; subst.
  all: fold (Pos.compare mx my); fold (Pos.compare my mz); fold (Pos.compare mx mz).
  all: destruct (Pos.compare_spec mx my), (Pos.compare_spec my mz), (Pos.compare_spec mx mz);
    cbn; try discriminate; try reflexivity; try lia.
Qed.

Lemma float_lt_trans (x y z : float) :
  PrimFloat.ltb x y = true → PrimFloat.ltb y z = true → PrimFloat.ltb x z = true.
Proof. rewrite !ltb_spec. apply SFltb_trans. Qed.

(** A value above the larger of two thresholds is above the smaller. *)
Lemma gt_above (a b x : float) :
  PrimFloat.ltb a b = true → gt x a = false → gt x b = false.
Proof.
  unfold gt. intros Hab Ha. destruct (PrimFloat.ltb b x) eqn:Hb; [|reflexivity].
  by rewrite (float_lt_trans a b x Hab Hb) in Ha.
Qed.

(** A value below the smaller of two thresholds is below the larger. *)
Lemma lt_below (a b x : float) :
  PrimFloat.ltb a b = true → lt x b = false → lt x a = false.
Proof.
  unfold lt. intros Hab Hb. destruct (PrimFloat.ltb x a) eqn:Ha; [|reflexivity].
  by rewrite (float_lt_trans x a b Ha Hab) in Hb.
Qed.

(** X14. The level the three two-metric tools report is decided by the
    thresholds alone, and it is followed by the issues found, in the order
    of the two metrics, with a comma and a blank between them:
    [analyze_device_metrics] reports HIGH when a metric is above 90,
    otherwise MEDIUM when one is above 60, otherwise LOW, with an issue for
    each metric above 60; [check_device_health] reports CRITICAL when the
    temperature is above 70 or the battery below 10, otherwise MEDIUM when
    the temperature is above 60 or the battery below 20, otherwise GOOD,
    with an issue for a temperature above 60 and one for a battery below
    20; and [analyze_network_performance] reports HIGH when the latency is
    above 500 or the packet loss above 5, otherwise MEDIUM when the latency
    is above 150 or the loss above 1, otherwise GOOD, with an issue for a
    latency above 150 and one for a loss above 1, each marked HIGH above
    300 and 3 and ELEVATED otherwise. The test for found issues that guards
    the level never hides the higher level, and without issues the result
    is the normal line with nothing after it. A metric that is not a number
    is above and below no threshold. *)
Theorem levels_follow_thresholds (r : Rendering) (device_id : string) (x y : float) :
  analyze_device_metrics r device_id x y
  = "Device " +:+ device_id +:+ ": " +:+ metrics_level x y
    +:+ join ", "
          ((if gt x 60 then ["HIGH CPU usage: " +:+ str_float r x +:+ "%"] else [])
           ++ (if gt y 60 then ["HIGH memory usage: " +:+ str_float r y +:+ "%"] else []))
  ∧ check_device_health r device_id x y
    = "Device " +:+ device_id +:+ ": " +:+ health_level x y
      +:+ join ", "
            ((if gt x 60
              then ["HIGH temperature: " +:+ str_float r x +:+ degree_sign +:+ "C"]
              else [])
             ++ (if lt y 20 then ["LOW battery: " +:+ str_float r y +:+ "%"] else []))
  ∧ analyze_network_performance r device_id x y
    = "Device " +:+ device_id +:+ ": " +:+ network_level x y
      +:+ join ", "
            ((if gt x 300 then ["HIGH latency: " +:+ str_float r x +:+ "ms"]
              else if gt x 150 then ["ELEVATED latency: " +:+ str_float r x +:+ "ms"]
              else [])
             ++ (if gt y 3 then ["HIGH packet loss: " +:+ str_float r y +:+ "%"]
                 else if gt y 1 then ["ELEVATED packet loss: " +:+ str_float r y +:+ "%"]
                 else []))
  ∧ analyze_device_metrics r device_id nan nan
    = "Device " +:+ device_id +:+ ": LOW severity. Metrics within normal range."
  ∧ check_device_health r device_id nan nan
    = "Device " +:+ device_id +:+ ": GOOD health status."
  ∧ analyze_network_performance r device_id nan nan
    = "Device " +:+ device_id +:+ ": GOOD network performance.".
Proof.
  split; [|split; [|split; [|by repeat split]]].
  - unfold analyze_device_metrics, metrics_level.
    generalize ("HIGH CPU usage: " +:+ str_float r x +:+ "%")
      ("HIGH memory usage: " +:+ str_float r y +:+ "%"). intros cpu memory.
    pose proof (gt_above 60 90 x eq_refl) as Hx.
    pose proof (gt_above 60 90 y eq_refl) as Hy.
    destruct (gt x 60); [|rewrite (Hx eq_refl)];
      (destruct (gt y 60); [|rewrite (Hy eq_refl)]);
      try destruct (gt x 90); try destruct (gt y 90);
      cbn [orb app nonempty]; reflexivity.
  - unfold check_device_health, health_level.
    generalize ("HIGH temperature: " +:+ str_float r x +:+ degree_sign +:+ "C")
      ("LOW battery: " +:+ str_float r y +:+ "%"). intros temperature battery.
    pose proof (gt_above 60 70 x eq_refl) as Hx.
    pose proof (lt_below 10 20 y eq_refl) as Hy.
    destruct (gt x 60); [|rewrite (Hx eq_refl)];
      (destruct (lt y 20); [|rewrite (Hy eq_refl)]);
      try destruct (gt x 70); try destruct (lt y 10);
      cbn [orb app nonempty]; reflexivity.
  - unfold analyze_network_performance, network_level.
    generalize ("HIGH latency: " +:+ str_float r x +:+ "ms")
      ("ELEVATED latency: " +:+ str_float r x +:+ "ms")
      ("HIGH packet loss: " +:+ str_float r y +:+ "%")
      ("ELEVATED packet loss: " +:+ str_float r y +:+ "%").
    intros high_latency latency high_loss loss.
    pose proof (gt_above 150 300 x eq_refl) as Hx1.
    pose proof (gt_above 300 500 x eq_refl) as Hx2.
    pose proof (gt_above 1 3 y eq_refl) as Hy1.
    pose proof (gt_above 3 5 y eq_refl) as Hy2.
    destruct (gt x 150); [|rewrite (Hx1 eq_refl), (Hx2 (Hx1 eq_refl))];
      (destruct (gt y 1); [|rewrite (Hy1 eq_refl), (Hy2 (Hy1 eq_refl))]);
      try (destruct (gt x 300); [|rewrite (Hx2 eq_refl)]);
      try (destruct (gt y 3); [|rewrite (Hy2 eq_refl)]);
      try destruct (gt x 500); try destruct (gt y 5);
      cbn [orb app nonempty]; reflexivity.
Qed.

(** The tests on the workload, by region. *)
Lemma workload_regions (z : Z) :
  ((8 <=? z)%Z = true ∧ (6 <=? z)%Z = true ∧ (4 <=? z)%Z = true)
  ∨ ((8 <=? z)%Z = false ∧ (6 <=? z)%Z = true ∧ (4 <=? z)%Z = true)
  ∨ ((8 <=? z)%Z = false ∧ (6 <=? z)%Z = false ∧ (4 <=? z)%Z = true)
  ∨ ((8 <=? z)%Z = false ∧ (6 <=? z)%Z = false ∧ (4 <=? z)%Z = false).
Proof.
  destruct (Z.leb_spec 8 z), (Z.leb_spec 6 z), (Z.leb_spec 4 z); try lia; tauto.
Qed.

(** The tests on the error count, by region. *)
Lemma error_regions (z : Z) :
  ((20 <? z)%Z = true ∧ (10 <? z)%Z = true ∧ (5 <? z)%Z = true ∧ (0 <? z)%Z = true)
  ∨ ((20 <? z)%Z = false ∧ (10 <? z)%Z = true ∧ (5 <? z)%Z = true ∧ (0 <? z)%Z = true)
  ∨ ((20 <? z)%Z = false ∧ (10 <? z)%Z = false ∧ (5 <? z)%Z = true ∧ (0 <? z)%Z = true)
  ∨ ((20 <? z)%Z = false ∧ (10 <? z)%Z = false ∧ (5 <? z)%Z = false ∧ (0 <? z)%Z = true)
  ∨ ((20 <? z)%Z = false ∧ (10 <? z)%Z = false ∧ (5 <? z)%Z = false ∧ (0 <? z)%Z = false).
Proof.
  destruct (Z.ltb_spec 20 z), (Z.ltb_spec 10 z), (Z.ltb_spec 5 z), (Z.ltb_spec 0 z);
    try lia; tauto.
Qed.

(** The tests on the failure type, by region. *)
Lemma failure_regions (z : Z) :
  ((8 <=? z)%Z = true ∧ (5 <=? z)%Z = true ∧ (3 <=? z)%Z = true ∧ (0 <? z)%Z = true)
  ∨ ((8 <=? z)%Z = false ∧ (5 <=? z)%Z = true ∧ (3 <=? z)%Z = true ∧ (0 <? z)%Z = true)
  ∨ ((8 <=? z)%Z = false ∧ (5 <=? z)%Z = false ∧ (3 <=? z)%Z = true ∧ (0 <? z)%Z = true)
  ∨ ((8 <=? z)%Z = false ∧ (5 <=? z)%Z = false ∧ (3 <=? z)%Z = false ∧ (0 <? z)%Z = true)
  ∨ ((8 <=? z)%Z = false ∧ (5 <=? z)%Z = false ∧ (3 <=? z)%Z = false ∧ (0 <? z)%Z = false).
Proof.
  destruct (Z.leb_spec 8 z), (Z.leb_spec 5 z), (Z.leb_spec 3 z), (Z.ltb_spec 0 z);
    try lia; tauto.
Qed.

(** X15. The level [analyze_operational_metrics] reports is decided by
    its arguments as follows: CRITICAL when there are more than 20 errors
    or the workload or the failure type is 8 or more; otherwise HIGH when
    the uptime is below 24 hours or the workload is 6 or more or there are
    more than 10 errors or the failure type is 5 or more; otherwise MEDIUM
    when the uptime is above 720 hours or the workload is 4 or more or
    there is an error or the failure type is positive; otherwise GOOD, with
    nothing after the status line. So a recent restart alone is reported as
    HIGH operational issues. *)
Theorem operational_level_by_thresholds (r : Rendering) (device_id : string)
    (uptime_hrs : float) (workload_intensity error_count failure_type : Z) :
  ∃ rest,
    analyze_operational_metrics r device_id uptime_hrs workload_intensity error_count
      failure_type
    = "Device " +:+ device_id +:+ ": "
      +:+ operational_level uptime_hrs workload_intensity error_count failure_type +:+ rest
    ∧ (operational_level uptime_hrs workload_intensity error_count failure_type
       = "GOOD operational status." → rest = EmptyString).
Proof.
  unfold analyze_operational_metrics, operational_findings, operational_level.
  generalize (fixed_1 r uptime_hrs) (pretty workload_intensity) (pretty error_count)
    (pretty failure_type). intros s1 s2 s3 s4.
  repeat match goal with
         | |- context [[?a +:+ ?b]] => generalize (a +:+ b); intro
         end.
  generalize (join ", "). intros joined.
  destruct (lt uptime_hrs 24); [|destruct (gt uptime_hrs 720)]; cbn [orb app nonempty].
  all: destruct (workload_regions workload_intensity)
    as [(W1 & W2 & W3)|[(W1 & W2 & W3)|[(W1 & W2 & W3)|(W1 & W2 & W3)]]];
    rewrite ?W1, ?W2, ?W3; cbn [orb app nonempty]; clear W1 W2 W3.
  all: destruct (error_regions error_count)
    as [(E1 & E2 & E3 & E4)|[(E1 & E2 & E3 & E4)|[(E1 & E2 & E3 & E4)
        |[(E1 & E2 & E3 & E4)|(E1 & E2 & E3 & E4)]]]];
    rewrite ?E1, ?E2, ?E3, ?E4; cbn [orb app nonempty]; clear E1 E2 E3 E4.
  all: destruct (failure_regions failure_type)
    as [(F1 & F2 & F3 & F4)|[(F1 & F2 & F3 & F4)|[(F1 & F2 & F3 & F4)
        |[(F1 & F2 & F3 & F4)|(F1 & F2 & F3 & F4)]]]];
    rewrite ?F1, ?F2, ?F3, ?F4; cbn [orb app nonempty]; clear F1 F2 F3 F4.
  all: rewrite ?append_assoc.
  all: eexists; (split; [reflexivity | try discriminate]).
  all: intros _; reflexivity.
Qed.

End LogToolsFacts.

(** ** The diagnosis tools *)

Module DiagnosisFacts.
Import PyStr PyStrFacts PyNum LogTools Diagnosis.
Import Stage2 (_mark_tool_called).
#[local] Arguments String.append !_ _ / : simpl nomatch.

(** *** Splitting and searching *)

(** Without an occurrence of the separator, [split] gives the string as
    its only piece. *)
Lemma split_without_separator (sep s : string) :
  contains sep s = false → split sep s = [s].
Proof.
  unfold split. induction s as [|c s IH]; [reflexivity|].
  cbn [contains split_from]. intros H. apply orb_false_iff in H as [Hs Hc].
  rewrite Hs, (IH Hc). reflexivity.
Qed.

Lemma contains_prefix (a b s : string) :
  contains (a +:+ b) s = true → contains a s = true.
Proof.
  rewrite !contains_spec. intros (pre & post & ->).
  exists pre, (b +:+ post). by rewrite append_assoc.
Qed.

(** A data section exists only in a report with the marker. *)
Lemma data_section_marker (report d : string) :
  data_section_of report = inr d →
  contains "LOG REFERENCE DATA:" report = true
  ∧ contains "LOG REFERENCE DATA" report = true.
Proof.
  unfold data_section_of. intros H.
  assert (contains "LOG REFERENCE DATA:" report = true) as Hc.
  { destruct (contains "LOG REFERENCE DATA:" report) eqn:E; [reflexivity|].
    by rewrite (split_without_separator _ _ E) in H. }
  split; [exact Hc|]. by apply (contains_prefix _ ":").
Qed.

Lemma no_colon_no_section (report : string) :
  contains "LOG REFERENCE DATA:" report = false → data_section_of report = inl IndexError.
Proof.
  intros H. unfold data_section_of. by rewrite (split_without_separator _ _ H).
Qed.

Lemma take_while_all (class : ascii → bool) (s : string) :
  all_in class (take_while class s) = true.
Proof.
  induction s as [|c s IH]; [reflexivity|].
  cbn [take_while]. destruct (class c) eqn:E; [|reflexivity].
  cbn [all_in]. by rewrite E, IH.
Qed.

Lemma match_here_group (class : ascii → bool) (label s group : string) :
  match_here class label s = Some group →
  all_in class group = true ∧ truthy group = true ∧ startswith label s = true.
Proof.
  unfold match_here. destruct (startswith label s); [|discriminate].
  set (g := take_while _ _). destruct (truthy g) eqn:E; [|discriminate].
  intros [= <-]. split; [apply take_while_all | by split].
Qed.

(** The group of a match is a non-empty run of characters of the class,
    and the label occurs in the text. *)
Lemma search_group (class : ascii → bool) (label s group : string) :
  search class label s = Some group →
  all_in class group = true ∧ truthy group = true ∧ contains label s = true.
Proof.
  induction s as [|c s IH]; cbn [search contains].
  - destruct (match_here class label EmptyString) as [g|] eqn:E; [|discriminate].
    intros [= <-]. apply match_here_group in E as (H1 & H2 & ->). by repeat split.
  - destruct (match_here class label (String c s)) as [g|] eqn:E.
    + intros [= <-]. apply match_here_group in E as (H1 & H2 & ->). by repeat split.
    + intros H. destruct (IH H) as (H1 & H2 & ->). rewrite orb_true_r. by repeat split.
Qed.

Lemma search_absent (class : ascii → bool) (label s : string) :
  contains label s = false → search class label s = None.
Proof.
  intros H. destruct (search class label s) as [group|] eqn:E; [|reflexivity].
  apply search_group in E as (_ & _ & E). congruence.
Qed.

(** *** Conversion of a group *)

Lemma digit_not_dot (c : ascii) : is_digit c = true → c ≠ "."%char.
Proof. intros H ->. discriminate. Qed.

Lemma class_dot (c : ascii) : digit_or_dot c = true → is_digit c = false → c = "."%char.
Proof.
  unfold digit_or_dot. intros H Hd. rewrite Hd in H. cbn in H.
  apply Nat.eqb_eq in H. rewrite <- (ascii_nat_embedding c), H. reflexivity.
Qed.

Lemma count_digits (s : string) : all_in is_digit s = true → count_of "." s = 0.
Proof.
  induction s as [|c s IH]; [reflexivity|]. cbn [all_in count_of].
  intros H. apply andb_true_iff in H as [Hc Hs].
  rewrite (IH Hs). case_decide as E; [|reflexivity]. by apply digit_not_dot in Hc.
Qed.

Lemma digits_count (s : string) :
  all_in digit_or_dot s = true → count_of "." s = 0 → all_in is_digit s = true.
Proof.
  induction s as [|c s IH]; [reflexivity|]. cbn [all_in count_of].
  intros H Hn. apply andb_true_iff in H as [Hc Hs].
  destruct (is_digit c) eqn:Hd.
  - cbn. apply IH; [exact Hs|]. case_decide; lia.
  - rewrite (class_dot c Hc Hd), decide_True in Hn by done. lia.
Qed.

Lemma count_le_length (c : ascii) (s : string) : count_of c s ≤ String.length s.
Proof. induction s as [|x s IH]; cbn; [lia|]. case_decide; lia. Qed.

(** The digits a group begins with, and what follows them. *)
Lemma group_parts (group : string) :
  all_in digit_or_dot group = true →
  let whole := take_while is_digit group in
  let rest := drop_str (String.length whole) group in
  group = whole +:+ rest
  ∧ count_of "." group = count_of "." rest
  ∧ String.length group = String.length whole + String.length rest
  ∧ match rest with
    | EmptyString => True
    | String c frac => c = "."%char ∧ all_in digit_or_dot frac = true
    end.
Proof.
  induction group as [|c group IH]; [by intros _|].
  cbn [all_in]. intros H. apply andb_true_iff in H as [Hc Hs].
  cbn [take_while]. destruct (is_digit c) eqn:Hd.
  - cbn [String.length drop_str]. destruct (IH Hs) as (H1 & H2 & H3 & H4).
    cbn zeta in H1, H2, H3, H4.
    split; [cbn; by rewrite <- H1|]. split; [|split; [cbn; lia | exact H4]].
    cbn [count_of]. rewrite H2. case_decide as E; [|reflexivity].
    by apply digit_not_dot in Hd.
  - cbn [String.length drop_str]. split; [reflexivity|]. split; [reflexivity|].
    split; [reflexivity|]. split; [by apply class_dot | exact Hs].
Qed.

(** [float] refuses exactly the groups with two points or more and those
    without a digit. *)
Lemma float_of_group_refuses (group : string) :
  all_in digit_or_dot group = true →
  (float_of_group group = None
   ↔ 2 ≤ count_of "." group ∨ count_of "." group = String.length group).
Proof.
  intros Hclass. unfold float_of_group.
  destruct (group_parts group Hclass) as (Hg & Hcount & Hlen & Hrest).
  cbn zeta in Hg, Hcount, Hlen, Hrest.
  set (whole := take_while is_digit group) in *. clearbody whole.
  destruct (drop_str (String.length whole) group) as [|c frac].
  - cbn in Hcount, Hlen. rewrite Hcount. destruct whole as [|d whole]; cbn in *.
    + split; [intros _; right; lia | done].
    + split; [done | intros [H|H]; lia].
  - destruct Hrest as [-> Hfrac]. cbn [count_of String.length] in Hcount, Hlen.
    rewrite decide_True in Hcount by done. rewrite Hcount, Hlen.
    pose proof (count_le_length "." frac) as Hle.
    destruct (all_in is_digit frac) eqn:Hd.
    + rewrite (count_digits frac Hd). cbn [andb].
      destruct whole as [|d whole], frac as [|d' frac]; cbn;
        (split; [try done; intros _; right; lia | try done; intros [H|H]; lia]).
    + cbn [andb]. split; [intros _; left | done].
      destruct (count_of "." frac) as [|n] eqn:Hn; [|lia].
      by rewrite (digits_count frac Hfrac Hn) in Hd.
Qed.

(** *** What the tools do *)

Lemma cpu_remediation_balanced n acts x :
  balanced n acts → balanced (S n) (cpu_remediation acts x).
Proof.
  unfold balanced, cpu_remediation. intros H.
  destruct (gt x 80); [|destruct (gt x 60)]; cbn [fst snd]; rewrite ?length_app; cbn; lia.
Qed.

Lemma memory_remediation_balanced n acts x :
  balanced n acts → balanced (S n) (memory_remediation acts x).
Proof.
  unfold balanced, memory_remediation. intros H.
  destruct (gt x 85); cbn [fst snd]; rewrite ?length_app; cbn; lia.
Qed.

Lemma network_remediation_balanced n acts x :
  balanced n acts → balanced (S n) (network_remediation acts x).
Proof.
  unfold balanced, network_remediation. intros H.
  destruct (gt x 150); cbn [fst snd]; rewrite ?length_app; cbn; lia.
Qed.

Lemma when_found_balanced {B} (body : Actions → B → Actions) n acts (m : option B) :
  (∀ x, balanced n acts → balanced (S n) (body acts x)) →
  balanced n acts → balanced (S n) (when_found body acts m).
Proof.
  intros Hbody H. destruct m as [x|]; cbn; [by apply Hbody|].
  unfold balanced in *. lia.
Qed.

Lemma planned_actions_balanced (report : string) (acts : Actions) :
  planned_actions report = inr acts → balanced 3 acts.
Proof.
  unfold planned_actions.
  destruct (contains "LOG REFERENCE DATA" report);
    [|intros [= <-]; unfold balanced; cbn; lia].
  destruct (data_section_of report) as [e|d]; [discriminate|]. cbn [bind_exn].
  destruct (contains "Device_ID:" d).
  - destruct (float_metric "CPU_Usage (%):" d) as [e|cpu]; [discriminate|].
    cbn [bind_exn].
    destruct (float_metric "Memory_Usage (%):" d) as [e|memory]; [discriminate|].
    cbn [bind_exn].
    destruct (float_metric "Network_Latency (ms):" d) as [e|latency]; [discriminate|].
    cbn [bind_exn]. intros [= <-].
    apply when_found_balanced; [intros x; apply network_remediation_balanced|].
    apply when_found_balanced; [intros x; apply memory_remediation_balanced|].
    apply when_found_balanced; [intros x; apply cpu_remediation_balanced|].
    unfold balanced. cbn. lia.
  - destruct (contains "Model:" d); intros [= <-]; unfold balanced; cbn; lia.
Qed.

(** X16. [generate_remediation_plan] counts its call and then: for a
    report without the words LOG REFERENCE DATA it returns the bare
    heading; for a data section without Device_ID: it returns the fixed
    camera plan when the section has Model: and the bare heading
    otherwise, whatever the metrics in it; and whenever it returns, the
    plan is built from at most three immediate actions and no more
    preventive measures than immediate actions, so it never has a
    PREVENTIVE part without an IMMEDIATE part. *)
Theorem remediation_plan_shape (report : string) (counter : nat) :
  let run := generate_remediation_plan report counter in
  run.1 = S counter
  ∧ (contains "LOG REFERENCE DATA" report = false → run.2 = inr "REMEDIATION_PLAN:")
  ∧ (∀ d, data_section_of report = inr d →
          contains "Device_ID:" d = false →
          run.2 = inr (if contains "Model:" d
                       then "REMEDIATION_PLAN: IMMEDIATE: Update firmware if available PREVENTIVE: Consider hardware upgrade planning"
                       else "REMEDIATION_PLAN:"))
  ∧ (∀ plan, run.2 = inr plan →
       ∃ immediate preventive,
         plan = build_plan (immediate, preventive)
         ∧ length preventive ≤ length immediate ≤ 3
         ∧ (preventive ≠ [] → immediate ≠ [])).
Proof.
  cbn zeta. unfold generate_remediation_plan. cbn [fst snd].
  split; [reflexivity|]. split; [|split].
  - intros H. unfold planned_actions. by rewrite H.
  - intros d Hd Hdev. destruct (data_section_marker _ _ Hd) as [_ Hm].
    unfold planned_actions. rewrite Hm, Hd. cbn [bind_exn]. rewrite Hdev.
    by destruct (contains "Model:" d).
  - intros plan. destruct (planned_actions report) as [e|[immediate preventive]] eqn:E;
      [discriminate|].
    cbn [bind_exn]. intros [= <-]. exists immediate, preventive.
    apply planned_actions_balanced in E. unfold balanced in E. cbn [fst snd] in E.
    split; [reflexivity|]. split; [exact E|].
    intros Hp ->. destruct preventive; [done | cbn in E; lia].
Qed.

(** X17. A report that has the words LOG REFERENCE DATA but not followed
    by a colon makes the tools raise IndexError, after the call has been
    counted: the test looks for the words and the split for the words with
    the colon. *)
Theorem marker_without_colon_raises (rt : Runtime) (report : string) (counter : nat) :
  contains "LOG REFERENCE DATA" report = true →
  contains "LOG REFERENCE DATA:" report = false →
  generate_remediation_plan report counter = (S counter, inl IndexError)
  ∧ assess_severity_level rt report counter = (S counter, inl IndexError)
  ∧ diagnose_camera_equipment rt report counter = (S counter, inl IndexError).
Proof.
  intros Hwords Hcolon. apply no_colon_no_section in Hcolon.
  unfold generate_remediation_plan, assess_severity_level, diagnose_camera_equipment,
    planned_actions, severity_factors, camera_specs.
  rewrite Hwords, Hcolon. by repeat split.
Qed.

Lemma marker_without_colon_raises_witness :
  let rt := {| str_float := λ _, "95.0"; int_max_str_digits := 4300 |} in
  let report := "LOG REFERENCE DATA - Device_ID: D1, CPU_Usage (%): 95" in
  generate_remediation_plan report 0 = (1, inl IndexError)
  ∧ assess_severity_level rt report 0 = (1, inl IndexError)
  ∧ diagnose_camera_equipment rt report 0 = (1, inl IndexError).
Proof.
  cbn zeta.
  apply (marker_without_colon_raises
           {| str_float := λ _, "95.0"; int_max_str_digits := 4300 |}
           "LOG REFERENCE DATA - Device_ID: D1, CPU_Usage (%): 95" 0);
    reflexivity.
Defined.

(** X18. The number of a metric is the longest run of digits and points
    after its label, and [float] refuses it exactly when it has two points
    or more or no digit. So when the CPU value of an IoT data section reads
    like that, as a decimal number followed by the full stop of a sentence
    does, [generate_remediation_plan] and [assess_severity_level] raise
    ValueError for it. *)
Theorem malformed_number_raises (rt : Runtime) (report d group : string) (counter : nat) :
  data_section_of report = inr d →
  contains "Device_ID:" d = true →
  search digit_or_dot "CPU_Usage (%):" d = Some group →
  (float_of_group group = None
   ↔ 2 ≤ count_of "." group ∨ count_of "." group = String.length group)
  ∧ (float_of_group group = None →
     generate_remediation_plan report counter = (S counter, inl (ValueError group))
     ∧ assess_severity_level rt report counter = (S counter, inl (ValueError group))).
Proof.
  intros Hd Hdev Hsearch.
  destruct (search_group _ _ _ _ Hsearch) as (Hclass & _ & _).
  split; [by apply float_of_group_refuses|].
  intros Hnone. destruct (data_section_marker _ _ Hd) as [_ Hm].
  unfold generate_remediation_plan, assess_severity_level, planned_actions,
    severity_factors, float_metric.
  rewrite Hm, Hd. cbn [bind_exn]. rewrite Hdev, Hsearch, Hnone. by split.
Qed.

Lemma malformed_number_raises_witness :
  let rt := {| str_float := λ _, "95.5"; int_max_str_digits := 4300 |} in
  let report := "Findings. LOG REFERENCE DATA: Device_ID: D1. CPU_Usage (%): 95.5. End." in
  generate_remediation_plan report 0 = (1, inl (ValueError "95.5."))
  ∧ assess_severity_level rt report 0 = (1, inl (ValueError "95.5.")).
Proof.
  cbn zeta.
  apply (malformed_number_raises
           {| str_float := λ _, "95.5"; int_max_str_digits := 4300 |}
           "Findings. LOG REFERENCE DATA: Device_ID: D1. CPU_Usage (%): 95.5. End."
           " Device_ID: D1. CPU_Usage (%): 95.5. End." "95.5." 0);
    reflexivity.
Defined.

(** *** The severity score *)

Lemma cpu_severity_scored rt bound found x :
  scored bound found → scored (bound + 4) (cpu_severity rt found x).
Proof.
  unfold scored, cpu_severity, add_factor. intros H.
  destruct (gt x 90); [|destruct (gt x 80); [|destruct (gt x 60)]]; cbn [snd]; lia.
Qed.

Lemma memory_severity_scored rt bound found x :
  scored bound found → scored (bound + 4) (memory_severity rt found x).
Proof.
  unfold scored, memory_severity, add_factor. intros H.
  destruct (gt x 90); [|destruct (gt x 85)]; cbn [snd]; lia.
Qed.

Lemma latency_severity_scored rt bound found x :
  scored bound found → scored (bound + 4) (latency_severity rt found x).
Proof.
  unfold scored, latency_severity, add_factor. intros H.
  destruct (gt x 300); [|destruct (gt x 200); [|destruct (gt x 150)]]; cbn [snd]; lia.
Qed.

Lemma error_severity_scored bound found x :
  scored bound found → scored (bound + 4) (error_severity found x).
Proof.
  unfold scored, error_severity, add_factor. intros H.
  destruct (5 <? x)%Z; [|destruct (3 <? x)%Z; [|destruct (1 <? x)%Z]]; cbn [snd]; lia.
Qed.

(** A metric adds to the score only when its label occurs. *)
Lemma float_metric_scored (label d : string) (body : Factors → float → Factors)
    (bound : Z) (found : Factors) (m : option float) :
  float_metric label d = inr m →
  (∀ x, scored bound found → scored (bound + 4) (body found x)) →
  scored bound found →
  scored (bound + (if contains label d then 4 else 0)) (when_found body found m).
Proof.
  unfold float_metric. intros Hm Hbody H.
  destruct (search digit_or_dot label d) as [group|] eqn:E.
  - apply search_group in E as (_ & _ & ->).
    destruct m as [x|]; cbn; [by apply Hbody | unfold scored in *; lia].
  - injection Hm as <-. cbn. unfold scored in *. destruct (contains label d); lia.
Qed.

Lemma int_metric_scored (rt : Runtime) (label d : string) (body : Factors → Z → Factors)
    (bound : Z) (found : Factors) (m : option Z) :
  int_metric rt label d = inr m →
  (∀ x, scored bound found → scored (bound + 4) (body found x)) →
  scored bound found →
  scored (bound + (if contains label d then 4 else 0)) (when_found body found m).
Proof.
  unfold int_metric. intros Hm Hbody H.
  destruct (search is_digit label d) as [group|] eqn:E.
  - apply search_group in E as (_ & _ & ->).
    destruct m as [x|]; cbn; [by apply Hbody | unfold scored in *; lia].
  - injection Hm as <-. cbn. unfold scored in *. destruct (contains label d); lia.
Qed.

Lemma labels_present_scored (d : string) :
  (4 * labels_present scored_labels d
   = (if contains "CPU_Usage (%):" d then 4 else 0)
     + (if contains "Memory_Usage (%):" d then 4 else 0)
     + (if contains "Network_Latency (ms):" d then 4 else 0)
     + (if contains "Error_Count:" d then 4 else 0))%Z.
Proof.
  unfold labels_present, scored_labels. cbn [List.filter].
  destruct (contains "CPU_Usage (%):" d), (contains "Memory_Usage (%):" d),
    (contains "Network_Latency (ms):" d), (contains "Error_Count:" d); reflexivity.
Qed.

Lemma severity_factors_scored (rt : Runtime) (report d : string) (found : Factors) :
  data_section_of report = inr d →
  contains "Device_ID:" d = true →
  severity_factors rt report = inr found →
  scored (4 * labels_present scored_labels d) found.
Proof.
  intros Hd Hdev. destruct (data_section_marker _ _ Hd) as [_ Hm].
  unfold severity_factors. rewrite Hm, Hd. cbn [bind_exn]. rewrite Hdev.
  destruct (float_metric "CPU_Usage (%):" d) as [e|cpu] eqn:E1; [discriminate|].
  cbn [bind_exn].
  destruct (float_metric "Memory_Usage (%):" d) as [e|memory] eqn:E2; [discriminate|].
  cbn [bind_exn].
  destruct (float_metric "Network_Latency (ms):" d) as [e|latency] eqn:E3; [discriminate|].
  cbn [bind_exn].
  destruct (int_metric rt "Error_Count:" d) as [e|errors] eqn:E4; [discriminate|].
  cbn [bind_exn]. intros [= <-]. rewrite labels_present_scored.
  eapply int_metric_scored; [exact E4 | intros x; apply error_severity_scored|].
  eapply float_metric_scored; [exact E3 | intros x; apply latency_severity_scored|].
  eapply float_metric_scored; [exact E2 | intros x; apply memory_severity_scored|].
  replace (if contains "CPU_Usage (%):" d then 4%Z else 0%Z)
    with (0 + (if contains "CPU_Usage (%):" d then 4 else 0))%Z by lia.
  eapply float_metric_scored; [exact E1 | intros x; apply cpu_severity_scored|].
  unfold scored. cbn. lia.
Qed.

(** X19. [assess_severity_level] returns the lowest assessment, with
    score 0 and no factor, for a report without the words LOG REFERENCE
    DATA, and LOW with score 1 for a camera data section, whatever the
    specs in it. For an IoT data section the score is at most 4 for each of
    the four metrics whose label occurs in the section, so at most 16; the
    level is CRITICAL from 12, HIGH from 8 and MEDIUM from 4: a CRITICAL
    assessment needs at least three of the metrics and a HIGH one at least
    two, and a single metric, however extreme, gives MEDIUM at most. *)
Theorem severity_needs_several_metrics (rt : Runtime) (report : string) (counter : nat) :
  let run := assess_severity_level rt report counter in
  run.1 = S counter
  ∧ (contains "LOG REFERENCE DATA" report = false →
     run.2 = inr "SEVERITY_ASSESSMENT: LOW | FACTORS: NO_CRITICAL_FACTORS | SCORE: 0")
  ∧ (∀ d, data_section_of report = inr d →
          contains "Device_ID:" d = false → contains "Model:" d = true →
          run.2 = inr "SEVERITY_ASSESSMENT: LOW | FACTORS: CAMERA_ASSESSMENT | SCORE: 1")
  ∧ (∀ d assessment,
       data_section_of report = inr d → contains "Device_ID:" d = true →
       run.2 = inr assessment →
       ∃ found,
         assessment = assessment_of found
         ∧ (0 ≤ found.2 ≤ 4 * labels_present scored_labels d)%Z
         ∧ (found.2 ≤ 16)%Z
         ∧ (final_severity found.2 = "CRITICAL" → (3 ≤ labels_present scored_labels d)%Z)
         ∧ (final_severity found.2 = "HIGH" → (2 ≤ labels_present scored_labels d)%Z)
         ∧ (labels_present scored_labels d = 0%Z → final_severity found.2 = "LOW")).
Proof.
  cbn zeta. unfold assess_severity_level. cbn [fst snd].
  split; [reflexivity|]. split; [|split].
  - intros H. unfold severity_factors. by rewrite H.
  - intros d Hd Hdev Hmodel. destruct (data_section_marker _ _ Hd) as [_ Hm].
    unfold severity_factors. rewrite Hm, Hd. cbn [bind_exn]. by rewrite Hdev, Hmodel.
  - intros d assessment Hd Hdev.
    destruct (severity_factors rt report) as [e|found] eqn:E; [discriminate|].
    cbn [bind_exn]. intros [= <-]. exists found.
    pose proof (severity_factors_scored rt report d found Hd Hdev E) as Hs.
    unfold scored in Hs.
    assert (labels_present scored_labels d ≤ 4)%Z as Hfour.
    { pose proof (labels_present_scored d) as H4.
      destruct (contains "CPU_Usage (%):" d), (contains "Memory_Usage (%):" d),
        (contains "Network_Latency (ms):" d), (contains "Error_Count:" d); lia. }
    split; [reflexivity|]. split; [exact Hs|]. split; [lia|].
    unfold final_severity.
    destruct (Z.leb_spec 12 found.2), (Z.leb_spec 8 found.2), (Z.leb_spec 4 found.2);
      repeat split; try discriminate; try lia; intros _; lia.
Qed.

(** *** The camera diagnosis *)

Lemma analysis_few_issues rt n found (m1 m2 m3 : option float) :
  few_issues n found →
  few_issues (3 + n)
    (when_found (weight_analysis rt)
       (when_found (pixel_analysis rt)
          (when_found (resolution_analysis rt) found m1) m2) m3).
Proof.
  unfold few_issues, when_found, resolution_analysis, pixel_analysis, weight_analysis.
  intros H.
  destruct m1 as [x1|]; [destruct (lt x1 800); [|destruct (lt x1 1200)]|];
    (destruct m2 as [x2|]; [destruct (lt x2 1); [|destruct (lt x2 2)]|]);
    (destruct m3 as [x3|]; [destruct (gt x3 600); [|destruct (gt x3 400)]|]);
    cbn [fst snd]; rewrite ?length_app; cbn [length]; lia.
Qed.

(** X20. The camera diagnosis is never of HIGH severity: the list of value
    concerns is created and never filled, so whenever
    [diagnose_camera_equipment] returns, the severity it reports is MEDIUM
    when it found a quality issue and LOW otherwise, the diagnosis has no
    VALUE_CONCERNS part, and it names the model read from the report; there
    are at most three quality issues. *)
Theorem camera_diagnosis_never_high (rt : Runtime) (report : string) (counter : nat)
    (diagnosis : string) :
  (diagnose_camera_equipment rt report counter).2 = inr diagnosis →
  ∃ quality_issues technical_analysis,
    diagnosis
    = camera_summary (camera_model_of report)
        (if nonempty quality_issues then "MEDIUM" else "LOW")
        quality_issues [] technical_analysis
    ∧ length quality_issues ≤ 3.
Proof.
  unfold diagnose_camera_equipment. cbn [snd].
  destruct (camera_specs report) as [e|specs]; [discriminate|]. cbn [bind_exn].
  intros [= <-].
  set (found := when_found _ _ _).
  exists found.1, found.2. split.
  - unfold camera_severity. by destruct (nonempty found.1).
  - pose proof (analysis_few_issues rt 0 ([], []) (spec_resolution specs)
                  (spec_pixels specs) (spec_weight specs)) as H.
    unfold few_issues in H. cbn [fst length] in H. specialize (H (le_n 0)).
    exact H.
Qed.

Lemma camera_diagnosis_never_high_witness :
  ∃ quality_issues technical_analysis,
    "CAMERA DIAGNOSIS - X100: MEDIUM SEVERITY | QUALITY_ISSUES: LOW_RESOLUTION_SENSOR(640.0) | TECHNICAL: LIGHTWEIGHT(640.0g)"
    = camera_summary "X100" (if nonempty quality_issues then "MEDIUM" else "LOW")
        quality_issues [] technical_analysis
    ∧ length quality_issues ≤ 3.
Proof.
  exact (camera_diagnosis_never_high
           {| str_float := λ _, "640.0"; int_max_str_digits := 4300 |}
           "Model X100
LOG REFERENCE DATA: Model: X100, Max resolution: 640.0, Weight (inc. batteries): 320, Price: 179"
           0 _ eq_refl).
Defined.

(** *** The plan and the root causes *)

Lemma cpu_step_agrees rt (acts : Actions) (causes : list string) (m : option float) :
  length acts.1 = length causes →
  length (when_found cpu_remediation acts m).1
  = length (when_found (cpu_cause rt) causes m).
Proof.
  intros H. destruct m as [x|]; [|exact H].
  unfold when_found, cpu_remediation, cpu_cause.
  destruct (gt x 80); [|destruct (gt x 60)]; cbn [fst]; rewrite ?length_app; cbn; lia.
Qed.

Lemma memory_step_agrees rt (acts : Actions) (causes : list string) (m : option float) :
  length acts.1 = length causes →
  length (when_found memory_remediation acts m).1
  = length (when_found (memory_cause rt) causes m).
Proof.
  intros H. destruct m as [x|]; [|exact H].
  unfold when_found, memory_remediation, memory_cause.
  destruct (gt x 85); cbn [fst]; rewrite ?length_app; cbn; lia.
Qed.

Lemma latency_step_agrees rt (acts : Actions) (causes : list string) (m : option float) :
  length acts.1 = length causes →
  length (when_found network_remediation acts m).1
  = length (when_found (latency_cause rt) causes m).
Proof.
  intros H. destruct m as [x|]; [|exact H].
  unfold when_found, network_remediation, latency_cause.
  destruct (gt x 150); cbn [fst]; rewrite ?length_app; cbn; lia.
Qed.

Lemma error_step (causes : list string) (m : option Z) :
  length causes ≤ length (when_found error_cause causes m) ≤ length causes + 1
  ∧ (m = None → length (when_found error_cause causes m) = length causes).
Proof.
  destruct m as [x|]; cbn; [|lia]. unfold error_cause.
  destruct (2 <? x)%Z; rewrite ?length_app; cbn; split; (lia || discriminate).
Qed.

(** X21. The plan and the root-cause analysis of the same IoT report
    agree, although each tool reads the report on its own: when
    [generate_remediation_plan] raises, [analyze_root_cause] raises the
    same exception; when the plan is returned, the root-cause analysis can
    only fail on the error count, and otherwise it finds one root cause for
    each immediate action of the plan, in the same order of CPU, memory and
    latency, and at most one more, the error count, for which the plan has
    no action. *)
Theorem plan_answers_root_causes (rt : Runtime) (report d : string) :
  data_section_of report = inr d →
  contains "Device_ID:" d = true →
  match planned_actions report, root_causes rt report with
  | inl e, causes => causes = inl e
  | inr acts, inl e =>
      ∃ group, e = ValueError group ∧ search is_digit "Error_Count:" d = Some group
  | inr acts, inr causes =>
      length acts.1 ≤ length causes ≤ length acts.1 + 1
      ∧ (contains "Error_Count:" d = false → length causes = length acts.1)
  end.
Proof.
  intros Hd Hdev. destruct (data_section_marker _ _ Hd) as [_ Hm].
  unfold planned_actions, root_causes. rewrite Hm, Hd. cbn [bind_exn]. rewrite Hdev.
  destruct (float_metric "CPU_Usage (%):" d) as [e|cpu]; [reflexivity|].
  cbn [bind_exn].
  destruct (float_metric "Memory_Usage (%):" d) as [e|memory]; [reflexivity|].
  cbn [bind_exn].
  destruct (float_metric "Network_Latency (ms):" d) as [e|latency]; [reflexivity|].
  cbn [bind_exn].
  pose proof (latency_step_agrees rt _ _ latency
                (memory_step_agrees rt _ _ memory
                   (cpu_step_agrees rt ([], []) [] cpu eq_refl))) as Hlen.
  unfold int_metric.
  destruct (search is_digit "Error_Count:" d) as [group|] eqn:E.
  - destruct (int_of_group rt group) as [errors|]; cbn [bind_exn]; [|by exists group].
    destruct (error_step
                (when_found (latency_cause rt)
                   (when_found (memory_cause rt) (when_found (cpu_cause rt) [] cpu) memory)
                   latency) (Some errors)) as [Hle _].
    rewrite Hlen. split; [exact Hle|]. intros Hno.
    apply search_absent with (class := is_digit) in Hno. congruence.
  - cbn [bind_exn when_found]. rewrite Hlen. split; [lia | reflexivity].
Qed.

(** A CPU overload with seven errors: one action, two root causes. *)
Lemma plan_answers_root_causes_witness :
  match planned_actions
          "LOG REFERENCE DATA: Device_ID: D7, CPU_Usage (%): 95.5, Error_Count: 7",
        root_causes {| str_float := λ _, "95.5"; int_max_str_digits := 4300 |}
          "LOG REFERENCE DATA: Device_ID: D7, CPU_Usage (%): 95.5, Error_Count: 7" with
  | inl e, causes => causes = inl e
  | inr acts, inl e =>
      ∃ group, e = ValueError group
               ∧ search is_digit "Error_Count:"
                   " Device_ID: D7, CPU_Usage (%): 95.5, Error_Count: 7" = Some group
  | inr acts, inr causes =>
      length acts.1 ≤ length causes ≤ length acts.1 + 1
      ∧ (contains "Error_Count:" " Device_ID: D7, CPU_Usage (%): 95.5, Error_Count: 7" = false
         → length causes = length acts.1)
  end.
Proof.
  exact (plan_answers_root_causes
           {| str_float := λ _, "95.5"; int_max_str_digits := 4300 |}
           "LOG REFERENCE DATA: Device_ID: D7, CPU_Usage (%): 95.5, Error_Count: 7"
           " Device_ID: D7, CPU_Usage (%): 95.5, Error_Count: 7" eq_refl eq_refl).
Defined.

End DiagnosisFacts.
